(** * Billing, khatabook and byajbook: the computation and navigation core

    A shallow embedding of the financial computations and the view state
    machines of the jewellery shop application (App.tsx, BillingForm,
    InvoicePreview, Khatabook, Byajbook, Reports), with the properties the
    specification states about them.

    Conventions of the embedding.
    - A JavaScript [number] that carries money, weight or a rate is an exact
      rational ([Q]); equality of such numbers is [Qeq] ([==]).  Rounding,
      overflow and the infinities of IEEE-754 doubles are outside the model.
      [NaN] appears only where the source tests for it: the result of
      [parseFloat] is an [option Q] and [None] is [NaN].
    - Integers (the invoice number, millisecond timestamps) are [Z].
    - Strings are [string]; white space is the ASCII white space.
    - A React state cell is a field of an explicit state record and an event
      handler is a function from state to state.
    - A [Map<string, number>] is a [gmap string Q]. *)

From Stdlib Require Import QArith Qround Qminmax Qabs ZArith Lia Lqa.
From Stdlib Require Import Ascii String.
From Stdlib Require Import Sorting.Permutation Sorting.Sorted.
From stdpp Require Import gmap strings.

Open Scope Q_scope.

(** ** JavaScript built-ins used by the source *)

Module JS.

(** WhiteSpace and LineTerminator code points below 128. *)
Definition isWhiteSpace (c : ascii) : bool :=
  let n := Z.of_nat (nat_of_ascii c) in
  ((9 <=? n) && (n <=? 13) || (n =? 32))%Z.

Fixpoint trimStart (s : string) : string :=
  match s with
  | String c r => if isWhiteSpace c then trimStart r else s
  | EmptyString => EmptyString
  end.

Fixpoint trimEnd (s : string) : string :=
  match s with
  | EmptyString => EmptyString
  | String c r =>
      match trimEnd r with
      | EmptyString => if isWhiteSpace c then EmptyString else String c EmptyString
      | r' => String c r'
      end
  end.

(** [String.prototype.trim]. *)
Definition trim (s : string) : string := trimEnd (trimStart s).

(** ToBoolean on a string: only the empty string is falsy. *)
Definition truthy (s : string) : bool :=
  match s with
  | EmptyString => false
  | String _ _ => true
  end.

Definition digitValue (c : ascii) : option Z :=
  let n := Z.of_nat (nat_of_ascii c) in
  if ((48 <=? n) && (n <=? 57))%Z then Some (n - 48)%Z else None.

(** The longest run of decimal digits at the front of [s]: its value on top
    of [acc], the number of digits read on top of [n], and what follows. *)
Fixpoint digits (s : string) (acc : Z) (n : nat) : Z * nat * string :=
  match s with
  | String c r =>
      match digitValue c with
      | Some d => digits r (acc * 10 + d)%Z (S n)
      | None => (acc, n, s)
      end
  | EmptyString => (acc, n, s)
  end.

(** An optional sign: is it a minus, and what follows. *)
Definition sign (s : string) : bool * string :=
  match s with
  | String "-" r => (true, r)
  | String "+" r => (false, r)
  | _ => (false, s)
  end.

(** An optional exponent part; it counts only when a digit follows. *)
Definition exponent (s : string) : Z :=
  match s with
  | String c r =>
      if (Ascii.eqb c "e" || Ascii.eqb c "E")%bool then
        let '(neg, r1) := sign r in
        let '(v, n, _) := digits r1 0%Z 0%nat in
        match n with
        | O => 0%Z
        | S _ => if neg then (- v)%Z else v
        end
      else 0%Z
  | EmptyString => 0%Z
  end.

(** [parseFloat]: leading white space is skipped, the longest prefix that
    is a decimal literal is read, anything after it is ignored, and the
    result is [NaN] ([None]) when no such prefix exists.  The literal
    [Infinity] is outside the model. *)
Definition parseFloat (s : string) : option Q :=
  let '(neg, s1) := sign (trimStart s) in
  let '(ip, ni, s2) := digits s1 0%Z 0%nat in
  let '(fp, nf, s3) :=
    match s2 with
    | String "." r => digits r 0%Z 0%nat
    | _ => (0%Z, 0%nat, s2)
    end in
  match (ni + nf)%nat with
  | O => None
  | S _ =>
      let mantissa := inject_Z ip + inject_Z fp / inject_Z (10 ^ Z.of_nat nf) in
      let v := mantissa * 10 ^ exponent s3 in
      Some (if neg then - v else v)
  end.

(** [parseInt(s, 10)]: leading white space is skipped, an optional sign and
    the longest run of decimal digits are read, anything after them is
    ignored, and the result is [NaN] ([None]) when no digit is found. *)
Definition parseInt (s : string) : option Z :=
  let '(neg, s1) := sign (trimStart s) in
  let '(v, n, _) := digits s1 0%Z 0%nat in
  match n with
  | O => None
  | S _ => Some (if neg then (- v)%Z else v)
  end.

(** [x || 0] on a number that may be [NaN] or [undefined] ([None]):
    [NaN], [undefined] and zero are falsy. *)
Definition orZero (x : option Q) : Q :=
  match x with
  | Some q => if Qeq_bool q 0 then 0 else q
  | None => 0
  end.

(** [a < b] and [a <= b] on numbers. *)
Definition ltb (a b : Q) : bool := negb (Qle_bool b a).

Definition leb (a b : Q) : bool := Qle_bool a b.

(** [Array.prototype.sort] with a comparison function.  The sort is stable:
    an element is placed in front of the first element it does not come
    after, so elements that compare equal keep their order. *)
Fixpoint insertSorted {A : Type} (compareFn : A -> A -> Z) (x : A) (l : list A) : list A :=
  match l with
  | [] => [x]
  | y :: r =>
      if (compareFn x y <=? 0)%Z then x :: l else y :: insertSorted compareFn x r
  end.

Definition sort {A : Type} (compareFn : A -> A -> Z) (l : list A) : list A :=
  fold_right (insertSorted compareFn) [] l.

End JS.

(** ** types.ts *)

Inductive MetalType := GOLD | SILVER.

Inductive MakingChargeType := PER_GRAM | FLAT.

Module InvoiceItem.
Record t := mk {
  id : string;
  description : string;
  metal : MetalType;
  grossWeight : Q;
  netWeight : Q;
  makingChargeType : MakingChargeType;
  makingChargeValue : Q;
  applyGst : bool
}.
End InvoiceItem.

Module Rates.
Record t := mk { gold : Q; silver : Q }.

(** [rates[metal]] *)
Definition get (rates : t) (m : MetalType) : Q :=
  match m with
  | GOLD => gold rates
  | SILVER => silver rates
  end.
End Rates.

Module Customer.
Record t := mk { name : string; phone : string }.
End Customer.

Inductive PartyType := CUSTOMER | SUPPLIER.

Module Party.
Record t := mk {
  id : string;
  name : string;
  phone : string;
  type : PartyType
}.

(** [Omit<Party, 'id'>] *)
Record input := mkInput {
  in_name : string;
  in_phone : string;
  in_type : PartyType
}.
End Party.

Inductive TransactionType := CREDIT | DEBIT.

Module KhataTransaction.
Record t := mk {
  id : string;
  date : Z;
  partyId : string;
  description : string;
  type : TransactionType;
  amount : Q
}.

(** [Omit<KhataTransaction, 'id' | 'date'>] *)
Record input := mkInput {
  in_partyId : string;
  in_description : string;
  in_type : TransactionType;
  in_amount : Q
}.
End KhataTransaction.

Module MortgagedItem.
Record t := mk {
  id : string;
  description : string;
  weight : Q;
  purity : string;
  estimatedValue : Q;
  photoBase64 : option string
}.

(** [Omit<MortgagedItem, 'id'>] *)
Record input := mkInput {
  in_description : string;
  in_weight : Q;
  in_purity : string;
  in_estimatedValue : Q;
  in_photoBase64 : option string
}.
End MortgagedItem.

Inductive InterestRatePeriod := MONTHLY | ANNUAL.

Inductive InterestType := SIMPLE | COMPOUND.

Module Borrower.
Record t := mk {
  name : string;
  phone : string;
  address : string;
  photoBase64 : option string;
  aadhaarNumber : option string;
  panNumber : option string;
  aadhaarPhotoBase64 : option string;
  panPhotoBase64 : option string
}.
End Borrower.

Module ByajLoan.
Record t := mk {
  id : string;
  borrower : Borrower.t;
  principalAmount : Q;
  interestRate : Q;
  interestRatePeriod : InterestRatePeriod;
  interestType : InterestType;
  loanDate : Z;
  mortgagedItems : list MortgagedItem.t
}.
End ByajLoan.

(** Keys of the translation table that the modelled handlers look up. *)
Inductive TranslationKey := please_fill_valid_values | net_weight_error.


(** ** App.tsx: the application state and its handlers *)

Module App.

Record State := mk {
  items : list InvoiceItem.t;
  customer : Customer.t;
  gstRate : Q;
  invoiceNumber : Z;
  parties : list Party.t;
  khataTransactions : list KhataTransaction.t;
  byajLoans : list ByajLoan.t;
  (** what [console.error] has printed so far *)
  console : list string
}.

Definition initial : State :=
  {| items := []; customer := Customer.mk "" ""; gstRate := 3;
     invoiceNumber := 1; parties := []; khataTransactions := [];
     byajLoans := []; console := [] |}.

Definition setItems (f : list InvoiceItem.t -> list InvoiceItem.t) (s : State) : State :=
  {| items := f (items s); customer := customer s; gstRate := gstRate s;
     invoiceNumber := invoiceNumber s; parties := parties s;
     khataTransactions := khataTransactions s; byajLoans := byajLoans s;
     console := console s |}.

Definition setCustomer (f : Customer.t -> Customer.t) (s : State) : State :=
  {| items := items s; customer := f (customer s); gstRate := gstRate s;
     invoiceNumber := invoiceNumber s; parties := parties s;
     khataTransactions := khataTransactions s; byajLoans := byajLoans s;
     console := console s |}.

Definition setGstRate (v : Q) (s : State) : State :=
  {| items := items s; customer := customer s; gstRate := v;
     invoiceNumber := invoiceNumber s; parties := parties s;
     khataTransactions := khataTransactions s; byajLoans := byajLoans s;
     console := console s |}.

Definition setInvoiceNumber (f : Z -> Z) (s : State) : State :=
  {| items := items s; customer := customer s; gstRate := gstRate s;
     invoiceNumber := f (invoiceNumber s); parties := parties s;
     khataTransactions := khataTransactions s; byajLoans := byajLoans s;
     console := console s |}.

Definition setParties (f : list Party.t -> list Party.t) (s : State) : State :=
  {| items := items s; customer := customer s; gstRate := gstRate s;
     invoiceNumber := invoiceNumber s; parties := f (parties s);
     khataTransactions := khataTransactions s; byajLoans := byajLoans s;
     console := console s |}.

Definition setByajLoans (f : list ByajLoan.t -> list ByajLoan.t) (s : State) : State :=
  {| items := items s; customer := customer s; gstRate := gstRate s;
     invoiceNumber := invoiceNumber s; parties := parties s;
     khataTransactions := khataTransactions s; byajLoans := f (byajLoans s);
     console := console s |}.

Definition console_error (msg : string) (s : State) : State :=
  {| items := items s; customer := customer s; gstRate := gstRate s;
     invoiceNumber := invoiceNumber s; parties := parties s;
     khataTransactions := khataTransactions s; byajLoans := byajLoans s;
     console := console s ++ [msg] |}.

Definition handleAddItem (item : InvoiceItem.t) (s : State) : State :=
  setItems (fun prevItems => prevItems ++ [item]) s.

Definition handleRemoveItem (id : string) (s : State) : State :=
  setItems (List.filter (fun item => negb (String.eqb (InvoiceItem.id item) id))) s.

Definition handleClearInvoice (s : State) : State :=
  setInvoiceNumber (fun prev => (prev + 1)%Z)
    (setCustomer (fun _ => Customer.mk "" "")
       (setItems (fun _ => []) s)).

Definition handleGstRateChange (value : string) (s : State) : State :=
  match JS.parseFloat value with
  | None => setGstRate 0 s
  | Some v => setGstRate v s
  end.

Definition duplicate_message : string :=
  "A party with this phone number already exists.".

Definition handleAddParty (party : Party.input) (s : State) : State :=
  if existsb (fun p => String.eqb (Party.phone p) (Party.in_phone party)) (parties s)
  then console_error duplicate_message s
  else
    let newParty :=
      Party.mk (Party.in_phone party) (Party.in_name party)
               (Party.in_phone party) (Party.in_type party) in
    setParties (fun prev => prev ++ [newParty]) s.

(** [newId] stands for [new Date().toISOString() + Math.random()]. *)
Definition handleAddLoan (newId : string) (loanData : ByajLoan.t) (s : State) : State :=
  let newLoan :=
    ByajLoan.mk newId (ByajLoan.borrower loanData) (ByajLoan.principalAmount loanData)
      (ByajLoan.interestRate loanData) (ByajLoan.interestRatePeriod loanData)
      (ByajLoan.interestType loanData) (ByajLoan.loanDate loanData)
      (ByajLoan.mortgagedItems loanData) in
  setByajLoans (fun prev => prev ++ [newLoan]) s.

Definition setKhataTransactions
  (f : list KhataTransaction.t -> list KhataTransaction.t) (s : State) : State :=
  {| items := items s; customer := customer s; gstRate := gstRate s;
     invoiceNumber := invoiceNumber s; parties := parties s;
     khataTransactions := f (khataTransactions s); byajLoans := byajLoans s;
     console := console s |}.

(** [keyof Customer] *)
Inductive CustomerKey := key_name | key_phone.

Definition handleCustomerChange (field : CustomerKey) (value : string) (s : State) : State :=
  setCustomer
    (fun prevCustomer =>
       match field with
       | key_name => Customer.mk value (Customer.phone prevCustomer)
       | key_phone => Customer.mk (Customer.name prevCustomer) value
       end)
    s.

Definition handleInvoiceNumberChange (value : string) (s : State) : State :=
  match JS.parseInt value with
  | None => setInvoiceNumber (fun _ => 1%Z) s
  | Some v => if (v <? 1)%Z then setInvoiceNumber (fun _ => 1%Z) s
              else setInvoiceNumber (fun _ => v) s
  end.

(** [newId] stands for [new Date().toISOString() + Math.random()] and [now]
    for the time of [new Date()]. *)
Definition handleAddKhataTransaction (newId : string) (now : Z)
  (transaction : KhataTransaction.input) (s : State) : State :=
  let newTransaction :=
    KhataTransaction.mk newId now (KhataTransaction.in_partyId transaction)
      (KhataTransaction.in_description transaction)
      (KhataTransaction.in_type transaction) (KhataTransaction.in_amount transaction) in
  setKhataTransactions
    (fun prev =>
       JS.sort (fun a b => (KhataTransaction.date a - KhataTransaction.date b)%Z)
         (prev ++ [newTransaction]))
    s.

End App.

(** ** BillingForm: the line-item form *)

Module BillingForm.

Record State := mk {
  description : string;
  metal : MetalType;
  grossWeight : string;
  netWeight : string;
  makingChargeType : MakingChargeType;
  makingChargeValue : string;
  applyGst : bool;
  error : option string
}.

Definition initial : State :=
  {| description := ""; metal := GOLD; grossWeight := ""; netWeight := "";
     makingChargeType := PER_GRAM; makingChargeValue := ""; applyGst := true;
     error := None |}.

Definition setError (e : option string) (f : State) : State :=
  {| description := description f; metal := metal f; grossWeight := grossWeight f;
     netWeight := netWeight f; makingChargeType := makingChargeType f;
     makingChargeValue := makingChargeValue f; applyGst := applyGst f;
     error := e |}.

(** The five setters after a successful submit. *)
Definition resetForm (f : State) : State :=
  {| description := ""; metal := metal f; grossWeight := ""; netWeight := "";
     makingChargeType := makingChargeType f; makingChargeValue := "";
     applyGst := true; error := error f |}.

Definition isNaN (x : option Q) : bool :=
  match x with
  | None => true
  | Some _ => false
  end.

(** Comparisons of numbers that may be [NaN]: false as soon as one side is. *)
Definition le (x y : option Q) : bool :=
  match x, y with
  | Some a, Some b => JS.leb a b
  | _, _ => false
  end.

Definition lt (x y : option Q) : bool :=
  match x, y with
  | Some a, Some b => JS.ltb a b
  | _, _ => false
  end.

Section handleSubmit.

(** The translation lookup of the language context and the [onAddItem]
    property, which acts on the state [S] of the parent. *)
Context {S : Type} (t : TranslationKey -> string).
Context (onAddItem : InvoiceItem.t -> S -> S).

(** [now] stands for [new Date().toISOString()]. *)
Definition handleSubmit (now : string) (form : State) (parent : S) : State * S :=
  let gw := JS.parseFloat (grossWeight form) in
  let nw := JS.parseFloat (netWeight form) in
  let mcv := JS.parseFloat (makingChargeValue form) in
  if (negb (JS.truthy (JS.trim (description form)))
      || isNaN gw || isNaN nw || isNaN mcv
      || le gw (Some 0) || le nw (Some 0) || lt mcv (Some 0))%bool
  then (setError (Some (t please_fill_valid_values)) form, parent)
  else if lt gw nw
  then (setError (Some (t net_weight_error)) form, parent)
  else
    match gw, nw, mcv with
    | Some gw, Some nw, Some mcv =>
        (resetForm (setError None form),
         onAddItem
           (InvoiceItem.mk now (description form) (metal form) gw nw
              (makingChargeType form) mcv (applyGst form))
           parent)
    | _, _, _ => (form, parent) (* not reached: a NaN was rejected above *)
    end.

End handleSubmit.

End BillingForm.

(** ** InvoicePreview: the derived invoice and the discount *)

Module InvoicePreview.

Inductive DiscountType := PERCENT | FIXED.

(** The state cells of the component. *)
Record State := mk { discountType : DiscountType; discountValue : string }.

Definition initial : State := {| discountType := PERCENT; discountValue := "" |}.

Record Calculation := mkCalculation {
  item : InvoiceItem.t;
  rate : Q;
  metalValue : Q;
  makingCharges : Q;
  valueBeforeGst : Q;
  itemGstAmount : Q;
  totalValue : Q
}.

Definition calculate (rates : Rates.t) (gstRate : Q) (item : InvoiceItem.t) : Calculation :=
  let rate := Rates.get rates (InvoiceItem.metal item) in
  let metalValue := InvoiceItem.netWeight item * rate in
  let makingCharges :=
    match InvoiceItem.makingChargeType item with
    | PER_GRAM => InvoiceItem.makingChargeValue item * InvoiceItem.grossWeight item
    | FLAT => InvoiceItem.makingChargeValue item
    end in
  let valueBeforeGst := metalValue + makingCharges in
  let itemGstAmount :=
    if InvoiceItem.applyGst item then valueBeforeGst * (gstRate / 100) else 0 in
  let totalValue := valueBeforeGst + itemGstAmount in
  mkCalculation item rate metalValue makingCharges valueBeforeGst itemGstAmount totalValue.

Definition calculations (items : list InvoiceItem.t) (rates : Rates.t) (gstRate : Q)
  : list Calculation :=
  map (calculate rates gstRate) items.

Definition subTotal (calculations : list Calculation) : Q :=
  fold_left (fun acc item => acc + valueBeforeGst item) calculations 0.

Definition gstAmount (calculations : list Calculation) : Q :=
  fold_left (fun acc item => acc + itemGstAmount item) calculations 0.

Definition totalBeforeDiscount (calculations : list Calculation) : Q :=
  subTotal calculations + gstAmount calculations.

Definition numericDiscountValue (st : State) : Q :=
  JS.orZero (JS.parseFloat (discountValue st)).

Definition discountAmount (totalBeforeDiscount : Q) (st : State) : Q :=
  let discountAmount := 0 in
  let numericDiscountValue := numericDiscountValue st in
  let discountAmount :=
    if JS.ltb 0 numericDiscountValue then
      match discountType st with
      | PERCENT => totalBeforeDiscount * (numericDiscountValue / 100)
      | FIXED => numericDiscountValue
      end
    else discountAmount in
  if JS.ltb totalBeforeDiscount discountAmount then totalBeforeDiscount
  else discountAmount.

Definition grandTotal (totalBeforeDiscount : Q) (st : State) : Q :=
  totalBeforeDiscount - discountAmount totalBeforeDiscount st.

(** The whole derivation, from the properties and the state of the component. *)
Definition invoiceTotal (items : list InvoiceItem.t) (rates : Rates.t) (gstRate : Q) : Q :=
  totalBeforeDiscount (calculations items rates gstRate).

Definition invoiceGrandTotal (items : list InvoiceItem.t) (rates : Rates.t) (gstRate : Q)
  (st : State) : Q :=
  grandTotal (invoiceTotal items rates gstRate) st.

(** [handleClear]: the parent's [onClearInvoice], then the two local setters. *)
Definition handleClear {S : Type} (onClearInvoice : S -> S) (parent : S) (st : State)
  : S * State :=
  (onClearInvoice parent, {| discountType := PERCENT; discountValue := "" |}).

End InvoicePreview.

(** The billing session: the application state next to the state of the
    invoice preview, and the clear button wired as in App.tsx. *)
Definition clearInvoice (session : App.State * InvoicePreview.State)
  : App.State * InvoicePreview.State :=
  InvoicePreview.handleClear App.handleClearInvoice session.1 session.2.


(** ** The billing screen: what the user can do to a session *)

Module Billing.

Inductive Event :=
| SubmitItem (now : string) (form : BillingForm.State)
| RemoveItem (id : string)
| ClearInvoice
| CustomerChange (field : App.CustomerKey) (value : string)
| GstRateChange (value : string)
| InvoiceNumberChange (value : string)
| DiscountValueChange (value : string)
| DiscountTypeChange (type : InvoicePreview.DiscountType).

(** One action on the session; the form is filled by the user, so its
    content comes with the action. *)
Definition step (t : TranslationKey -> string)
  (session : App.State * InvoicePreview.State) (e : Event)
  : App.State * InvoicePreview.State :=
  let (app, st) := session in
  match e with
  | SubmitItem now form => ((BillingForm.handleSubmit t App.handleAddItem now form app).2, st)
  | RemoveItem id => (App.handleRemoveItem id app, st)
  | ClearInvoice => clearInvoice session
  | CustomerChange field value => (App.handleCustomerChange field value app, st)
  | GstRateChange value => (App.handleGstRateChange value app, st)
  | InvoiceNumberChange value => (App.handleInvoiceNumberChange value app, st)
  | DiscountValueChange value =>
      (app, {| InvoicePreview.discountType := InvoicePreview.discountType st;
               InvoicePreview.discountValue := value |})
  | DiscountTypeChange type =>
      (app, {| InvoicePreview.discountType := type;
               InvoicePreview.discountValue := InvoicePreview.discountValue st |})
  end.

Definition run (t : TranslationKey -> string) (events : list Event)
  (session : App.State * InvoicePreview.State) : App.State * InvoicePreview.State :=
  fold_left (step t) events session.

Definition initial : App.State * InvoicePreview.State :=
  (App.initial, InvoicePreview.initial).

End Billing.


(** ** Khatabook: party balances and the party ledger *)

Module Khatabook.

(** The amount a transaction adds to the balance: [+amount] for a DEBIT,
    [-amount] for a CREDIT, as [t.type === 'DEBIT' ? t.amount : -t.amount]. *)
Definition debitSigned (t : KhataTransaction.t) : Q :=
  match KhataTransaction.type t with
  | DEBIT => KhataTransaction.amount t
  | CREDIT => - KhataTransaction.amount t
  end.

(** The same amount written as [t.type === 'CREDIT' ? -t.amount : t.amount]. *)
Definition creditSigned (t : KhataTransaction.t) : Q :=
  match KhataTransaction.type t with
  | CREDIT => - KhataTransaction.amount t
  | DEBIT => KhataTransaction.amount t
  end.

(** [(a, b) => a.date.getTime() - b.date.getTime()] *)
Definition byDate (a b : KhataTransaction.t) : Z :=
  (KhataTransaction.date a - KhataTransaction.date b)%Z.

(** *** CustomerList *)

Definition partyBalances (transactions : list KhataTransaction.t) : gmap string Q :=
  fold_left
    (fun (balances : gmap string Q) t =>
       let currentBalance := JS.orZero (balances !! KhataTransaction.partyId t) in
       let newBalance := currentBalance + creditSigned t in
       <[KhataTransaction.partyId t := newBalance]> balances)
    transactions ∅.

(** The balance shown next to a party in the list. *)
Definition listBalance (transactions : list KhataTransaction.t) (party : Party.t) : Q :=
  JS.orZero (partyBalances transactions !! Party.id party).

(** *** CustomerLedger *)

Record Row := mkRow { transaction : KhataTransaction.t; balance : Q }.

Record Ledger := mkLedger { finalBalance : Q; transactionRows : list Row }.

(** [sorted.map] with the variable [runningBalance] threaded through: the
    rows in the order of [sorted] and the value the variable ends with. *)
Fixpoint annotate (runningBalance : Q) (sorted : list KhataTransaction.t)
  : list Row * Q :=
  match sorted with
  | [] => ([], runningBalance)
  | t :: rest =>
      let runningBalance := runningBalance + debitSigned t in
      let '(rows, final) := annotate runningBalance rest in
      (mkRow t runningBalance :: rows, final)
  end.

Definition ledger (transactions : list KhataTransaction.t) : Ledger :=
  let sorted := JS.sort byDate transactions in
  let '(rows, runningBalance) := annotate 0 sorted in
  {| finalBalance := runningBalance; transactionRows := rev rows |}.

(** *** The view state machine *)

Inductive View := LIST | CUSTOMER_LEDGER | ADD_CUSTOMER | ADD_TRANSACTION.

Record State := mk {
  view : View;
  selectedPartyId : option string;
  transactionType : TransactionType
}.

Definition initial : State :=
  {| view := LIST; selectedPartyId := None; transactionType := CREDIT |}.

Definition selectedParty (parties : list Party.t) (st : State) : option Party.t :=
  List.find
    (fun p =>
       match selectedPartyId st with
       | Some i => String.eqb (Party.id p) i
       | None => false
       end)
    parties.

(** The transactions handed to the ledger of a party. *)
Definition transactionsOf (party : Party.t) (transactions : list KhataTransaction.t)
  : list KhataTransaction.t :=
  List.filter
    (fun t => String.eqb (KhataTransaction.partyId t) (Party.id party))
    transactions.

Inductive Rendered :=
| RenderNull
| AddCustomerForm
| CustomerLedger (party : Party.t) (l : Ledger)
| AddTransactionForm (party : Party.t) (type : TransactionType)
| CustomerList (rows : list (Party.t * Q)).

Definition render (parties : list Party.t) (transactions : list KhataTransaction.t)
  (st : State) : Rendered :=
  match view st with
  | ADD_CUSTOMER => AddCustomerForm
  | CUSTOMER_LEDGER =>
      match selectedParty parties st with
      | None => RenderNull
      | Some party => CustomerLedger party (ledger (transactionsOf party transactions))
      end
  | ADD_TRANSACTION =>
      match selectedParty parties st with
      | None => RenderNull
      | Some party => AddTransactionForm party (transactionType st)
      end
  | LIST =>
      CustomerList (map (fun party => (party, listBalance transactions party)) parties)
  end.

Definition onSelectParty (partyId : string) (st : State) : State :=
  {| view := CUSTOMER_LEDGER; selectedPartyId := Some partyId;
     transactionType := transactionType st |}.

Definition onAddCustomer (st : State) : State :=
  {| view := ADD_CUSTOMER; selectedPartyId := selectedPartyId st;
     transactionType := transactionType st |}.

Definition setView (v : View) (st : State) : State :=
  {| view := v; selectedPartyId := selectedPartyId st;
     transactionType := transactionType st |}.

(** [onAddTransaction] of the ledger: the direction, then the form. *)
Definition onAddTransaction (type : TransactionType) (st : State) : State :=
  {| view := ADD_TRANSACTION; selectedPartyId := selectedPartyId st;
     transactionType := type |}.

(** *** What the views say about a balance *)

(** The caption under a balance in the customer list. *)
Definition listLabel (balance : Q) : string :=
  if negb (Qeq_bool balance 0)
  then (if JS.ltb 0 balance then "Advance" else "Due")
  else "".

(** The two keys of the heading of the ledger. *)
Inductive Heading := net_balance_get | net_balance_give.

Definition heading (finalBalance : Q) : Heading :=
  if JS.leb 0 finalBalance then net_balance_get else net_balance_give.

Inductive Effect := alert (message : string) | window_open (url : string).

(** The word for the balance in the reminder. *)
Definition balanceType (finalBalance : Q) : string :=
  if JS.ltb finalBalance 0 then "due" else "advance".

Section Reminder.

(** The currency format of the module and the URI encoder of the browser. *)
Context (formatCurrency : Q -> string) (encodeURIComponent : string -> string).

Definition handleWhatsAppReminder (party : Party.t) (finalBalance : Q) : Effect :=
  if Qeq_bool finalBalance 0
  then alert "No outstanding balance to remind about."
  else
    let balanceType := balanceType finalBalance in
    let amount := formatCurrency (Qabs finalBalance) in
    let message :=
      "Hello " +:+ Party.name party
      +:+ ", this is a friendly reminder from Aman Jewellers. Your current "
      +:+ balanceType +:+ " balance is " +:+ amount +:+ ". Thank you." in
    let encodedMessage := encodeURIComponent message in
    let phone :=
      match Party.phone party with
      | String "+" rest => rest
      | other => "91" +:+ other
      end in
    window_open ("https://wa.me/" +:+ phone +:+ "?text=" +:+ encodedMessage).

End Reminder.

(** *** The table of the statement *)

Section Statement.

(** [formatDate] of the module and [toLocaleString('en-IN')]. *)
Context (formatDate : Z -> string) (toLocaleString : Q -> string).

(** [sortedTransactions.map] with its own [runningBalance]. *)
Fixpoint tableRows (runningBalance : Q) (sortedTransactions : list KhataTransaction.t)
  : list (list string) :=
  match sortedTransactions with
  | [] => []
  | t :: rest =>
      let runningBalance := runningBalance + debitSigned t in
      [ formatDate (KhataTransaction.date t);
        KhataTransaction.description t;
        match KhataTransaction.type t with
        | DEBIT => toLocaleString (KhataTransaction.amount t)
        | CREDIT => "-"
        end;
        match KhataTransaction.type t with
        | CREDIT => toLocaleString (KhataTransaction.amount t)
        | DEBIT => "-"
        end;
        toLocaleString runningBalance ]
      :: tableRows runningBalance rest
  end.

(** The body of the table, or nothing when there is no transaction (the
    handler then alerts and returns). *)
Definition tableBody (transactions : list KhataTransaction.t) : option (list (list string)) :=
  match transactions with
  | [] => None
  | _ :: _ => Some (tableRows 0 (JS.sort byDate transactions))
  end.

End Statement.

(** *** The two forms *)

(** [AddCustomerForm.handleSubmit]: the party handed to [onSave], if any. *)
Definition AddCustomerForm_handleSubmit (name phone : string) (type : PartyType)
  : option Party.input :=
  if JS.truthy (JS.trim name) && (10 <=? String.length (JS.trim phone))%nat
  then Some (Party.mkInput name phone type)
  else None.

(** [AddTransactionForm.handleSubmit]: the data handed to [onSave], if any. *)
Definition AddTransactionForm_handleSubmit (party : Party.t) (type : TransactionType)
  (amount description : string) : option KhataTransaction.input :=
  match JS.parseFloat amount with
  | Some numericAmount =>
      if JS.ltb 0 numericAmount
      then Some (KhataTransaction.mkInput (Party.id party) description type numericAmount)
      else None
  | None => None
  end.

(** *** The screen: what the user can do in each view *)

Inductive Event :=
| ClickAddCustomer
| ClickBack
| ClickParty (partyId : string)
| ClickGaveOrReceived (type : TransactionType)
| SubmitCustomer (name phone : string) (type : PartyType)
| SubmitTransaction (amount description : string) (newId : string) (now : Z).

(** An action reaches the handler of the view on screen; a view without
    that control ignores it. *)
Definition step (screen : App.State * State) (e : Event) : App.State * State :=
  let (app, st) := screen in
  match render (App.parties app) (App.khataTransactions app) st, e with
  | CustomerList _, ClickParty partyId => (app, onSelectParty partyId st)
  | CustomerList _, ClickAddCustomer => (app, onAddCustomer st)
  | AddCustomerForm, ClickBack => (app, setView LIST st)
  | AddCustomerForm, SubmitCustomer name phone type =>
      match AddCustomerForm_handleSubmit name phone type with
      | Some party => (App.handleAddParty party app, setView LIST st)
      | None => screen
      end
  | CustomerLedger _ _, ClickBack => (app, setView LIST st)
  | CustomerLedger _ _, ClickGaveOrReceived type => (app, onAddTransaction type st)
  | AddTransactionForm _ _, ClickBack => (app, setView CUSTOMER_LEDGER st)
  | AddTransactionForm party type, SubmitTransaction amount description newId now =>
      match AddTransactionForm_handleSubmit party type amount description with
      | Some data =>
          (App.handleAddKhataTransaction newId now data app, setView CUSTOMER_LEDGER st)
      | None => screen
      end
  | _, _ => screen
  end.

Definition run (events : list Event) (screen : App.State * State) : App.State * State :=
  fold_left step events screen.

End Khatabook.

(** ** Reports: the portfolio aggregation *)

Module Reports.

Record PartyBalance := mkPartyBalance { party : Party.t; balance : Q }.

Definition balances (transactions : list KhataTransaction.t) : gmap string Q :=
  fold_left
    (fun (balances : gmap string Q) t =>
       let currentBalance := JS.orZero (balances !! KhataTransaction.partyId t) in
       let newBalance := currentBalance + Khatabook.debitSigned t in
       <[KhataTransaction.partyId t := newBalance]> balances)
    transactions ∅.

Definition partyBalance (transactions : list KhataTransaction.t) (party : Party.t)
  : PartyBalance :=
  {| party := party; balance := JS.orZero (balances transactions !! Party.id party) |}.

Definition allPartyBalances (parties : list Party.t)
  (transactions : list KhataTransaction.t) : list PartyBalance :=
  map (partyBalance transactions) parties.

Definition isCustomer (p : Party.t) : bool :=
  match Party.type p with
  | CUSTOMER => true
  | SUPPLIER => false
  end.

Definition isSupplier (p : Party.t) : bool :=
  match Party.type p with
  | SUPPLIER => true
  | CUSTOMER => false
  end.

Definition customerDues (all : list PartyBalance) : list PartyBalance :=
  List.filter (fun pb => isCustomer (party pb) && JS.ltb 0 (balance pb)) all.

Definition supplierPayables (all : list PartyBalance) : list PartyBalance :=
  List.filter (fun pb => isSupplier (party pb) && JS.ltb (balance pb) 0) all.

Definition totalReceivables (customerDues : list PartyBalance) : Q :=
  fold_left (fun sum pb => sum + balance pb) customerDues 0.

Definition totalPayables (supplierPayables : list PartyBalance) : Q :=
  fold_left (fun sum pb => sum + Qabs (balance pb)) supplierPayables 0.

End Reports.

(** ** Byajbook: interest accrual and the view state machine *)

Module Byajbook.

Record Accrual := mkAccrual { interest : Q; totalPayable : Q; daysPassed : Z }.

(** The memoised computation of [LoanDetails]; [currentDate] and the loan
    date are in milliseconds, as [getTime()] returns them. *)
Definition accrual (currentDate : Z) (loan : ByajLoan.t) : Accrual :=
  let loanDate := ByajLoan.loanDate loan in
  match ByajLoan.interestType loan with
  | SIMPLE =>
      let timeDiff := (currentDate - loanDate)%Z in
      let days := Qmax 0 (inject_Z timeDiff / inject_Z (1000 * 3600 * 24)) in
      let interestAmount :=
        match ByajLoan.interestRatePeriod loan with
        | MONTHLY =>
            let months := days / 30.4375 in
            (ByajLoan.principalAmount loan * ByajLoan.interestRate loan * months) / 100
        | ANNUAL =>
            let years := days / 365.25 in
            (ByajLoan.principalAmount loan * ByajLoan.interestRate loan * years) / 100
        end in
      {| interest := interestAmount;
         totalPayable := ByajLoan.principalAmount loan + interestAmount;
         daysPassed := Qfloor days |}
  | COMPOUND =>
      {| interest := 0; totalPayable := ByajLoan.principalAmount loan; daysPassed := 0 |}
  end.

Inductive View := LIST | DETAILS | ADD_LOAN.

Record State := mk { view : View; selectedLoanId : option string }.

Definition initial : State := {| view := LIST; selectedLoanId := None |}.

(** [loans.find(l => l.id === selectedLoanId) || null]; a loan is never
    strictly equal to the initial [null]. *)
Definition selectedLoan (loans : list ByajLoan.t) (st : State) : option ByajLoan.t :=
  List.find
    (fun l =>
       match selectedLoanId st with
       | Some i => String.eqb (ByajLoan.id l) i
       | None => false
       end)
    loans.

Inductive Rendered :=
| RenderNull
| AddLoanForm
| LoanDetails (loan : ByajLoan.t) (a : Accrual)
| LoanList (loans : list ByajLoan.t).

Definition render (currentDate : Z) (loans : list ByajLoan.t) (st : State) : Rendered :=
  match view st with
  | ADD_LOAN => AddLoanForm
  | DETAILS =>
      match selectedLoan loans st with
      | None => RenderNull
      | Some loan => LoanDetails loan (accrual currentDate loan)
      end
  | LIST => LoanList loans
  end.

Definition onSelectLoan (loanId : string) (st : State) : State :=
  {| view := DETAILS; selectedLoanId := Some loanId |}.

Definition onAddLoan (st : State) : State :=
  {| view := ADD_LOAN; selectedLoanId := selectedLoanId st |}.

Definition onBack (st : State) : State :=
  {| view := LIST; selectedLoanId := selectedLoanId st |}.

(** *** AddLoanForm *)

Record FormState := mkForm {
  borrowerName : string;
  borrowerPhone : string;
  borrowerAddress : string;
  photoBase64 : option string;
  aadhaarNumber : string;
  panNumber : string;
  aadhaarPhotoBase64 : option string;
  panPhotoBase64 : option string;
  principal : string;
  rate : string;
  ratePeriod : InterestRatePeriod;
  loanDate : string;
  items : list MortgagedItem.input;
  itemDesc : string;
  itemWeight : string;
  itemPurity : string;
  itemValue : string;
  itemPhotoBase64 : option string
}.

(** The form as it mounts; [today] stands for
    [new Date().toISOString().split('T')[0]]. *)
Definition emptyForm (today : string) : FormState :=
  {| borrowerName := ""; borrowerPhone := ""; borrowerAddress := "";
     photoBase64 := None; aadhaarNumber := ""; panNumber := "";
     aadhaarPhotoBase64 := None; panPhotoBase64 := None;
     principal := ""; rate := ""; ratePeriod := MONTHLY; loanDate := today;
     items := []; itemDesc := ""; itemWeight := ""; itemPurity := "";
     itemValue := ""; itemPhotoBase64 := None |}.

(** The item list and the five item fields replaced, the rest kept. *)
Definition setItemPart (items : list MortgagedItem.input)
  (itemDesc itemWeight itemPurity itemValue : string) (itemPhotoBase64 : option string)
  (f : FormState) : FormState :=
  {| borrowerName := borrowerName f; borrowerPhone := borrowerPhone f;
     borrowerAddress := borrowerAddress f; photoBase64 := photoBase64 f;
     aadhaarNumber := aadhaarNumber f; panNumber := panNumber f;
     aadhaarPhotoBase64 := aadhaarPhotoBase64 f; panPhotoBase64 := panPhotoBase64 f;
     principal := principal f; rate := rate f; ratePeriod := ratePeriod f;
     loanDate := loanDate f;
     items := items; itemDesc := itemDesc; itemWeight := itemWeight;
     itemPurity := itemPurity; itemValue := itemValue;
     itemPhotoBase64 := itemPhotoBase64 |}.

Definition handleAddItem (f : FormState) : FormState :=
  match JS.parseFloat (itemWeight f), JS.parseFloat (itemValue f) with
  | Some weight, Some value =>
      if JS.truthy (itemDesc f) && JS.ltb 0 weight && JS.truthy (itemPurity f)
         && JS.ltb 0 value
      then
        setItemPart
          (items f ++ [MortgagedItem.mkInput (itemDesc f) weight (itemPurity f) value
                         (itemPhotoBase64 f)])
          "" "" "" "" None f
      else f
  | _, _ => f
  end.

(** [items.filter((_, i) => i !== index)], counting from [i]. *)
Fixpoint filterOtherIndex {A : Type} (index i : nat) (l : list A) : list A :=
  match l with
  | [] => []
  | x :: r =>
      if (i =? index)%nat then filterOtherIndex index (S i) r
      else x :: filterOtherIndex index (S i) r
  end.

Definition handleRemoveItem (index : nat) (f : FormState) : FormState :=
  setItemPart (filterOtherIndex index 0 (items f))
    (itemDesc f) (itemWeight f) (itemPurity f) (itemValue f) (itemPhotoBase64 f) f.

(** The text of the alert of a refused submit. *)
Definition submitMessage : string :=
  "Please fill all required fields and add at least one mortgaged item.".

Inductive Outcome := onSave (loanData : ByajLoan.t) | alert (message : string).

Section Submit.

(** [parseDate] stands for the time of [new Date(loanDate)] and [random i]
    for the [Math.random().toString()] of the [i]-th item. *)
Context (parseDate : string -> Z) (random : nat -> string).

(** The loan handed to [onSave] has no identifier yet; the field is left
    empty here and [handleAddLoan] fills it. *)
Definition handleSubmit (f : FormState) : Outcome :=
  let principalAmount := JS.parseFloat (principal f) in
  let interestRate := JS.parseFloat (rate f) in
  match principalAmount, interestRate with
  | Some principalAmount, Some interestRate =>
      if JS.truthy (borrowerName f) && JS.truthy (borrowerPhone f)
         && JS.ltb 0 principalAmount && JS.ltb 0 interestRate
         && (0 <? List.length (items f))%nat
      then
        onSave
          (ByajLoan.mk ""
             (Borrower.mk (borrowerName f) (borrowerPhone f) (borrowerAddress f)
                (photoBase64 f) (Some (aadhaarNumber f)) (Some (panNumber f))
                (aadhaarPhotoBase64 f) (panPhotoBase64 f))
             principalAmount interestRate (ratePeriod f) SIMPLE
             (parseDate (loanDate f))
             (imap
                (fun i item =>
                   MortgagedItem.mk (random i) (MortgagedItem.in_description item)
                     (MortgagedItem.in_weight item) (MortgagedItem.in_purity item)
                     (MortgagedItem.in_estimatedValue item)
                     (MortgagedItem.in_photoBase64 item))
                (items f)))
      else alert submitMessage
  | _, _ => alert submitMessage
  end.

(** *** The screen: what the user can do in each view *)

Record Screen := mkScreen { app : App.State; nav : State; form : FormState }.

Inductive Event :=
| ClickAddLoan (today : string)
| ClickBack
| ClickLoan (loanId : string)
| EditFields (typed : FormState)
| ClickAddItem
| ClickRemoveItem (index : nat)
| SubmitLoan (newId : string).

(** The fields of [typed] other than the item list, over the items of [f]:
    any run of the setters of the text fields, the selects and the photos. *)
Definition editFields (typed f : FormState) : FormState :=
  {| borrowerName := borrowerName typed; borrowerPhone := borrowerPhone typed;
     borrowerAddress := borrowerAddress typed; photoBase64 := photoBase64 typed;
     aadhaarNumber := aadhaarNumber typed; panNumber := panNumber typed;
     aadhaarPhotoBase64 := aadhaarPhotoBase64 typed;
     panPhotoBase64 := panPhotoBase64 typed;
     principal := principal typed; rate := rate typed; ratePeriod := ratePeriod typed;
     loanDate := loanDate typed;
     items := items f; itemDesc := itemDesc typed; itemWeight := itemWeight typed;
     itemPurity := itemPurity typed; itemValue := itemValue typed;
     itemPhotoBase64 := itemPhotoBase64 typed |}.

Definition step (currentDate : Z) (s : Screen) (e : Event) : Screen :=
  match render currentDate (App.byajLoans (app s)) (nav s), e with
  | LoanList _, ClickLoan loanId => mkScreen (app s) (onSelectLoan loanId (nav s)) (form s)
  | LoanList _, ClickAddLoan today => mkScreen (app s) (onAddLoan (nav s)) (emptyForm today)
  | LoanDetails _ _, ClickBack => mkScreen (app s) (onBack (nav s)) (form s)
  | AddLoanForm, ClickBack => mkScreen (app s) (onBack (nav s)) (form s)
  | AddLoanForm, EditFields typed => mkScreen (app s) (nav s) (editFields typed (form s))
  | AddLoanForm, ClickAddItem => mkScreen (app s) (nav s) (handleAddItem (form s))
  | AddLoanForm, ClickRemoveItem index =>
      mkScreen (app s) (nav s) (handleRemoveItem index (form s))
  | AddLoanForm, SubmitLoan newId =>
      match handleSubmit (form s) with
      | onSave loanData =>
          mkScreen (App.handleAddLoan newId loanData (app s)) (onBack (nav s)) (form s)
      | alert _ => s
      end
  | _, _ => s
  end.

Definition run (currentDate : Z) (events : list Event) (s : Screen) : Screen :=
  fold_left (step currentDate) events s.

End Submit.

(** The byajbook as it opens: no loan, the list on screen, no form yet. *)
Definition initialScreen : Screen := mkScreen App.initial initial (emptyForm "").

End Byajbook.


(** ** LanguageContext: the language and the translation lookup *)

Module LanguageContext.

Inductive Language := en | hi.

Definition code (l : Language) : string :=
  match l with
  | en => "en"
  | hi => "hi"
  end.

(** The initial state, from [localStorage]. *)
Definition initialLanguage (localStorage : gmap string string) : Language :=
  match localStorage !! "language" with
  | Some savedLang =>
      if String.eqb savedLang "en" then en
      else if String.eqb savedLang "hi" then hi
      else en
  | None => en
  end.

Definition handleSetLanguage (lang : Language) (s : Language * gmap string string)
  : Language * gmap string string :=
  (lang, <["language" := code lang]> s.2).

(** [translations[language][key] || translations['en'][key]]; the tables
    are those of translations.ts and [None] is [undefined]. *)
Definition t (translations : Language -> gmap string string) (language : Language)
  (key : string) : option string :=
  match translations language !! key with
  | Some text => if JS.truthy text then Some text else translations en !! key
  | None => translations en !! key
  end.

End LanguageContext.


(** ** The theme: App.tsx and the two buttons of the settings *)

Module Theme.

Inductive Theme := light | dark.

Definition code (theme : Theme) : string :=
  match theme with
  | light => "light"
  | dark => "dark"
  end.

(** The initial state, from [localStorage]. *)
Definition initialTheme (localStorage : gmap string string) : Theme :=
  match localStorage !! "theme" with
  | Some savedTheme =>
      if String.eqb savedTheme "light" then light
      else if String.eqb savedTheme "dark" then dark
      else dark
  | None => dark
  end.

Definition toggleTheme (prevTheme : Theme) : Theme :=
  match prevTheme with
  | light => dark
  | dark => light
  end.

(** The effect that follows a change of theme, on the class list of the
    root element and on [localStorage]. *)
Definition effect (theme : Theme) (dom : gset string * gmap string string)
  : gset string * gmap string string :=
  let classList :=
    match theme with
    | dark => {["dark"]} ∪ dom.1
    | light => dom.1 ∖ {["dark"]}
    end in
  (classList, <["theme" := code theme]> dom.2).

(** The button "Light" carries [toggleTheme] only while the theme is dark,
    and the button "Dark" only while it is light. *)
Definition clickLight (theme : Theme) : Theme :=
  match theme with
  | dark => toggleTheme theme
  | light => theme
  end.

Definition clickDark (theme : Theme) : Theme :=
  match theme with
  | light => toggleTheme theme
  | dark => theme
  end.

End Theme.

(** ** The words of the specification *)

Module Spec.

(** [Σ] over a list of numbers. *)
Definition sum (l : list Q) : Q := fold_right Qplus 0 l.

(** [x] clamped to the interval [[lo, hi]]. *)
Definition clamp (lo hi x : Q) : Q := Qmax lo (Qmin hi x).

(** The discount before clamping:
    [mode == PERCENT ? totalBeforeDiscount × (value/100) : value]. *)
Definition discount (mode : InvoicePreview.DiscountType) (value totalBeforeDiscount : Q) : Q :=
  match mode with
  | InvoicePreview.PERCENT => totalBeforeDiscount * (value / 100)
  | InvoicePreview.FIXED => value
  end.

(** The invariants of an InvoiceLineItem and of a RateTable (section 3). *)
Definition valid_item (i : InvoiceItem.t) : Prop :=
  0 < InvoiceItem.grossWeight i /\ 0 < InvoiceItem.netWeight i /\
  InvoiceItem.netWeight i <= InvoiceItem.grossWeight i /\
  0 <= InvoiceItem.makingChargeValue i.

Definition valid_rates (r : Rates.t) : Prop :=
  0 < Rates.gold r /\ 0 < Rates.silver r.

(** The net balance of a list of transactions under the sign convention:
    [+amount] for each DEBIT, [-amount] for each CREDIT. *)
Definition netBalance (transactions : list KhataTransaction.t) : Q :=
  sum (map Khatabook.debitSigned transactions).

(** Ascending by timestamp. *)
Definition date_le (a b : KhataTransaction.t) : Prop :=
  (KhataTransaction.date a <= KhataTransaction.date b)%Z.


(** When a line item is to be rejected, in the words of section 4.1: the
    description is empty, a weight or the making charge does not parse as a
    number, a weight is not positive, the making charge is negative, or the
    net weight exceeds the gross weight. *)
Definition numbers_invalid (gw nw mcv : option Q) : Prop :=
  gw = None \/ nw = None \/ mcv = None \/
  (exists g, gw = Some g /\ g <= 0) \/
  (exists n, nw = Some n /\ n <= 0) \/
  (exists m, mcv = Some m /\ m < 0) \/
  (exists g n, gw = Some g /\ nw = Some n /\ g < n).

Definition line_invalid (form : BillingForm.State) : Prop :=
  BillingForm.description form = "" \/
  numbers_invalid (JS.parseFloat (BillingForm.grossWeight form))
    (JS.parseFloat (BillingForm.netWeight form))
    (JS.parseFloat (BillingForm.makingChargeValue form)).

(** The same with a description that is empty once trimmed, which is what the
    form tests. *)
Definition line_invalid_trimmed (form : BillingForm.State) : Prop :=
  JS.trim (BillingForm.description form) = "" \/
  numbers_invalid (JS.parseFloat (BillingForm.grossWeight form))
    (JS.parseFloat (BillingForm.netWeight form))
    (JS.parseFloat (BillingForm.makingChargeValue form)).

(** The item a valid form describes. *)
Definition item_of (now : string) (form : BillingForm.State) (gw nw mcv : Q)
  : InvoiceItem.t :=
  InvoiceItem.mk now (BillingForm.description form) (BillingForm.metal form) gw nw
    (BillingForm.makingChargeType form) mcv (BillingForm.applyGst form).

(** What the billing screen keeps: items as the data model wants them and
    an invoice number from 1. *)
Definition billing_invariant (app : App.State) : Prop :=
  Forall valid_item (App.items app) /\ (1 <= App.invoiceNumber app)%Z.

(** What the khatabook keeps: the identifier of a party is its phone number
    and no two parties share one; the transactions are in ascending order of
    time, their amounts are positive and each belongs to a party of the set. *)
Definition khata_invariant (app : App.State) : Prop :=
  Forall (fun p => Party.id p = Party.phone p) (App.parties app) /\
  NoDup (map Party.id (App.parties app)) /\
  StronglySorted date_le (App.khataTransactions app) /\
  Forall
    (fun t => 0 < KhataTransaction.amount t /\
              In (KhataTransaction.partyId t) (map Party.id (App.parties app)))
    (App.khataTransactions app).

(** A pledged item and a loan as the loan form lets them through. *)
Definition valid_pledge_input (i : MortgagedItem.input) : Prop :=
  MortgagedItem.in_description i <> "" /\ 0 < MortgagedItem.in_weight i /\
  MortgagedItem.in_purity i <> "" /\ 0 < MortgagedItem.in_estimatedValue i.

Definition valid_pledge (i : MortgagedItem.t) : Prop :=
  MortgagedItem.description i <> "" /\ 0 < MortgagedItem.weight i /\
  MortgagedItem.purity i <> "" /\ 0 < MortgagedItem.estimatedValue i.

Definition valid_loan (l : ByajLoan.t) : Prop :=
  ByajLoan.interestType l = SIMPLE /\
  0 < ByajLoan.principalAmount l /\ 0 < ByajLoan.interestRate l /\
  Borrower.name (ByajLoan.borrower l) <> "" /\
  Borrower.phone (ByajLoan.borrower l) <> "" /\
  ByajLoan.mortgagedItems l <> [] /\
  Forall valid_pledge (ByajLoan.mortgagedItems l).

(** What the byajbook keeps: every loan is one the form lets through, and
    so is every pledge listed in the open form. *)
Definition byaj_invariant (s : Byajbook.Screen) : Prop :=
  Forall valid_loan (App.byajLoans (Byajbook.app s)) /\
  Forall valid_pledge_input (Byajbook.items (Byajbook.form s)).

(** Every party of the set carries its phone number as identifier. *)
Definition phone_is_id (parties : list Party.t) : Prop :=
  Forall (fun p => Party.id p = Party.phone p) parties.

End Spec.

(** ** Sample data *)

Module Sample.

Definition rates : Rates.t := {| Rates.gold := 6000; Rates.silver := 50 |}.

Definition ring : InvoiceItem.t :=
  InvoiceItem.mk "2025-01-01T10:00:00.000Z" "Gold Ring 22K" GOLD 10.5 10.25
    PER_GRAM 500 true.

(** One gram of silver, no making charge, no tax: 50 at the sample rates. *)
Definition coin : InvoiceItem.t :=
  InvoiceItem.mk "2025-01-01T10:05:00.000Z" "Silver coin" SILVER 1 1 FLAT 0 false.

Definition percent (value : string) : InvoicePreview.State :=
  {| InvoicePreview.discountType := InvoicePreview.PERCENT;
     InvoicePreview.discountValue := value |}.

Definition fixed (value : string) : InvoicePreview.State :=
  {| InvoicePreview.discountType := InvoicePreview.FIXED;
     InvoicePreview.discountValue := value |}.

Definition borrower : Borrower.t :=
  Borrower.mk "Ramesh Kumar" "9876543210" "12 Station Road, Kanpur"
    None None None None None.

Definition bangle : MortgagedItem.t :=
  MortgagedItem.mk "m1" "Gold bangle" 20 "22K" 110000 None.

(** 10000 lent at 2 percent a month on 1 January 2025, 00:00 UTC. *)
Definition loan : ByajLoan.t :=
  ByajLoan.mk "loan-1" borrower 10000 2 MONTHLY SIMPLE 1735689600000 [bangle].

Definition form (description grossWeight netWeight makingChargeValue : string)
  : BillingForm.State :=
  {| BillingForm.description := description; BillingForm.metal := GOLD;
     BillingForm.grossWeight := grossWeight; BillingForm.netWeight := netWeight;
     BillingForm.makingChargeType := PER_GRAM;
     BillingForm.makingChargeValue := makingChargeValue;
     BillingForm.applyGst := true; BillingForm.error := None |}.

(** A stand-in for the lookup of the language context, whose table lives in
    translations.ts. *)
Definition t (key : TranslationKey) : string :=
  match key with
  | please_fill_valid_values => "Please fill all fields with valid values."
  | net_weight_error => "Net weight cannot be greater than gross weight."
  end.

Definition now : string := "2025-01-01T10:10:00.000Z".

Definition asha : Party.t := Party.mk "9876543210" "Asha" "9876543210" CUSTOMER.

(** A running application: one item on the invoice, one party. *)
Definition app : App.State :=
  {| App.items := [ring]; App.customer := Customer.mk "Asha" "9876543210";
     App.gstRate := 3; App.invoiceNumber := 7; App.parties := [asha];
     App.khataTransactions := []; App.byajLoans := [loan]; App.console := [] |}.

(** A short visit to the billing screen: a refused line, two accepted
    lines, a tax rate, a discount. *)
Definition billing_events : list Billing.Event :=
  [ Billing.SubmitItem "2025-01-01T10:00:00.000Z" (form "Ring" "10" "12" "500");
    Billing.SubmitItem "2025-01-01T10:01:00.000Z" (form "Gold Ring 22K" "10.5" "10.25" "500");
    Billing.SubmitItem "2025-01-01T10:02:00.000Z" (form "Chain" "20" "19.5" "450");
    Billing.GstRateChange "3";
    Billing.DiscountValueChange "10" ].

(** Another visit: one accepted line, then minus 200 typed in the tax rate
    field, which takes any number. *)
Definition negative_tax_events : list Billing.Event :=
  [ Billing.SubmitItem "2025-01-01T10:01:00.000Z" (form "Gold Ring 22K" "10.5" "10.25" "500");
    Billing.GstRateChange "-200" ].

(** A visit to the khatabook: a party is added, 100 is given to her on
    1 January 2025 and 40 received from her a day later. *)
Definition khata_events : list Khatabook.Event :=
  [ Khatabook.ClickAddCustomer;
    Khatabook.SubmitCustomer "Asha" "9876543210" CUSTOMER;
    Khatabook.ClickParty "9876543210";
    Khatabook.ClickGaveOrReceived DEBIT;
    Khatabook.SubmitTransaction "100" "bangle" "tx-1" 1735689600000;
    Khatabook.ClickGaveOrReceived CREDIT;
    Khatabook.SubmitTransaction "40" "cash" "tx-2" 1735776000000 ].

Definition khata_screen : App.State * Khatabook.State :=
  Khatabook.run khata_events (App.initial, Khatabook.initial).

(** A loan form filled in: a borrower, 10000 at 2 percent a month, and the
    fields of one pledge typed but not yet added. *)
Definition loan_form : Byajbook.FormState :=
  {| Byajbook.borrowerName := "Ramesh Kumar"; Byajbook.borrowerPhone := "9876543210";
     Byajbook.borrowerAddress := "12 Station Road, Kanpur";
     Byajbook.photoBase64 := None; Byajbook.aadhaarNumber := "";
     Byajbook.panNumber := ""; Byajbook.aadhaarPhotoBase64 := None;
     Byajbook.panPhotoBase64 := None; Byajbook.principal := "10000";
     Byajbook.rate := "2"; Byajbook.ratePeriod := MONTHLY;
     Byajbook.loanDate := "2025-01-01"; Byajbook.items := [];
     Byajbook.itemDesc := "Gold bangle"; Byajbook.itemWeight := "20";
     Byajbook.itemPurity := "22K"; Byajbook.itemValue := "110000";
     Byajbook.itemPhotoBase64 := None |}.

(** Stand-ins for the date parser and the random identifiers. *)
Definition parseDate (s : string) : Z := 1735689600000.

Definition random (i : nat) : string := "0.5".

Definition byaj_events : list Byajbook.Event :=
  [ Byajbook.ClickAddLoan "2025-01-01";
    Byajbook.EditFields loan_form;
    Byajbook.ClickAddItem;
    Byajbook.SubmitLoan "loan-9" ].

(** Stand-ins for the date and number formats of the browser. *)
Definition formatDate (ms : Z) : string := "date".

Definition toLocaleString (q : Q) : string :=
  if Qeq_bool q 100 then "100" else if Qeq_bool q 60 then "60" else "40".

End Sample.

(** ** Numbers *)

Lemma ltb_true (a b : Q) : JS.ltb a b = true <-> a < b.
Proof.
  unfold JS.ltb. rewrite negb_true_iff.
  destruct (Qle_bool b a) eqn:E.
  - apply Qle_bool_iff in E. split; [discriminate | intros H; lra].
  - split; [intros _ | reflexivity].
    apply Qnot_le_lt. intros H. apply Qle_bool_iff in H. congruence.
Qed.

Lemma ltb_false (a b : Q) : JS.ltb a b = false <-> b <= a.
Proof.
  unfold JS.ltb. rewrite negb_false_iff. apply Qle_bool_iff.
Qed.

Lemma leb_true (a b : Q) : JS.leb a b = true <-> a <= b.
Proof. apply Qle_bool_iff. Qed.

Lemma leb_false (a b : Q) : JS.leb a b = false <-> b < a.
Proof.
  unfold JS.leb. destruct (Qle_bool a b) eqn:E.
  - apply Qle_bool_iff in E. split; [discriminate | intros H; lra].
  - split; [intros _ | reflexivity].
    apply Qnot_le_lt. intros H. apply Qle_bool_iff in H. congruence.
Qed.

(** Turn the boolean comparisons among the hypotheses into orders on [Q]. *)
Ltac order_hyps :=
  repeat match goal with
  | H : JS.ltb _ _ = true |- _ => apply ltb_true in H
  | H : JS.ltb _ _ = false |- _ => apply ltb_false in H
  | H : JS.leb _ _ = true |- _ => apply leb_true in H
  | H : JS.leb _ _ = false |- _ => apply leb_false in H
  end.

Lemma orZero_Some (q : Q) : JS.orZero (Some q) == q.
Proof.
  unfold JS.orZero. destruct (Qeq_bool q 0) eqn:E; [| reflexivity].
  apply Qeq_bool_iff in E. symmetry. exact E.
Qed.

Lemma percent_nonneg (total n : Q) : 0 <= total -> 0 <= n -> 0 <= total * (n / 100).
Proof.
  intros Ht Hn. apply Qmult_le_0_compat; [exact Ht |].
  apply Qle_shift_div_l; lra.
Qed.

Lemma clamp_spec (hi x : Q) :
  0 <= hi ->
  Spec.clamp 0 hi x == (if JS.ltb hi (if JS.ltb 0 x then x else 0) then hi
                        else if JS.ltb 0 x then x else 0).
Proof.
  intros Hhi. unfold Spec.clamp.
  destruct (JS.ltb 0 x) eqn:E0.
  - apply ltb_true in E0.
    destruct (JS.ltb hi x) eqn:E1.
    + apply ltb_true in E1. rewrite Q.min_l by lra. apply Q.max_r. exact Hhi.
    + apply ltb_false in E1. rewrite Q.min_r by lra. apply Q.max_r. lra.
  - apply ltb_false in E0.
    destruct (JS.ltb hi 0) eqn:E1.
    + apply ltb_true in E1. lra.
    + rewrite Q.min_r by lra. apply Q.max_l. exact E0.
Qed.

(** ** InvoicePreview: items and totals *)

Lemma fold_left_sum {A : Type} (f : A -> Q) (l : list A) (acc : Q) :
  fold_left (fun a x => a + f x) l acc == acc + Spec.sum (map f l).
Proof.
  revert acc. induction l as [| x l IH]; intros acc; simpl.
  - ring.
  - rewrite IH. ring.
Qed.

Lemma subTotal_sum (cs : list InvoicePreview.Calculation) :
  InvoicePreview.subTotal cs == Spec.sum (map InvoicePreview.valueBeforeGst cs).
Proof. unfold InvoicePreview.subTotal. rewrite fold_left_sum. ring. Qed.

Lemma gstAmount_sum (cs : list InvoicePreview.Calculation) :
  InvoicePreview.gstAmount cs == Spec.sum (map InvoicePreview.itemGstAmount cs).
Proof. unfold InvoicePreview.gstAmount. rewrite fold_left_sum. ring. Qed.

Lemma sum_plus {A : Type} (f g : A -> Q) (l : list A) :
  Spec.sum (map (fun x => f x + g x) l) == Spec.sum (map f l) + Spec.sum (map g l).
Proof.
  induction l as [| x l IH]; simpl; [ring |]. rewrite IH. ring.
Qed.

Lemma sum_nonneg (l : list Q) : Forall (fun x => 0 <= x) l -> 0 <= Spec.sum l.
Proof.
  induction 1 as [| x l Hx _ IH]; simpl; [lra |].
  lra.
Qed.

Lemma rate_pos (rates : Rates.t) (m : MetalType) :
  Spec.valid_rates rates -> 0 < Rates.get rates m.
Proof. intros [Hg Hs]. destruct m; assumption. Qed.

Lemma calculate_nonneg (rates : Rates.t) (gstRate : Q) (i : InvoiceItem.t) :
  Spec.valid_rates rates -> 0 <= gstRate -> Spec.valid_item i ->
  0 <= InvoicePreview.valueBeforeGst (InvoicePreview.calculate rates gstRate i) /\
  0 <= InvoicePreview.itemGstAmount (InvoicePreview.calculate rates gstRate i).
Proof.
  intros Hr Hg (Hgw & Hnw & _ & Hmc). simpl.
  assert (Hv : 0 <= InvoiceItem.netWeight i * Rates.get rates (InvoiceItem.metal i)
                    + match InvoiceItem.makingChargeType i with
                      | PER_GRAM => InvoiceItem.makingChargeValue i * InvoiceItem.grossWeight i
                      | FLAT => InvoiceItem.makingChargeValue i
                      end).
  { assert (H1 : 0 <= InvoiceItem.netWeight i * Rates.get rates (InvoiceItem.metal i)).
    { apply Qmult_le_0_compat; [lra |]. apply Qlt_le_weak, rate_pos, Hr. }
    assert (H2 : 0 <= InvoiceItem.makingChargeValue i * InvoiceItem.grossWeight i).
    { apply Qmult_le_0_compat; lra. }
    destruct (InvoiceItem.makingChargeType i); lra. }
  split; [exact Hv |].
  destruct (InvoiceItem.applyGst i); [| lra].
  apply percent_nonneg; assumption.
Qed.

Lemma invoiceTotal_nonneg (items : list InvoiceItem.t) (rates : Rates.t) (gstRate : Q) :
  Spec.valid_rates rates -> 0 <= gstRate -> Forall Spec.valid_item items ->
  0 <= InvoicePreview.invoiceTotal items rates gstRate.
Proof.
  intros Hr Hg Hi.
  unfold InvoicePreview.invoiceTotal, InvoicePreview.totalBeforeDiscount.
  rewrite subTotal_sum, gstAmount_sum.
  unfold InvoicePreview.calculations. rewrite !map_map.
  assert (H1 : 0 <= Spec.sum (map (fun x => InvoicePreview.valueBeforeGst
                                              (InvoicePreview.calculate rates gstRate x)) items)).
  { apply sum_nonneg, List.Forall_map. revert Hi. apply List.Forall_impl.
    intros i Hv. apply calculate_nonneg; assumption. }
  assert (H2 : 0 <= Spec.sum (map (fun x => InvoicePreview.itemGstAmount
                                              (InvoicePreview.calculate rates gstRate x)) items)).
  { apply sum_nonneg, List.Forall_map. revert Hi. apply List.Forall_impl.
    intros i Hv. apply calculate_nonneg; assumption. }
  lra.
Qed.

(** C1. Every line item is priced by the formulas of section 4.1 and the
    invoice totals are the sums over the items: metal value is net weight
    times the rate of the metal; the making charge is per gram of gross
    weight or flat; the taxable amount is their sum; tax is the taxable amount
    times [gstRate / 100] when the item's flag is set and zero otherwise; the
    line total is taxable amount plus tax; the subtotal, the total tax and the
    total before discount are the sums of the taxable amounts, of the tax
    amounts and of both. *)
Theorem C1_pricing_formulas (items : list InvoiceItem.t) (rates : Rates.t) (gstRate : Q) :
  let cs := InvoicePreview.calculations items rates gstRate in
  map InvoicePreview.item cs = items /\
  Forall
    (fun c =>
       let i := InvoicePreview.item c in
       InvoicePreview.metalValue c
         == InvoiceItem.netWeight i * Rates.get rates (InvoiceItem.metal i) /\
       InvoicePreview.makingCharges c
         == match InvoiceItem.makingChargeType i with
            | PER_GRAM => InvoiceItem.makingChargeValue i * InvoiceItem.grossWeight i
            | FLAT => InvoiceItem.makingChargeValue i
            end /\
       InvoicePreview.valueBeforeGst c
         == InvoicePreview.metalValue c + InvoicePreview.makingCharges c /\
       InvoicePreview.itemGstAmount c
         == (if InvoiceItem.applyGst i
             then InvoicePreview.valueBeforeGst c * (gstRate / 100) else 0) /\
       InvoicePreview.totalValue c
         == InvoicePreview.valueBeforeGst c + InvoicePreview.itemGstAmount c)
    cs /\
  InvoicePreview.subTotal cs == Spec.sum (map InvoicePreview.valueBeforeGst cs) /\
  InvoicePreview.gstAmount cs == Spec.sum (map InvoicePreview.itemGstAmount cs) /\
  InvoicePreview.totalBeforeDiscount cs
    == InvoicePreview.subTotal cs + InvoicePreview.gstAmount cs /\
  InvoicePreview.totalBeforeDiscount cs
    == Spec.sum (map (fun c => InvoicePreview.valueBeforeGst c
                               + InvoicePreview.itemGstAmount c) cs).
Proof.
  intros cs. subst cs. unfold InvoicePreview.calculations.
  split; [| split; [| split; [| split; [| split]]]].
  - rewrite map_map. simpl. apply map_id.
  - apply List.Forall_forall. intros c Hc. apply in_map_iff in Hc.
    destruct Hc as (i & <- & _). simpl. repeat split; reflexivity.
  - apply subTotal_sum.
  - apply gstAmount_sum.
  - reflexivity.
  - unfold InvoicePreview.totalBeforeDiscount.
    rewrite subTotal_sum, gstAmount_sum, sum_plus. reflexivity.
Qed.

(** ** InvoicePreview: the discount *)

Lemma discountAmount_le_total (total : Q) (st : InvoicePreview.State) :
  InvoicePreview.discountAmount total st <= total.
Proof.
  unfold InvoicePreview.discountAmount.
  match goal with |- (if JS.ltb ?t ?d then _ else _) <= _ =>
    destruct (JS.ltb t d) eqn:E end.
  - lra.
  - apply ltb_false in E. exact E.
Qed.

Lemma grandTotal_nonneg (total : Q) (st : InvoicePreview.State) :
  0 <= InvoicePreview.grandTotal total st.
Proof.
  unfold InvoicePreview.grandTotal.
  pose proof (discountAmount_le_total total st). lra.
Qed.

Lemma discountAmount_clamp (total : Q) (st : InvoicePreview.State) :
  0 <= total ->
  InvoicePreview.discountAmount total st
  == Spec.clamp 0 total
       (Spec.discount (InvoicePreview.discountType st)
          (InvoicePreview.numericDiscountValue st) total).
Proof.
  intros Ht. unfold InvoicePreview.discountAmount.
  set (n := InvoicePreview.numericDiscountValue st).
  destruct (InvoicePreview.discountType st); simpl.
  - (* PERCENT: the sign of the discount is the sign of the value *)
    rewrite clamp_spec by exact Ht.
    destruct (JS.ltb 0 n) eqn:En.
    + apply ltb_true in En.
      assert (Hp : 0 <= total * (n / 100)) by (apply percent_nonneg; lra).
      generalize dependent (total * (n / 100)). intros p Hp.
      destruct (JS.ltb 0 p) eqn:Ep; [reflexivity |].
      apply ltb_false in Ep.
      destruct (JS.ltb total p) eqn:E1; destruct (JS.ltb total 0) eqn:E2;
        order_hyps; lra.
    + apply ltb_false in En.
      assert (Hp : total * (n / 100) <= 0).
      { assert (H1 : 0 <= total * (- n / 100)) by (apply percent_nonneg; lra).
        assert (H2 : total * (- n / 100) == - (total * (n / 100))) by field.
        generalize dependent (total * (n / 100)).
        generalize dependent (total * (- n / 100)). intros; lra. }
      generalize dependent (total * (n / 100)). intros p Hp.
      destruct (JS.ltb 0 p) eqn:Ep; [| reflexivity].
      apply ltb_true in Ep. lra.
  - (* FIXED *)
    rewrite clamp_spec by exact Ht. reflexivity.
Qed.

Lemma discountAmount_nonneg (total : Q) (st : InvoicePreview.State) :
  0 <= total -> 0 <= InvoicePreview.discountAmount total st.
Proof.
  intros Ht. rewrite discountAmount_clamp by exact Ht.
  unfold Spec.clamp. apply Q.le_max_l.
Qed.

Lemma grandTotal_compat (total total' : Q) (st : InvoicePreview.State) :
  total' == total ->
  InvoicePreview.grandTotal total' st == InvoicePreview.grandTotal total st.
Proof.
  intros H. unfold InvoicePreview.grandTotal, InvoicePreview.discountAmount.
  set (n := InvoicePreview.numericDiscountValue st).
  assert (Hp : total' * (n / 100) == total * (n / 100)) by (rewrite H; reflexivity).
  generalize dependent (total' * (n / 100)). intros p' Hp.
  generalize dependent (total * (n / 100)). intros p Hp.
  destruct (JS.ltb 0 n); [destruct (InvoicePreview.discountType st) |].
  - destruct (JS.ltb total' p') eqn:E1; destruct (JS.ltb total p) eqn:E2;
      order_hyps; lra.
  - destruct (JS.ltb total' n) eqn:E1; destruct (JS.ltb total n) eqn:E2;
      order_hyps; lra.
  - destruct (JS.ltb total' 0) eqn:E1; destruct (JS.ltb total 0) eqn:E2;
      order_hyps; lra.
Qed.

(** C2 as stated fails for a negative tax rate.
    The tax rate field stores any number that parses.  After one accepted
    line (a gold ring, 10.25 g net, 10.5 g gross, 500 a gram of making
    charge, taxed) and a tax rate of minus 200 percent, at 6000 a gram the
    total before discount is -66750: with no discount typed the discount
    amount is -66750, below zero and not the clamped value, and the grand
    total, 0, is above the total before discount. *)
Lemma C2_counterexample :
  let session := Billing.run Sample.t Sample.negative_tax_events Billing.initial in
  let items := App.items session.1 in
  let gstRate := App.gstRate session.1 in
  let st := session.2 in
  let total := InvoicePreview.invoiceTotal items Sample.rates gstRate in
  let discount := InvoicePreview.discountAmount total st in
  Forall Spec.valid_item items /\ Spec.valid_rates Sample.rates /\
  gstRate == -200 /\
  total == -66750 /\
  InvoicePreview.numericDiscountValue st == 0 /\
  discount == -66750 /\
  ~ 0 <= discount /\
  ~ discount
    == Spec.clamp 0 total
         (Spec.discount (InvoicePreview.discountType st)
            (InvoicePreview.numericDiscountValue st) total) /\
  InvoicePreview.invoiceGrandTotal items Sample.rates gstRate st == 0 /\
  ~ InvoicePreview.invoiceGrandTotal items Sample.rates gstRate st <= total.
Proof.
  cbv zeta.
  split; [repeat constructor; discriminate |].
  split; [split; reflexivity |].
  split; [reflexivity |].
  split; [reflexivity |].
  split; [reflexivity |].
  split; [reflexivity |].
  split; [intros H; apply H; reflexivity |].
  split; [intros H; discriminate H |].
  split; [reflexivity |].
  intros H. apply H. reflexivity.
Qed.

(** C2, amended. For every item set, rate table, tax rate, discount mode
    and discount value: the grand total is the total before discount minus
    the discount amount, it is not negative, the discount amount is not above
    the total before discount, and the grand total is determined by its
    inputs (totals that are equal as numbers give grand totals that are equal
    as numbers).  Validated items, positive rates and a tax percentage that
    is not negative give a total before discount that is not negative.  When
    the total before discount is not negative, the discount amount is the
    discount of the mode, [totalBeforeDiscount × (value/100)] for PERCENT and
    [value] for FIXED, clamped to [[0, totalBeforeDiscount]], it is not
    negative, and the grand total is not above the total before discount.
    When the total before discount is negative, the discount amount is
    negative and the grand total is above the total before discount. *)
Theorem C2_discount_clamped (items : list InvoiceItem.t) (rates : Rates.t)
  (gstRate : Q) (st : InvoicePreview.State) :
  let total := InvoicePreview.invoiceTotal items rates gstRate in
  let discount := InvoicePreview.discountAmount total st in
  let grand := InvoicePreview.invoiceGrandTotal items rates gstRate st in
  grand == total - discount /\
  0 <= grand /\
  discount <= total /\
  (forall total', total' == total -> InvoicePreview.grandTotal total' st == grand) /\
  (Spec.valid_rates rates -> Forall Spec.valid_item items -> 0 <= gstRate ->
   0 <= total) /\
  (0 <= total ->
   discount
     == Spec.clamp 0 total
          (Spec.discount (InvoicePreview.discountType st)
             (InvoicePreview.numericDiscountValue st) total) /\
   0 <= discount /\ grand <= total) /\
  (total < 0 -> discount < 0 /\ total < grand).
Proof.
  intros total discount grand.
  assert (Hd' : discount <= total) by apply discountAmount_le_total.
  assert (Hgrand : grand == total - discount) by reflexivity.
  split; [exact Hgrand |].
  split; [rewrite Hgrand; lra |].
  split; [exact Hd' |].
  split; [intros total' H; apply grandTotal_compat, H |].
  split; [intros Hr Hi Hg; apply invoiceTotal_nonneg; assumption |].
  split.
  - intros Ht.
    assert (Hd : 0 <= discount) by (apply discountAmount_nonneg; exact Ht).
    split; [apply discountAmount_clamp; exact Ht |].
    split; [exact Hd | rewrite Hgrand; lra].
  - intros Ht. split; [lra | rewrite Hgrand; lra].
Qed.

Lemma C2_discount_clamped_witness :
  (Spec.valid_rates Sample.rates /\
   Forall Spec.valid_item [Sample.ring; Sample.coin] /\ 0 <= 3 /\
   0 <= InvoicePreview.invoiceTotal [Sample.ring; Sample.coin] Sample.rates 3)
  /\
  (0 <= InvoicePreview.invoiceTotal [Sample.ring; Sample.coin] Sample.rates 3 /\
   InvoicePreview.invoiceGrandTotal [Sample.ring; Sample.coin] Sample.rates 3
     (Sample.percent "10")
   <= InvoicePreview.invoiceTotal [Sample.ring; Sample.coin] Sample.rates 3)
  /\
  (InvoicePreview.invoiceTotal [Sample.ring] Sample.rates (-200) < 0 /\
   InvoicePreview.invoiceTotal [Sample.ring] Sample.rates (-200)
   < InvoicePreview.invoiceGrandTotal [Sample.ring] Sample.rates (-200)
       (Sample.percent "10")).
Proof.
  assert (Hr : Spec.valid_rates Sample.rates) by (split; reflexivity).
  assert (Hi : Forall Spec.valid_item [Sample.ring; Sample.coin]).
  { repeat constructor; discriminate. }
  assert (Hg : 0 <= 3) by discriminate.
  assert (Ht : 0 <= InvoicePreview.invoiceTotal [Sample.ring; Sample.coin]
                      Sample.rates 3) by discriminate.
  assert (Hn : InvoicePreview.invoiceTotal [Sample.ring] Sample.rates (-200) < 0)
    by reflexivity.
  split; [| split].
  - split; [exact Hr | split; [exact Hi | split; [exact Hg |]]].
    exact (proj1 (proj2 (proj2 (proj2 (proj2
             (C2_discount_clamped [Sample.ring; Sample.coin] Sample.rates 3
                (Sample.percent "10")))))) Hr Hi Hg).
  - split; [exact Ht |].
    exact (proj2 (proj2
             (proj1 (proj2 (proj2 (proj2 (proj2 (proj2
                (C2_discount_clamped [Sample.ring; Sample.coin] Sample.rates 3
                   (Sample.percent "10")))))))
                Ht))).
  - split; [exact Hn |].
    exact (proj2
             (proj2 (proj2 (proj2 (proj2 (proj2 (proj2
                (C2_discount_clamped [Sample.ring] Sample.rates (-200)
                   (Sample.percent "10")))))))
                Hn)).
Defined.

(** C3 as stated fails for a percentage.
    A percentage discount whose value is at least the total does not bring
    the grand total to zero: on a total of 50 a discount of 60 percent leaves
    20. *)
Lemma C3_counterexample :
  let total := InvoicePreview.invoiceTotal [Sample.coin] Sample.rates 3 in
  let st := Sample.percent "60" in
  Forall Spec.valid_item [Sample.coin] /\ Spec.valid_rates Sample.rates /\
  total == 50 /\
  InvoicePreview.numericDiscountValue st == 60 /\
  total <= InvoicePreview.numericDiscountValue st /\
  InvoicePreview.invoiceGrandTotal [Sample.coin] Sample.rates 3 st == 20 /\
  ~ InvoicePreview.invoiceGrandTotal [Sample.coin] Sample.rates 3 st == 0.
Proof.
  cbv zeta.
  split; [repeat constructor; discriminate |].
  split; [split; reflexivity |].
  split; [reflexivity |].
  split; [reflexivity |].
  split; [discriminate |].
  split; [reflexivity |].
  intros H. discriminate H.
Qed.

(** C3, amended. The grand total is never negative. With a FIXED discount
    whose value is at least the total before discount it is zero; with a
    PERCENT discount it is zero when the percentage is at least 100 and the
    total before discount is not negative. *)
Theorem C3_full_discount (items : list InvoiceItem.t) (rates : Rates.t)
  (gstRate : Q) (st : InvoicePreview.State) :
  let total := InvoicePreview.invoiceTotal items rates gstRate in
  let value := InvoicePreview.numericDiscountValue st in
  0 <= InvoicePreview.invoiceGrandTotal items rates gstRate st /\
  (InvoicePreview.discountType st = InvoicePreview.FIXED -> total <= value ->
   InvoicePreview.invoiceGrandTotal items rates gstRate st == 0) /\
  (InvoicePreview.discountType st = InvoicePreview.PERCENT -> 0 <= total ->
   100 <= value ->
   InvoicePreview.invoiceGrandTotal items rates gstRate st == 0).
Proof.
  intros total value. unfold InvoicePreview.invoiceGrandTotal. fold total.
  split; [apply grandTotal_nonneg |].
  unfold InvoicePreview.grandTotal, InvoicePreview.discountAmount. fold value.
  split.
  - intros -> Hv.
    destruct (JS.ltb 0 value) eqn:E0.
    + destruct (JS.ltb total value) eqn:E1; order_hyps; lra.
    + destruct (JS.ltb total 0) eqn:E1; order_hyps; lra.
  - intros -> Ht Hv.
    assert (E0 : JS.ltb 0 value = true) by (apply ltb_true; lra).
    rewrite E0.
    assert (Hp : total <= total * (value / 100)).
    { assert (H1 : 0 <= total * ((value - 100) / 100)) by (apply percent_nonneg; lra).
      assert (H2 : total * ((value - 100) / 100) == total * (value / 100) - total)
        by field.
      generalize dependent (total * (value / 100)).
      generalize dependent (total * ((value - 100) / 100)). intros; lra. }
    generalize dependent (total * (value / 100)). intros p Hp.
    destruct (JS.ltb total p) eqn:E1; order_hyps; lra.
Qed.

Lemma C3_full_discount_witness :
  (InvoicePreview.discountType (Sample.fixed "50") = InvoicePreview.FIXED /\
   InvoicePreview.invoiceTotal [Sample.coin] Sample.rates 3
   <= InvoicePreview.numericDiscountValue (Sample.fixed "50") /\
   InvoicePreview.invoiceGrandTotal [Sample.coin] Sample.rates 3 (Sample.fixed "50") == 0)
  /\
  (InvoicePreview.discountType (Sample.percent "100") = InvoicePreview.PERCENT /\
   0 <= InvoicePreview.invoiceTotal [Sample.coin] Sample.rates 3 /\
   100 <= InvoicePreview.numericDiscountValue (Sample.percent "100") /\
   InvoicePreview.invoiceGrandTotal [Sample.coin] Sample.rates 3 (Sample.percent "100") == 0).
Proof.
  assert (H1 : InvoicePreview.invoiceTotal [Sample.coin] Sample.rates 3
               <= InvoicePreview.numericDiscountValue (Sample.fixed "50"))
    by discriminate.
  assert (H2 : 0 <= InvoicePreview.invoiceTotal [Sample.coin] Sample.rates 3)
    by discriminate.
  assert (H3 : 100 <= InvoicePreview.numericDiscountValue (Sample.percent "100"))
    by discriminate.
  split.
  - split; [reflexivity | split; [exact H1 |]].
    exact (proj1 (proj2 (C3_full_discount [Sample.coin] Sample.rates 3
                           (Sample.fixed "50"))) eq_refl H1).
  - split; [reflexivity | split; [exact H2 | split; [exact H3 |]]].
    exact (proj2 (proj2 (C3_full_discount [Sample.coin] Sample.rates 3
                           (Sample.percent "100"))) eq_refl H2 H3).
Defined.

(** The guard on the tax percentage matters: a tax of minus 200 percent
    makes the total before discount negative, and the grand total, clamped to
    zero, is then above it. *)
Remark negative_tax_total :
  InvoicePreview.invoiceTotal [Sample.ring] Sample.rates (-200) < 0 /\
  InvoicePreview.invoiceGrandTotal [Sample.ring] Sample.rates (-200) (Sample.percent "") == 0.
Proof. split; reflexivity. Qed.

(** ** Byajbook: interest accrual *)

Lemma elapsed_days (ms : Z) :
  Qmax 0 (inject_Z ms / inject_Z (1000 * 3600 * 24))
  == inject_Z (Z.max 0 ms) / 86400000.
Proof.
  change (inject_Z (1000 * 3600 * 24)) with 86400000.
  destruct (Z.le_gt_cases 0 ms) as [H | H].
  - rewrite Z.max_r by exact H. apply Q.max_r.
    apply Qle_shift_div_l; [reflexivity |].
    rewrite Qmult_0_l. change 0 with (inject_Z 0). rewrite <- Zle_Qle. exact H.
  - rewrite Z.max_l by lia. rewrite Q.max_l.
    + unfold Qdiv. rewrite Qmult_0_l. reflexivity.
    + apply Qle_shift_div_r; [reflexivity |].
      rewrite Qmult_0_l. change 0 with (inject_Z 0). rewrite <- Zle_Qle. lia.
Qed.

(** C4. For a loan at simple interest evaluated at instant [e] (in
    milliseconds, like the loan date): the elapsed days are [max(0, e - d)]
    converted to days; the periods are the elapsed days over 30.4375 for a
    monthly rate and over 365.25 for an annual one; the interest is
    [P × r × periods / 100]; the total payable is [P + interest]; the days
    passed are the floor of the elapsed days.  A monthly loan of 10000 at 2
    percent evaluated 30.4375 days (2629800000 ms) after the loan date owes
    200 of interest and 10200 in total. *)
Theorem C4_simple_interest (loan : ByajLoan.t) (e : Z) :
  ByajLoan.interestType loan = SIMPLE ->
  let P := ByajLoan.principalAmount loan in
  let r := ByajLoan.interestRate loan in
  let elapsedDays := inject_Z (Z.max 0 (e - ByajLoan.loanDate loan)) / 86400000 in
  let periods :=
    match ByajLoan.interestRatePeriod loan with
    | MONTHLY => elapsedDays / 30.4375
    | ANNUAL => elapsedDays / 365.25
    end in
  let a := Byajbook.accrual e loan in
  (Byajbook.interest a == P * r * periods / 100 /\
   Byajbook.totalPayable a == P + Byajbook.interest a /\
   Byajbook.daysPassed a = Qfloor elapsedDays) /\
  (ByajLoan.interestRatePeriod loan = MONTHLY -> P == 10000 -> r == 2 ->
   (e - ByajLoan.loanDate loan = 2629800000)%Z ->
   Byajbook.interest a == 200 /\ Byajbook.totalPayable a == 10200 /\
   Byajbook.daysPassed a = 30%Z).
Proof.
  intros Hs P r elapsedDays periods a.
  assert (Hgen : Byajbook.interest a == P * r * periods / 100 /\
                 Byajbook.totalPayable a == P + Byajbook.interest a /\
                 Byajbook.daysPassed a = Qfloor elapsedDays).
  { subst a. unfold Byajbook.accrual. rewrite Hs. cbn [Byajbook.interest
      Byajbook.totalPayable Byajbook.daysPassed].
    pose proof (elapsed_days (e - ByajLoan.loanDate loan)) as Hd.
    fold elapsedDays in Hd. fold P r.
    split; [| split].
    - subst periods. destruct (ByajLoan.interestRatePeriod loan); rewrite Hd; reflexivity.
    - reflexivity.
    - rewrite Hd. reflexivity. }
  split; [exact Hgen |].
  intros Hm HP Hr He. destruct Hgen as (Hi & Ht & Hdays).
  assert (Hi' : Byajbook.interest a == 200).
  { rewrite Hi. subst periods elapsedDays. rewrite Hm, He, HP, Hr. reflexivity. }
  split; [exact Hi' | split].
  - rewrite Ht, Hi', HP. reflexivity.
  - rewrite Hdays. subst elapsedDays. rewrite He. reflexivity.
Qed.

Lemma C4_simple_interest_witness :
  ByajLoan.interestType Sample.loan = SIMPLE /\
  ByajLoan.interestRatePeriod Sample.loan = MONTHLY /\
  Byajbook.interest (Byajbook.accrual 1738319400000 Sample.loan) == 200 /\
  Byajbook.totalPayable (Byajbook.accrual 1738319400000 Sample.loan) == 10200 /\
  Byajbook.daysPassed (Byajbook.accrual 1738319400000 Sample.loan) = 30%Z.
Proof.
  split; [reflexivity | split; [reflexivity |]].
  exact (proj2 (C4_simple_interest Sample.loan 1738319400000 eq_refl)
           eq_refl (Qeq_refl _) (Qeq_refl _) eq_refl).
Defined.

(** ** Khatabook: the sort by date *)

Section Sort.

Context {A : Type} (compareFn : A -> A -> Z).

Lemma insertSorted_perm (x : A) (l : list A) :
  Permutation (JS.insertSorted compareFn x l) (x :: l).
Proof.
  induction l as [| y r IH]; simpl; [reflexivity |].
  destruct (compareFn x y <=? 0)%Z; [reflexivity |].
  rewrite IH. apply perm_swap.
Qed.

Lemma sort_perm (l : list A) : Permutation (JS.sort compareFn l) l.
Proof.
  induction l as [| x l IH]; simpl; [reflexivity |].
  rewrite insertSorted_perm. apply perm_skip, IH.
Qed.

Lemma insertSorted_Forall (P : A -> Prop) (x : A) (l : list A) :
  P x -> Forall P l -> Forall P (JS.insertSorted compareFn x l).
Proof.
  intros Hx Hl. induction Hl as [| y r Hy Hr IH]; simpl.
  - constructor; [exact Hx | constructor].
  - destruct (compareFn x y <=? 0)%Z; repeat constructor; assumption.
Qed.

End Sort.

Lemma insert_byDate_sorted (x : KhataTransaction.t) (l : list KhataTransaction.t) :
  StronglySorted Spec.date_le l ->
  StronglySorted Spec.date_le (JS.insertSorted Khatabook.byDate x l).
Proof.
  induction 1 as [| y r Hr IH Hy]; simpl.
  - repeat constructor.
  - unfold Khatabook.byDate at 1.
    destruct (Z.leb_spec (KhataTransaction.date x - KhataTransaction.date y) 0) as [H | H].
    + constructor; [constructor; assumption |].
      constructor; [unfold Spec.date_le; lia |].
      revert Hy. apply List.Forall_impl. unfold Spec.date_le. intros z Hz. lia.
    + constructor; [exact IH |].
      apply insertSorted_Forall; [unfold Spec.date_le; lia | exact Hy].
Qed.

Lemma sort_byDate_sorted (l : list KhataTransaction.t) :
  StronglySorted Spec.date_le (JS.sort Khatabook.byDate l).
Proof.
  induction l as [| x l IH]; simpl; [constructor |].
  apply insert_byDate_sorted, IH.
Qed.



(** ** Khatabook: running balances *)

Lemma sum_perm (l1 l2 : list Q) : Permutation l1 l2 -> Spec.sum l1 == Spec.sum l2.
Proof.
  induction 1 as [| x l1 l2 _ IH | x y l | l1 l2 l3 _ IH1 _ IH2]; simpl.
  - reflexivity.
  - rewrite IH. reflexivity.
  - ring.
  - rewrite IH1. exact IH2.
Qed.

Lemma netBalance_perm (l1 l2 : list KhataTransaction.t) :
  Permutation l1 l2 -> Spec.netBalance l1 == Spec.netBalance l2.
Proof. intros H. apply sum_perm, Permutation_map, H. Qed.

Lemma annotate_transactions (acc : Q) (l : list KhataTransaction.t) :
  map Khatabook.transaction (Khatabook.annotate acc l).1 = l.
Proof.
  revert acc. induction l as [| t l IH]; intros acc; simpl; [reflexivity |].
  specialize (IH (acc + Khatabook.debitSigned t)).
  destruct (Khatabook.annotate (acc + Khatabook.debitSigned t) l) as [rows final].
  simpl in *. rewrite IH. reflexivity.
Qed.

Lemma annotate_final (acc : Q) (l : list KhataTransaction.t) :
  (Khatabook.annotate acc l).2 == acc + Spec.netBalance l.
Proof.
  revert acc. induction l as [| t l IH]; intros acc; simpl.
  - unfold Spec.netBalance. simpl. ring.
  - specialize (IH (acc + Khatabook.debitSigned t)).
    destruct (Khatabook.annotate (acc + Khatabook.debitSigned t) l) as [rows final].
    simpl in *. rewrite IH. unfold Spec.netBalance. simpl. ring.
Qed.

Lemma last_cons_default {A : Type} (x : A) (l : list A) (d d' : A) :
  List.last (x :: l) d = List.last (x :: l) d'.
Proof.
  revert x. induction l as [| y l IH]; intros x; [reflexivity |].
  change (List.last (y :: l) d = List.last (y :: l) d'). apply IH.
Qed.

Lemma annotate_last (acc : Q) (l : list KhataTransaction.t) :
  (Khatabook.annotate acc l).2
  = List.last (map Khatabook.balance (Khatabook.annotate acc l).1) acc.
Proof.
  revert acc. induction l as [| t l IH]; intros acc; [reflexivity |].
  cbn [Khatabook.annotate]. specialize (IH (acc + Khatabook.debitSigned t)).
  destruct (Khatabook.annotate (acc + Khatabook.debitSigned t) l) as [rows final].
  cbn [fst snd map Khatabook.balance] in *. rewrite IH.
  destruct rows as [| r rows]; [reflexivity |].
  cbn [map].
  transitivity (List.last (Khatabook.balance r :: map Khatabook.balance rows) acc);
    [apply last_cons_default | reflexivity].
Qed.


Lemma ledger_unfold (transactions : list KhataTransaction.t) :
  Khatabook.ledger transactions
  = {| Khatabook.finalBalance :=
         (Khatabook.annotate 0 (JS.sort Khatabook.byDate transactions)).2;
       Khatabook.transactionRows :=
         rev (Khatabook.annotate 0 (JS.sort Khatabook.byDate transactions)).1 |}.
Proof.
  unfold Khatabook.ledger.
  destruct (Khatabook.annotate 0 (JS.sort Khatabook.byDate transactions)); reflexivity.
Qed.

Lemma finalBalance_netBalance (transactions : list KhataTransaction.t) :
  Khatabook.finalBalance (Khatabook.ledger transactions) == Spec.netBalance transactions.
Proof.
  rewrite ledger_unfold. cbn [Khatabook.finalBalance].
  rewrite annotate_final, (netBalance_perm _ _ (sort_perm Khatabook.byDate transactions)).
  ring.
Qed.



(** ** The three balance computations *)

Section BalanceMap.

(** The loop shared by the customer list and the reports, for either way of
    writing the signed amount. *)
Variable signed : KhataTransaction.t -> Q.

Lemma balance_map_lookup (transactions : list KhataTransaction.t)
  (m : gmap string Q) (k : string) :
  JS.orZero
    (fold_left
       (fun (balances : gmap string Q) t =>
          let currentBalance := JS.orZero (balances !! KhataTransaction.partyId t) in
          let newBalance := currentBalance + signed t in
          <[KhataTransaction.partyId t := newBalance]> balances)
       transactions m !! k)
  == JS.orZero (m !! k)
     + Spec.sum (map signed
         (List.filter (fun t => String.eqb (KhataTransaction.partyId t) k) transactions)).
Proof.
  revert m. induction transactions as [| t r IH]; intros m.
  - simpl. ring.
  - cbn [fold_left List.filter]. rewrite IH. cbv zeta.
    destruct (String.eqb_spec (KhataTransaction.partyId t) k) as [-> | Hne].
    + rewrite lookup_insert_eq, orZero_Some. simpl. ring.
    + rewrite lookup_insert_ne by exact Hne. ring.
Qed.

End BalanceMap.

Lemma creditSigned_debitSigned (t : KhataTransaction.t) :
  Khatabook.creditSigned t = Khatabook.debitSigned t.
Proof.
  unfold Khatabook.creditSigned, Khatabook.debitSigned.
  destruct (KhataTransaction.type t); reflexivity.
Qed.

Lemma listBalance_netBalance (transactions : list KhataTransaction.t) (party : Party.t) :
  Khatabook.listBalance transactions party
  == Spec.netBalance (Khatabook.transactionsOf party transactions).
Proof.
  unfold Khatabook.listBalance, Khatabook.partyBalances.
  rewrite (balance_map_lookup Khatabook.creditSigned).
  rewrite lookup_empty. simpl JS.orZero.
  unfold Spec.netBalance, Khatabook.transactionsOf.
  rewrite (map_ext _ _ creditSigned_debitSigned). ring.
Qed.

Lemma reports_netBalance (transactions : list KhataTransaction.t) (party : Party.t) :
  Reports.balance (Reports.partyBalance transactions party)
  == Spec.netBalance (Khatabook.transactionsOf party transactions).
Proof.
  unfold Reports.partyBalance, Reports.balances. cbn [Reports.balance].
  rewrite (balance_map_lookup Khatabook.debitSigned).
  rewrite lookup_empty. simpl JS.orZero.
  unfold Spec.netBalance, Khatabook.transactionsOf. ring.
Qed.

(** C10. The balance of a party in the customer list (a map filled over all
    transactions), the final balance of the party's ledger (a fold over the
    party's transactions sorted by date) and the balance the reports compute
    (a second map) are the same number: the sum over the party's transactions
    of [+amount] for each DEBIT and [-amount] for each CREDIT. *)
Theorem C10_three_balances_agree (transactions : list KhataTransaction.t) (party : Party.t) :
  let own := Khatabook.transactionsOf party transactions in
  let inList := Khatabook.listBalance transactions party in
  let inLedger := Khatabook.finalBalance (Khatabook.ledger own) in
  let inReports := Reports.balance (Reports.partyBalance transactions party) in
  inList == inLedger /\ inReports == inLedger /\ inList == inReports /\
  inLedger == Spec.netBalance own.
Proof.
  intros own inList inLedger inReports.
  assert (H1 : inList == Spec.netBalance own) by apply listBalance_netBalance.
  assert (H2 : inLedger == Spec.netBalance own) by apply finalBalance_netBalance.
  assert (H3 : inReports == Spec.netBalance own) by apply reports_netBalance.
  rewrite H1, H2, H3. repeat split; reflexivity.
Qed.

(** ** BillingForm: validation of a line item *)

Lemma truthy_false (s : string) : JS.truthy s = false <-> s = "".
Proof. destruct s; simpl; split; congruence. Qed.

Lemma app_cons_neq {A : Type} (l : list A) (x : A) : l ++ [x] <> l.
Proof.
  intros H. apply (f_equal (@List.length A)) in H.
  rewrite List.length_app in H. simpl in H. lia.
Qed.

Section Validation.

Context {S : Type} (t : TranslationKey -> string).
Context (onAddItem : InvoiceItem.t -> S -> S).

(** The form either rejects, with a message and the parent untouched, or
    accepts, with the item of the form handed to [onAddItem]. *)
Lemma handleSubmit_cases (now : string) (form : BillingForm.State) (parent : S) :
  (Spec.line_invalid_trimmed form /\
   exists key,
     BillingForm.handleSubmit t onAddItem now form parent
     = (BillingForm.setError (Some (t key)) form, parent)) \/
  (~ Spec.line_invalid_trimmed form /\
   exists gw nw mcv,
     JS.parseFloat (BillingForm.grossWeight form) = Some gw /\
     JS.parseFloat (BillingForm.netWeight form) = Some nw /\
     JS.parseFloat (BillingForm.makingChargeValue form) = Some mcv /\
     BillingForm.handleSubmit t onAddItem now form parent
     = (BillingForm.resetForm (BillingForm.setError None form),
        onAddItem (Spec.item_of now form gw nw mcv) parent)).
Proof.
  unfold BillingForm.handleSubmit, Spec.line_invalid_trimmed, Spec.numbers_invalid.
  destruct (JS.parseFloat (BillingForm.grossWeight form)) as [gw |];
    [| left; split; [tauto | eexists; rewrite !orb_true_r; reflexivity]].
  destruct (JS.parseFloat (BillingForm.netWeight form)) as [nw |];
    [| left; split; [tauto | eexists; rewrite !orb_true_r; reflexivity]].
  destruct (JS.parseFloat (BillingForm.makingChargeValue form)) as [mcv |];
    [| left; split; [tauto | eexists; rewrite !orb_true_r; reflexivity]].
  cbn [BillingForm.isNaN BillingForm.le BillingForm.lt].
  destruct (JS.truthy (JS.trim (BillingForm.description form))) eqn:Ed; cbn [negb orb];
    [| left; split; [left; apply truthy_false, Ed | eexists; reflexivity]].
  destruct (JS.leb gw 0) eqn:Eg; cbn [orb];
    [left; split; [order_hyps; eauto 10 | eexists; reflexivity] |].
  destruct (JS.leb nw 0) eqn:En; cbn [orb];
    [left; split; [order_hyps; eauto 10 | eexists; reflexivity] |].
  destruct (JS.ltb mcv 0) eqn:Em; cbn [orb];
    [left; split; [order_hyps; eauto 10 | eexists; reflexivity] |].
  destruct (JS.ltb gw nw) eqn:Ew;
    [left; split; [order_hyps; eauto 15 | eexists; reflexivity] |].
  right. order_hyps. split; [| eauto 10].
  intros [Hd | [H | [H | [H | [H | [H | [H | H]]]]]]]; try discriminate.
  - apply truthy_false in Hd. congruence.
  - destruct H as (g & [= <-] & H). lra.
  - destruct H as (n & [= <-] & H). lra.
  - destruct H as (m & [= <-] & H). lra.
  - destruct H as (g & n & [= <-] & [= <-] & H). lra.
Qed.

End Validation.

(** C6 as stated fails for a blank description.
    A description of one space is not empty, the three numbers are valid, and
    the form still rejects the line. *)
Lemma C6_counterexample :
  let form := Sample.form " " "10" "9" "100" in
  let result := BillingForm.handleSubmit Sample.t App.handleAddItem Sample.now form Sample.app in
  ~ Spec.line_invalid form /\
  is_Some (BillingForm.error result.1) /\
  App.items result.2 = App.items Sample.app.
Proof.
  cbv zeta. split; [| split; [eexists |]; reflexivity].
  unfold Spec.line_invalid, Spec.numbers_invalid.
  change (JS.parseFloat (BillingForm.grossWeight (Sample.form " " "10" "9" "100")))
    with (Some 10).
  change (JS.parseFloat (BillingForm.netWeight (Sample.form " " "10" "9" "100")))
    with (Some 9).
  change (JS.parseFloat (BillingForm.makingChargeValue (Sample.form " " "10" "9" "100")))
    with (Some 100).
  intros [H | [H | [H | [H | [H | [H | [H | H]]]]]]]; try discriminate.
  - destruct H as (g & [= <-] & H). lra.
  - destruct H as (n & [= <-] & H). lra.
  - destruct H as (m & [= <-] & H). lra.
  - destruct H as (g & n & [= <-] & [= <-] & H). lra.
Qed.

(** C6, amended. Submitting the form signals a validation error and leaves
    the item list unchanged exactly when the description is empty once
    trimmed (empty or white space only), a weight or the making charge parses
    as NaN, a weight is not positive, the making charge is negative, or the
    net weight exceeds the gross weight.  A net weight above the gross weight
    is rejected whatever the other fields are; a rejection leaves the whole
    application state as it was; an accepted line appends exactly the item of
    the form. *)
Theorem C6_line_item_validation (t : TranslationKey -> string) (now : string)
  (form : BillingForm.State) (app : App.State) :
  let result := BillingForm.handleSubmit t App.handleAddItem now form app in
  let rejected :=
    is_Some (BillingForm.error result.1) /\ App.items result.2 = App.items app in
  (rejected <-> Spec.line_invalid_trimmed form) /\
  (forall gw nw,
     JS.parseFloat (BillingForm.grossWeight form) = Some gw ->
     JS.parseFloat (BillingForm.netWeight form) = Some nw ->
     gw < nw -> rejected) /\
  (rejected -> result.2 = app) /\
  (~ rejected ->
   exists gw nw mcv,
     JS.parseFloat (BillingForm.grossWeight form) = Some gw /\
     JS.parseFloat (BillingForm.netWeight form) = Some nw /\
     JS.parseFloat (BillingForm.makingChargeValue form) = Some mcv /\
     BillingForm.error result.1 = None /\
     App.items result.2 = App.items app ++ [Spec.item_of now form gw nw mcv] /\
     result.2 = App.handleAddItem (Spec.item_of now form gw nw mcv) app).
Proof.
  intros result rejected.
  assert (Hiff : rejected <-> Spec.line_invalid_trimmed form).
  { subst rejected result.
    destruct (handleSubmit_cases t App.handleAddItem now form app)
      as [(Hinv & key & ->) | (Hval & gw & nw & mcv & _ & _ & _ & ->)]; simpl.
    - split; [intros _; exact Hinv | intros _; split; [eexists |]; reflexivity].
    - split; [| intros H; contradiction].
      intros [_ H]. exfalso. exact (app_cons_neq _ _ H). }
  split; [exact Hiff | split; [| split]].
  - intros gw nw Hg Hn Hlt. apply Hiff. right.
    unfold Spec.numbers_invalid. rewrite Hg, Hn. eauto 15.
  - intros Hr. apply Hiff in Hr. subst result.
    destruct (handleSubmit_cases t App.handleAddItem now form app)
      as [(_ & key & ->) | (Hval & _)]; [reflexivity | contradiction].
  - intros Hr. subst rejected result.
    destruct (handleSubmit_cases t App.handleAddItem now form app)
      as [(Hinv & _) | (_ & gw & nw & mcv & Hg & Hn & Hm & ->)].
    + exfalso. apply Hr, Hiff, Hinv.
    + exists gw, nw, mcv. repeat split; assumption || reflexivity.
Qed.

Lemma C6_line_item_validation_witness :
  let form := Sample.form "Gold Ring 22K" "10.250" "10.500" "500" in
  let result := BillingForm.handleSubmit Sample.t App.handleAddItem Sample.now form Sample.app in
  JS.parseFloat (BillingForm.grossWeight form) = Some 10.250 /\
  JS.parseFloat (BillingForm.netWeight form) = Some 10.500 /\
  10.250 < 10.500 /\
  is_Some (BillingForm.error result.1) /\
  App.items result.2 = App.items Sample.app.
Proof.
  intros form result.
  split; [reflexivity | split; [reflexivity | split; [reflexivity |]]].
  exact (proj1 (proj2 (C6_line_item_validation Sample.t Sample.now form Sample.app))
           10.250 10.500 eq_refl eq_refl eq_refl).
Defined.

(** ** App: parties *)

Lemma existsb_phone (phone : string) (parties : list Party.t) :
  existsb (fun p => String.eqb (Party.phone p) phone) parties = true
  <-> exists p, In p parties /\ Party.phone p = phone.
Proof.
  rewrite existsb_exists. split; intros (p & Hin & H); exists p; split; try exact Hin.
  - apply String.eqb_eq, H.
  - apply String.eqb_eq, H.
Qed.

Lemma handleAddParty_phone_is_id (party : Party.input) (s : App.State) :
  Spec.phone_is_id (App.parties s) ->
  Spec.phone_is_id (App.parties (App.handleAddParty party s)).
Proof.
  unfold Spec.phone_is_id, App.handleAddParty. intros H.
  destruct (existsb _ _); simpl; [exact H |].
  apply Forall_app. split; [exact H |]. repeat constructor.
Qed.

Lemma handleAddParty_unique (party : Party.input) (s : App.State) :
  Spec.phone_is_id (App.parties s) ->
  NoDup (map Party.id (App.parties s)) ->
  NoDup (map Party.id (App.parties (App.handleAddParty party s))).
Proof.
  unfold App.handleAddParty. intros Hid Hnd.
  destruct (existsb _ _) eqn:E; simpl; [exact Hnd |].
  rewrite map_app. simpl. apply NoDup_app. split; [exact Hnd | split].
  - intros x Hx Hx'. apply list_elem_of_In in Hx, Hx'.
    destruct Hx' as [<- | []]. apply in_map_iff in Hx.
    destruct Hx as (p & Hp & Hin).
    assert (Ht : existsb (fun p => String.eqb (Party.phone p) (Party.in_phone party))
                   (App.parties s) = true).
    { apply existsb_phone. exists p. split; [exact Hin |].
      unfold Spec.phone_is_id in Hid. rewrite List.Forall_forall in Hid.
      rewrite <- (Hid p Hin). exact Hp. }
    congruence.
  - apply NoDup_singleton.
Qed.

(** The party sets the application builds, from the empty one, by any
    sequence of requests: every identifier is the phone number and no
    identifier occurs twice. *)
Lemma parties_invariant (requests : list Party.input) :
  let s := fold_left (fun s party => App.handleAddParty party s) requests App.initial in
  Spec.phone_is_id (App.parties s) /\ NoDup (map Party.id (App.parties s)).
Proof.
  cbv zeta.
  assert (H : forall s0,
            Spec.phone_is_id (App.parties s0) /\ NoDup (map Party.id (App.parties s0)) ->
            let s := fold_left (fun s party => App.handleAddParty party s) requests s0 in
            Spec.phone_is_id (App.parties s) /\ NoDup (map Party.id (App.parties s))).
  { induction requests as [| r requests IH]; intros s0 [H1 H2]; [split; assumption |].
    simpl. apply IH. split.
    - apply handleAddParty_phone_is_id, H1.
    - apply handleAddParty_unique; assumption. }
  apply H. split; [constructor | constructor].
Qed.

(** C7. On a party set in which every party carries its phone number as
    identifier (the sets the handler builds): when the phone number of the
    request identifies an existing party, the party set and the rest of the
    application state stay as they are and the duplicate is reported on the
    error console; otherwise exactly one party is appended, made of the
    request with its phone number as identifier, and nothing is reported. *)
Theorem C7_add_party (party : Party.input) (s : App.State) :
  Spec.phone_is_id (App.parties s) ->
  let s' := App.handleAddParty party s in
  ((exists p, In p (App.parties s) /\ Party.id p = Party.in_phone party) ->
   App.parties s' = App.parties s /\
   App.console s' = App.console s ++ [App.duplicate_message] /\
   s' = App.console_error App.duplicate_message s) /\
  ((forall p, In p (App.parties s) -> Party.id p <> Party.in_phone party) ->
   App.parties s'
   = App.parties s
     ++ [Party.mk (Party.in_phone party) (Party.in_name party)
           (Party.in_phone party) (Party.in_type party)] /\
   App.console s' = App.console s /\
   List.length (App.parties s') = Datatypes.S (List.length (App.parties s))) /\
  Spec.phone_is_id (App.parties s').
Proof.
  intros Hid s'. split; [| split].
  - intros (p & Hin & Hp). subst s'. unfold App.handleAddParty.
    assert (E : existsb (fun p => String.eqb (Party.phone p) (Party.in_phone party))
                  (App.parties s) = true).
    { apply existsb_phone. exists p. split; [exact Hin |].
      unfold Spec.phone_is_id in Hid. rewrite List.Forall_forall in Hid.
      rewrite <- (Hid p Hin). exact Hp. }
    rewrite E. repeat split.
  - intros Hnone. subst s'. unfold App.handleAddParty.
    destruct (existsb _ _) eqn:E.
    + apply existsb_phone in E. destruct E as (p & Hin & Hp).
      exfalso. apply (Hnone p Hin).
      unfold Spec.phone_is_id in Hid. rewrite List.Forall_forall in Hid.
      rewrite (Hid p Hin). exact Hp.
    + simpl. repeat split. rewrite List.length_app. simpl. lia.
  - apply handleAddParty_phone_is_id, Hid.
Qed.

Lemma C7_add_party_witness :
  let again := Party.mkInput "Asha Devi" "9876543210" SUPPLIER in
  let fresh := Party.mkInput "Bharat" "9123456780" SUPPLIER in
  Spec.phone_is_id (App.parties Sample.app) /\
  (exists p, In p (App.parties Sample.app) /\ Party.id p = Party.in_phone again) /\
  App.parties (App.handleAddParty again Sample.app) = App.parties Sample.app /\
  (forall p, In p (App.parties Sample.app) -> Party.id p <> Party.in_phone fresh) /\
  List.length (App.parties (App.handleAddParty fresh Sample.app)) = 2%nat.
Proof.
  intros again fresh.
  assert (Hid : Spec.phone_is_id (App.parties Sample.app))
    by (repeat constructor).
  assert (Hdup : exists p, In p (App.parties Sample.app)
                           /\ Party.id p = Party.in_phone again)
    by (exists Sample.asha; split; [left |]; reflexivity).
  assert (Hnew : forall p, In p (App.parties Sample.app)
                           -> Party.id p <> Party.in_phone fresh)
    by (intros p [<- | []]; discriminate).
  split; [exact Hid | split; [exact Hdup | split; [| split; [exact Hnew |]]]].
  - exact (proj1 (proj1 (C7_add_party again Sample.app Hid) Hdup)).
  - exact (proj2 (proj2 (proj1 (proj2 (C7_add_party fresh Sample.app Hid)) Hnew))).
Defined.

(** ** The billing session: clearing the invoice *)

(** C8. Clearing the invoice empties the item list, blanks the customer's
    name and phone, adds one to the invoice number and resets the discount to
    PERCENT with an empty value, which counts as 0; the tax rate, the parties,
    the transactions and the loans stay as they are.  On a session that is
    already empty (no item, blank customer, discount as at the start) the
    only change is the invoice number. *)
Theorem C8_clear_invoice (session : App.State * InvoicePreview.State) :
  let app := session.1 in
  let session' := clearInvoice session in
  (App.items session'.1 = [] /\
   App.customer session'.1 = Customer.mk "" "" /\
   App.invoiceNumber session'.1 = (App.invoiceNumber app + 1)%Z /\
   InvoicePreview.discountType session'.2 = InvoicePreview.PERCENT /\
   InvoicePreview.discountValue session'.2 = "" /\
   InvoicePreview.numericDiscountValue session'.2 == 0) /\
  (App.gstRate session'.1 = App.gstRate app /\
   App.parties session'.1 = App.parties app /\
   App.khataTransactions session'.1 = App.khataTransactions app /\
   App.byajLoans session'.1 = App.byajLoans app /\
   App.console session'.1 = App.console app) /\
  (App.items app = [] -> App.customer app = Customer.mk "" "" ->
   session.2 = InvoicePreview.initial ->
   session' = (App.setInvoiceNumber (fun n => (n + 1)%Z) app, session.2)).
Proof.
  destruct session as [app st]. cbn [fst snd]. cbv zeta.
  split; [repeat split | split; [repeat split |]].
  intros Hi Hc Hst. cbn [fst snd] in Hst. subst st.
  unfold clearInvoice, InvoicePreview.handleClear, App.handleClearInvoice.
  destruct app; cbn in *. subst. reflexivity.
Qed.

Lemma C8_clear_invoice_witness :
  let empty := (App.setInvoiceNumber (fun _ => 8%Z) App.initial, InvoicePreview.initial) in
  App.items empty.1 = [] /\ App.customer empty.1 = Customer.mk "" "" /\
  empty.2 = InvoicePreview.initial /\
  clearInvoice empty = (App.setInvoiceNumber (fun _ => 9%Z) App.initial, InvoicePreview.initial).
Proof.
  intros empty.
  split; [reflexivity | split; [reflexivity | split; [reflexivity |]]].
  exact (proj2 (proj2 (C8_clear_invoice empty)) eq_refl eq_refl eq_refl).
Defined.

(** ** Byajbook: the view state machine *)

Lemma selectedLoan_None (loans : list ByajLoan.t) (st : Byajbook.State) :
  Byajbook.selectedLoan loans st = None
  <-> forall l, In l loans -> Byajbook.selectedLoanId st <> Some (ByajLoan.id l).
Proof.
  unfold Byajbook.selectedLoan. split.
  - intros H l Hin Hsel.
    apply (find_none _ _ H) in Hin. rewrite Hsel in Hin.
    rewrite String.eqb_refl in Hin. discriminate.
  - intros H. induction loans as [| l loans IH]; [reflexivity |]. simpl.
    destruct (Byajbook.selectedLoanId st) as [i |] eqn:E.
    + destruct (String.eqb_spec (ByajLoan.id l) i) as [Heq | Hne].
      * exfalso. apply (H l); [left; reflexivity | rewrite Heq; reflexivity].
      * apply IH. intros l' Hin. apply H. right. exact Hin.
    + apply IH. intros l' Hin. apply H. right. exact Hin.
Qed.

(** C9. In the DETAILS view, when no loan of the list carries the selected
    identifier, the component renders nothing; so selecting from the list an
    identifier that no loan carries leads to a DETAILS view that renders
    nothing. The render is a total function: there is no other outcome. *)
Theorem C9_missing_loan_renders_nothing (currentDate : Z) (loans : list ByajLoan.t)
  (st : Byajbook.State) :
  (Byajbook.view st = Byajbook.DETAILS ->
   (forall l, In l loans -> Byajbook.selectedLoanId st <> Some (ByajLoan.id l)) ->
   Byajbook.render currentDate loans st = Byajbook.RenderNull) /\
  (forall loanId,
     (forall l, In l loans -> ByajLoan.id l <> loanId) ->
     Byajbook.view (Byajbook.onSelectLoan loanId st) = Byajbook.DETAILS /\
     Byajbook.render currentDate loans (Byajbook.onSelectLoan loanId st)
     = Byajbook.RenderNull).
Proof.
  assert (H : forall st', Byajbook.view st' = Byajbook.DETAILS ->
            (forall l, In l loans -> Byajbook.selectedLoanId st' <> Some (ByajLoan.id l)) ->
            Byajbook.render currentDate loans st' = Byajbook.RenderNull).
  { intros st' Hv Hnone. unfold Byajbook.render. rewrite Hv.
    apply selectedLoan_None in Hnone. rewrite Hnone. reflexivity. }
  split; [apply H |].
  intros loanId Hnone. split; [reflexivity |].
  apply H; [reflexivity |]. simpl. intros l Hin [= Heq].
  apply (Hnone l Hin). symmetry. exact Heq.
Qed.

Lemma C9_missing_loan_renders_nothing_witness :
  (forall l, In l [Sample.loan] -> ByajLoan.id l <> "loan-2") /\
  Byajbook.render 1738319400000 [Sample.loan]
    (Byajbook.onSelectLoan "loan-2" Byajbook.initial)
  = Byajbook.RenderNull.
Proof.
  assert (Hnone : forall l, In l [Sample.loan] -> ByajLoan.id l <> "loan-2")
    by (intros l [<- | []]; discriminate).
  split; [exact Hnone |].
  exact (proj2 (proj2 (C9_missing_loan_renders_nothing 1738319400000 [Sample.loan]
                         Byajbook.initial) "loan-2" Hnone)).
Defined.

(** * Further properties of the code *)

(** ** The billing screen *)

Lemma accepted_numbers_valid (gw nw mcv : Q) :
  ~ Spec.numbers_invalid (Some gw) (Some nw) (Some mcv) ->
  0 < gw /\ 0 < nw /\ nw <= gw /\ 0 <= mcv.
Proof.
  unfold Spec.numbers_invalid. intros H.
  assert (H1 : ~ gw <= 0) by (intros ?; apply H; eauto 10).
  assert (H2 : ~ nw <= 0) by (intros ?; apply H; eauto 10).
  assert (H3 : ~ mcv < 0) by (intros ?; apply H; eauto 10).
  assert (H4 : ~ gw < nw) by (intros ?; apply H; eauto 15).
  apply Qnot_le_lt in H1, H2. apply Qnot_lt_le in H3, H4. tauto.
Qed.

Lemma handleSubmit_keeps_items_valid (t : TranslationKey -> string) (now : string)
  (form : BillingForm.State) (app : App.State) :
  Forall Spec.valid_item (App.items app) ->
  Forall Spec.valid_item
    (App.items (BillingForm.handleSubmit t App.handleAddItem now form app).2).
Proof.
  intros H.
  destruct (handleSubmit_cases t App.handleAddItem now form app)
    as [(_ & key & ->) | (Hval & gw & nw & mcv & Hg & Hn & Hm & ->)]; [exact H |].
  cbn [snd App.handleAddItem App.setItems App.items].
  apply Forall_app. split; [exact H |]. constructor; [| constructor].
  unfold Spec.line_invalid_trimmed in Hval. rewrite Hg, Hn, Hm in Hval.
  apply accepted_numbers_valid. tauto.
Qed.

Lemma handleSubmit_keeps_invoiceNumber (t : TranslationKey -> string) (now : string)
  (form : BillingForm.State) (app : App.State) :
  App.invoiceNumber (BillingForm.handleSubmit t App.handleAddItem now form app).2
  = App.invoiceNumber app.
Proof.
  destruct (handleSubmit_cases t App.handleAddItem now form app)
    as [(_ & key & ->) | (_ & gw & nw & mcv & _ & _ & _ & ->)]; reflexivity.
Qed.

Lemma billing_step_invariant (t : TranslationKey -> string)
  (session : App.State * InvoicePreview.State) (e : Billing.Event) :
  Spec.billing_invariant session.1 ->
  Spec.billing_invariant (Billing.step t session e).1.
Proof.
  destruct session as [app st]. unfold Spec.billing_invariant. cbn [fst].
  intros [Hi Hn]. destruct e; cbn [Billing.step fst].
  - split; [apply handleSubmit_keeps_items_valid, Hi |].
    rewrite handleSubmit_keeps_invoiceNumber. exact Hn.
  - split; [| exact Hn]. cbn. apply List.Forall_forall. intros i Hin.
    apply filter_In in Hin. rewrite List.Forall_forall in Hi. apply Hi, Hin.
  - cbn. split; [constructor | lia].
  - split; assumption.
  - unfold App.handleGstRateChange. destruct (JS.parseFloat value); split; assumption.
  - unfold App.handleInvoiceNumberChange. split.
    + destruct (JS.parseInt value) as [v |]; [destruct (v <? 1)%Z |]; exact Hi.
    + destruct (JS.parseInt value) as [v |]; [destruct (Z.ltb_spec v 1) |]; cbn; lia.
  - split; assumption.
  - split; assumption.
Qed.

Lemma billing_reachable (t : TranslationKey -> string) (events : list Billing.Event) :
  Spec.billing_invariant (Billing.run t events Billing.initial).1.
Proof.
  unfold Billing.run.
  assert (H : forall session, Spec.billing_invariant session.1 ->
            Spec.billing_invariant (fold_left (Billing.step t) events session).1).
  { induction events as [| e events IH]; intros session Hs; [exact Hs |].
    simpl. apply IH, billing_step_invariant, Hs. }
  apply H. split; [constructor | cbn; lia].
Qed.

(** X1. Whatever the user does on the billing screen, starting from the
    empty session (submit the form with any content, remove items, clear,
    edit the customer, the tax rate, the invoice number or the discount),
    every item of the invoice has positive weights, a net weight within the
    gross weight and a making charge that is not negative, and the invoice
    number is at least 1. *)
Theorem X1_billing_invariant (t : TranslationKey -> string) (events : list Billing.Event) :
  Spec.billing_invariant (Billing.run t events Billing.initial).1.
Proof. apply billing_reachable. Qed.

Lemma subTotal_nonneg (items : list InvoiceItem.t) (rates : Rates.t) (gstRate : Q) :
  Spec.valid_rates rates -> Forall Spec.valid_item items ->
  0 <= InvoicePreview.subTotal (InvoicePreview.calculations items rates gstRate).
Proof.
  intros Hr Hi. rewrite subTotal_sum. unfold InvoicePreview.calculations.
  rewrite map_map. apply sum_nonneg, List.Forall_map. revert Hi.
  apply List.Forall_impl. intros i (Hgw & Hnw & _ & Hmc). simpl.
  assert (H1 : 0 <= InvoiceItem.netWeight i * Rates.get rates (InvoiceItem.metal i)).
  { apply Qmult_le_0_compat; [lra |]. apply Qlt_le_weak, rate_pos, Hr. }
  assert (H2 : 0 <= InvoiceItem.makingChargeValue i * InvoiceItem.grossWeight i).
  { apply Qmult_le_0_compat; lra. }
  destruct (InvoiceItem.makingChargeType i); lra.
Qed.

(** X2. On every session the billing screen can reach, with positive
    rates, the subtotal is not negative whatever the tax rate the user typed;
    when that tax rate is not negative, the grand total lies between 0 and
    the total before discount. *)
Theorem X2_reachable_totals (t : TranslationKey -> string) (events : list Billing.Event)
  (rates : Rates.t) :
  Spec.valid_rates rates ->
  let session := Billing.run t events Billing.initial in
  let items := App.items session.1 in
  let gstRate := App.gstRate session.1 in
  0 <= InvoicePreview.subTotal (InvoicePreview.calculations items rates gstRate) /\
  (0 <= gstRate ->
   0 <= InvoicePreview.invoiceGrandTotal items rates gstRate session.2 /\
   InvoicePreview.invoiceGrandTotal items rates gstRate session.2
   <= InvoicePreview.invoiceTotal items rates gstRate).
Proof.
  intros Hr session items gstRate.
  destruct (billing_reachable t events) as [Hi _]. fold session in Hi. fold items in Hi.
  split; [apply subTotal_nonneg; assumption |].
  intros Hg.
  assert (Ht : 0 <= InvoicePreview.invoiceTotal items rates gstRate)
    by (apply invoiceTotal_nonneg; assumption).
  pose proof (discountAmount_nonneg _ session.2 Ht) as Hd.
  pose proof (grandTotal_nonneg (InvoicePreview.invoiceTotal items rates gstRate) session.2).
  unfold InvoicePreview.invoiceGrandTotal, InvoicePreview.grandTotal in *.
  split; lra.
Qed.

Lemma X2_reachable_totals_witness :
  Spec.valid_rates Sample.rates /\
  0 <= App.gstRate (Billing.run Sample.t Sample.billing_events Billing.initial).1 /\
  List.length (App.items (Billing.run Sample.t Sample.billing_events Billing.initial).1)
  = 2%nat /\
  0 <= InvoicePreview.invoiceGrandTotal
         (App.items (Billing.run Sample.t Sample.billing_events Billing.initial).1)
         Sample.rates
         (App.gstRate (Billing.run Sample.t Sample.billing_events Billing.initial).1)
         (Billing.run Sample.t Sample.billing_events Billing.initial).2.
Proof.
  assert (Hr : Spec.valid_rates Sample.rates) by (split; reflexivity).
  assert (Hg : 0 <= App.gstRate
                      (Billing.run Sample.t Sample.billing_events Billing.initial).1)
    by discriminate.
  split; [exact Hr | split; [exact Hg | split; [reflexivity |]]].
  exact (proj1 (proj2 (X2_reachable_totals Sample.t Sample.billing_events
                         Sample.rates Hr) Hg)).
Defined.

Lemma filter_all {A : Type} (f : A -> bool) (l : list A) :
  (forall x, In x l -> f x = true) -> List.filter f l = l.
Proof.
  induction l as [| x l IH]; intros H; [reflexivity |]. simpl.
  rewrite (H x (or_introl eq_refl)). f_equal. apply IH.
  intros y Hy. apply H. right. exact Hy.
Qed.

Lemma keeps_other_ids (id : string) (items : list InvoiceItem.t) :
  (forall i, In i items -> InvoiceItem.id i <> id) ->
  List.filter (fun item => negb (String.eqb (InvoiceItem.id item) id)) items = items.
Proof.
  intros H. apply filter_all. intros i Hi. apply negb_true_iff.
  apply String.eqb_neq, H, Hi.
Qed.

(** X3. Removing an item by identifier leaves no item with that identifier;
    when no item carries it the state is unchanged; removing twice is
    removing once; and adding an item whose identifier is new and removing it
    again gives back the state from before. *)
Theorem X3_remove_item (id : string) (s : App.State) :
  let s' := App.handleRemoveItem id s in
  Forall (fun i => InvoiceItem.id i <> id) (App.items s') /\
  App.handleRemoveItem id s' = s' /\
  ((forall i, In i (App.items s) -> InvoiceItem.id i <> id) ->
   s' = s /\
   forall item, InvoiceItem.id item = id ->
     App.handleRemoveItem id (App.handleAddItem item s) = s).
Proof.
  intros s'.
  assert (Hgone : Forall (fun i => InvoiceItem.id i <> id) (App.items s')).
  { subst s'. cbn. apply List.Forall_forall. intros i Hi.
    apply filter_In in Hi. destruct Hi as [_ Hi].
    apply negb_true_iff, String.eqb_neq in Hi. exact Hi. }
  split; [exact Hgone | split].
  - unfold App.handleRemoveItem at 1, App.setItems. cbn.
    rewrite keeps_other_ids; [destruct s; reflexivity |].
    rewrite List.Forall_forall in Hgone. exact Hgone.
  - intros Hnone. split.
    + subst s'. unfold App.handleRemoveItem, App.setItems.
      rewrite keeps_other_ids by exact Hnone. destruct s; reflexivity.
    + intros item Hid. unfold App.handleRemoveItem, App.handleAddItem, App.setItems. cbn.
      rewrite List.filter_app, keeps_other_ids by exact Hnone. cbn.
      rewrite Hid, String.eqb_refl. cbn. rewrite app_nil_r. destruct s; reflexivity.
Qed.

Lemma X3_remove_item_witness :
  (forall i, In i (App.items Sample.app) -> InvoiceItem.id i <> InvoiceItem.id Sample.coin) /\
  App.handleRemoveItem (InvoiceItem.id Sample.coin) (App.handleAddItem Sample.coin Sample.app)
  = Sample.app.
Proof.
  assert (H : forall i, In i (App.items Sample.app)
                        -> InvoiceItem.id i <> InvoiceItem.id Sample.coin)
    by (intros i [<- | []]; discriminate).
  split; [exact H |].
  exact (proj2 (proj2 (proj2 (X3_remove_item (InvoiceItem.id Sample.coin) Sample.app)) H)
           Sample.coin eq_refl).
Defined.

Lemma invoiceTotal_lines (items : list InvoiceItem.t) (rates : Rates.t) (gstRate : Q) :
  InvoicePreview.invoiceTotal items rates gstRate
  == Spec.sum (map (fun i => InvoicePreview.totalValue
                               (InvoicePreview.calculate rates gstRate i)) items).
Proof.
  unfold InvoicePreview.invoiceTotal, InvoicePreview.totalBeforeDiscount.
  rewrite subTotal_sum, gstAmount_sum. unfold InvoicePreview.calculations.
  rewrite !map_map, <- sum_plus. reflexivity.
Qed.

Lemma sum_app (l1 l2 : list Q) : Spec.sum (l1 ++ l2) == Spec.sum l1 + Spec.sum l2.
Proof.
  induction l1 as [| x l1 IH]; simpl; [ring |]. rewrite IH. ring.
Qed.

Lemma sum_filter_split {A : Type} (f : A -> Q) (p : A -> bool) (l : list A) :
  Spec.sum (map f l)
  == Spec.sum (map f (List.filter p l))
     + Spec.sum (map f (List.filter (fun x => negb (p x)) l)).
Proof.
  induction l as [| x l IH]; simpl; [ring |].
  destruct (p x); simpl; rewrite IH; ring.
Qed.

(** X4. The total before discount is the sum of the line totals: it is 0 for
    an empty invoice, adding an item raises it by the line total of that item,
    removing an identifier lowers it by the line totals of the items that
    carried it, and it does not depend on the order of the items. *)
Theorem X4_total_by_lines (items : list InvoiceItem.t) (rates : Rates.t) (gstRate : Q)
  (s : App.State) :
  let total := fun l => InvoicePreview.invoiceTotal l rates gstRate in
  let line := fun i => InvoicePreview.totalValue (InvoicePreview.calculate rates gstRate i) in
  total [] == 0 /\
  (forall item, total (App.items (App.handleAddItem item s))
                == total (App.items s) + line item) /\
  (forall id, total (App.items (App.handleRemoveItem id s))
              == total (App.items s)
                 - total (List.filter (fun i => String.eqb (InvoiceItem.id i) id)
                            (App.items s))) /\
  (forall items', Permutation items items' -> total items == total items').
Proof.
  intros total line. subst total line. cbv beta.
  split; [reflexivity | split; [| split]].
  - intros item. cbn [App.handleAddItem App.setItems App.items].
    rewrite !invoiceTotal_lines, map_app, sum_app. simpl. ring.
  - intros id. cbn [App.handleRemoveItem App.setItems App.items].
    rewrite !invoiceTotal_lines.
    rewrite (sum_filter_split _ (fun i => String.eqb (InvoiceItem.id i) id) (App.items s)).
    ring.
  - intros items' Hp. rewrite !invoiceTotal_lines.
    apply sum_perm, Permutation_map, Hp.
Qed.

Lemma X4_total_by_lines_witness :
  Permutation [Sample.ring; Sample.coin] [Sample.coin; Sample.ring] /\
  InvoicePreview.invoiceTotal [Sample.ring; Sample.coin] Sample.rates 3
  == InvoicePreview.invoiceTotal [Sample.coin; Sample.ring] Sample.rates 3.
Proof.
  assert (Hp : Permutation [Sample.ring; Sample.coin] [Sample.coin; Sample.ring])
    by apply perm_swap.
  split; [exact Hp |].
  exact (proj2 (proj2 (proj2 (X4_total_by_lines [Sample.ring; Sample.coin] Sample.rates 3
                                Sample.app))) _ Hp).
Defined.

(** X5. The tax of an invoice is the tax rate, as a percentage, of the
    taxable amounts of the items whose tax flag is set: items without the
    flag never add tax, and with no flagged item the total before discount is
    the subtotal. *)
Theorem X5_tax_on_flagged_items (items : list InvoiceItem.t) (rates : Rates.t) (gstRate : Q) :
  let cs := InvoicePreview.calculations items rates gstRate in
  let flagged := List.filter (fun c => InvoiceItem.applyGst (InvoicePreview.item c)) cs in
  InvoicePreview.gstAmount cs
  == gstRate / 100 * Spec.sum (map InvoicePreview.valueBeforeGst flagged) /\
  (flagged = [] -> InvoicePreview.totalBeforeDiscount cs == InvoicePreview.subTotal cs).
Proof.
  intros cs flagged.
  assert (H : InvoicePreview.gstAmount cs
              == gstRate / 100 * Spec.sum (map InvoicePreview.valueBeforeGst flagged)).
  { subst flagged cs. rewrite gstAmount_sum. unfold InvoicePreview.calculations.
    induction items as [| i items IH]; simpl; [ring |].
    destruct (InvoiceItem.applyGst i); simpl; rewrite IH; ring. }
  split; [exact H |].
  intros Hnone. unfold InvoicePreview.totalBeforeDiscount. rewrite H, Hnone. simpl. ring.
Qed.

Lemma X5_tax_on_flagged_items_witness :
  List.filter (fun c => InvoiceItem.applyGst (InvoicePreview.item c))
    (InvoicePreview.calculations [Sample.coin] Sample.rates 3) = [] /\
  InvoicePreview.totalBeforeDiscount (InvoicePreview.calculations [Sample.coin] Sample.rates 3)
  == InvoicePreview.subTotal (InvoicePreview.calculations [Sample.coin] Sample.rates 3).
Proof.
  split; [reflexivity |].
  exact (proj2 (X5_tax_on_flagged_items [Sample.coin] Sample.rates 3) eq_refl).
Defined.

(** ** The discount *)

Lemma numericDiscountValue_NaN (st : InvoicePreview.State) :
  JS.parseFloat (InvoicePreview.discountValue st) = None ->
  InvoicePreview.numericDiscountValue st = 0.
Proof. unfold InvoicePreview.numericDiscountValue. intros ->. reflexivity. Qed.

(** X6. On a total before discount that is not negative: a discount value
    that is empty, not a number, zero or negative takes nothing off; a FIXED
    value between 0 and the total is taken off as it is; a PERCENT value
    between 0 and 100 takes that percentage of the total off. *)
Theorem X6_discount_applied (total : Q) (st : InvoicePreview.State) :
  0 <= total ->
  let value := InvoicePreview.numericDiscountValue st in
  (JS.parseFloat (InvoicePreview.discountValue st) = None -> value = 0) /\
  (value <= 0 -> InvoicePreview.grandTotal total st == total) /\
  (InvoicePreview.discountType st = InvoicePreview.FIXED ->
   0 < value -> value <= total ->
   InvoicePreview.grandTotal total st == total - value) /\
  (InvoicePreview.discountType st = InvoicePreview.PERCENT ->
   0 < value -> value <= 100 ->
   InvoicePreview.grandTotal total st == total - total * (value / 100)).
Proof.
  intros Ht value.
  split; [apply numericDiscountValue_NaN |].
  unfold InvoicePreview.grandTotal, InvoicePreview.discountAmount. fold value.
  split; [| split].
  - intros Hv. assert (E : JS.ltb 0 value = false) by (apply ltb_false; exact Hv).
    rewrite E. destruct (JS.ltb total 0) eqn:E1; order_hyps; lra.
  - intros -> H0 Hv. assert (E : JS.ltb 0 value = true) by (apply ltb_true; exact H0).
    rewrite E. destruct (JS.ltb total value) eqn:E1; order_hyps; lra.
  - intros -> H0 Hv. assert (E : JS.ltb 0 value = true) by (apply ltb_true; exact H0).
    rewrite E.
    assert (Hp : total * (value / 100) <= total).
    { assert (H1 : 0 <= total * ((100 - value) / 100)) by (apply percent_nonneg; lra).
      assert (H2 : total * ((100 - value) / 100) == total - total * (value / 100))
        by field.
      generalize dependent (total * (value / 100)).
      generalize dependent (total * ((100 - value) / 100)). intros; lra. }
    generalize dependent (total * (value / 100)). intros p Hp.
    destruct (JS.ltb total p) eqn:E1; order_hyps; lra.
Qed.

Lemma X6_discount_applied_witness :
  0 <= InvoicePreview.invoiceTotal [Sample.coin] Sample.rates 3 /\
  InvoicePreview.discountType (Sample.percent "10") = InvoicePreview.PERCENT /\
  0 < InvoicePreview.numericDiscountValue (Sample.percent "10") /\
  InvoicePreview.numericDiscountValue (Sample.percent "10") <= 100 /\
  JS.parseFloat (InvoicePreview.discountValue (Sample.fixed "abc")) = None /\
  InvoicePreview.numericDiscountValue (Sample.fixed "abc") <= 0 /\
  InvoicePreview.grandTotal (InvoicePreview.invoiceTotal [Sample.coin] Sample.rates 3)
    (Sample.percent "10") == 45 /\
  InvoicePreview.grandTotal (InvoicePreview.invoiceTotal [Sample.coin] Sample.rates 3)
    (Sample.fixed "abc") == 50.
Proof.
  assert (Ht : 0 <= InvoicePreview.invoiceTotal [Sample.coin] Sample.rates 3)
    by discriminate.
  assert (H0 : 0 < InvoicePreview.numericDiscountValue (Sample.percent "10"))
    by reflexivity.
  assert (H1 : InvoicePreview.numericDiscountValue (Sample.percent "10") <= 100)
    by discriminate.
  assert (H2 : InvoicePreview.numericDiscountValue (Sample.fixed "abc") <= 0)
    by discriminate.
  split; [exact Ht | split; [reflexivity | split; [exact H0 | split; [exact H1 |]]]].
  split; [reflexivity | split; [exact H2 | split]].
  - rewrite (proj2 (proj2 (proj2 (X6_discount_applied _ (Sample.percent "10") Ht)))
               eq_refl H0 H1).
    reflexivity.
  - rewrite (proj1 (proj2 (X6_discount_applied _ (Sample.fixed "abc") Ht)) H2).
    reflexivity.
Defined.

Lemma clamp_monotone (hi x y : Q) : x <= y -> Spec.clamp 0 hi x <= Spec.clamp 0 hi y.
Proof.
  intros H. unfold Spec.clamp.
  apply Q.max_le_compat_l, Q.min_le_compat_l, H.
Qed.

(** X7. On a total before discount that is not negative and for one mode,
    a larger discount value never gives a larger grand total. *)
Theorem X7_discount_monotone (total : Q) (st1 st2 : InvoicePreview.State) :
  0 <= total ->
  InvoicePreview.discountType st1 = InvoicePreview.discountType st2 ->
  InvoicePreview.numericDiscountValue st1 <= InvoicePreview.numericDiscountValue st2 ->
  InvoicePreview.grandTotal total st2 <= InvoicePreview.grandTotal total st1.
Proof.
  intros Ht Hm Hv. unfold InvoicePreview.grandTotal.
  rewrite !discountAmount_clamp by exact Ht. rewrite Hm.
  assert (H : Spec.discount (InvoicePreview.discountType st2)
                (InvoicePreview.numericDiscountValue st1) total
              <= Spec.discount (InvoicePreview.discountType st2)
                   (InvoicePreview.numericDiscountValue st2) total).
  { destruct (InvoicePreview.discountType st2); simpl; [| exact Hv].
    rewrite !(Qmult_comm total). apply Qmult_le_compat_r; [| exact Ht].
    unfold Qdiv. apply Qmult_le_compat_r; [exact Hv | discriminate]. }
  apply (clamp_monotone total) in H. lra.
Qed.

Lemma X7_discount_monotone_witness :
  0 <= 50 /\
  InvoicePreview.discountType (Sample.percent "10")
  = InvoicePreview.discountType (Sample.percent "60") /\
  InvoicePreview.numericDiscountValue (Sample.percent "10")
  <= InvoicePreview.numericDiscountValue (Sample.percent "60") /\
  InvoicePreview.grandTotal 50 (Sample.percent "60")
  <= InvoicePreview.grandTotal 50 (Sample.percent "10").
Proof.
  assert (Ht : 0 <= 50) by discriminate.
  assert (Hv : InvoicePreview.numericDiscountValue (Sample.percent "10")
               <= InvoicePreview.numericDiscountValue (Sample.percent "60"))
    by discriminate.
  split; [exact Ht | split; [reflexivity | split; [exact Hv |]]].
  exact (X7_discount_monotone 50 (Sample.percent "10") (Sample.percent "60")
           Ht eq_refl Hv).
Defined.

(** ** The line-item form *)

(** X8. After an accepted submit the form is cleared for the next item: the
    description, the two weights and the making charge are blank, the tax box
    is ticked, no error is shown, and the metal and the kind of making charge
    stay as chosen.  After a refused submit everything the user typed is
    still there; only the error message is set. *)
Theorem X8_form_after_submit (t : TranslationKey -> string) (now : string)
  (form : BillingForm.State) (app : App.State) :
  let result := BillingForm.handleSubmit t App.handleAddItem now form app in
  (~ Spec.line_invalid_trimmed form ->
   result.1
   = {| BillingForm.description := ""; BillingForm.metal := BillingForm.metal form;
        BillingForm.grossWeight := ""; BillingForm.netWeight := "";
        BillingForm.makingChargeType := BillingForm.makingChargeType form;
        BillingForm.makingChargeValue := ""; BillingForm.applyGst := true;
        BillingForm.error := None |}) /\
  (Spec.line_invalid_trimmed form ->
   exists message,
     result.1 = BillingForm.setError (Some message) form /\
     Spec.line_invalid_trimmed result.1 /\
     (BillingForm.handleSubmit t App.handleAddItem now result.1 result.2).2 = app).
Proof.
  intros result. subst result.
  destruct (handleSubmit_cases t App.handleAddItem now form app)
    as [(Hinv & key & E) | (Hval & gw & nw & mcv & _ & _ & _ & E)].
  - split; [intros H; contradiction |]. intros _.
    exists (t key). rewrite E. cbn [fst snd].
    split; [reflexivity | split; [exact Hinv |]].
    destruct (handleSubmit_cases t App.handleAddItem now
                (BillingForm.setError (Some (t key)) form) app)
      as [(_ & key' & ->) | (Hval & _)]; [reflexivity |].
    exfalso. apply Hval. exact Hinv.
  - split; [| intros H; contradiction]. intros _. rewrite E. reflexivity.
Qed.

Lemma X8_form_after_submit_witness :
  let form := Sample.form "Gold Ring 22K" "10.5" "10.25" "500" in
  ~ Spec.line_invalid_trimmed form /\
  BillingForm.description
    (BillingForm.handleSubmit Sample.t App.handleAddItem Sample.now form Sample.app).1 = "".
Proof.
  intros form.
  assert (H : ~ Spec.line_invalid_trimmed form).
  { unfold Spec.line_invalid_trimmed, Spec.numbers_invalid.
    change (JS.parseFloat (BillingForm.grossWeight form)) with (Some 10.5).
    change (JS.parseFloat (BillingForm.netWeight form)) with (Some 10.25).
    change (JS.parseFloat (BillingForm.makingChargeValue form)) with (Some 500).
    intros [H | [H | [H | [H | [H | [H | [H | H]]]]]]]; try discriminate.
    - destruct H as (g & [= <-] & H). lra.
    - destruct H as (n & [= <-] & H). lra.
    - destruct H as (m & [= <-] & H). lra.
    - destruct H as (g & n & [= <-] & [= <-] & H). lra. }
  split; [exact H |].
  rewrite (proj1 (X8_form_after_submit Sample.t Sample.now form Sample.app) H).
  reflexivity.
Defined.

(** ** The khatabook screen *)

Lemma sort_sorted_id (l : list KhataTransaction.t) :
  StronglySorted Spec.date_le l -> JS.sort Khatabook.byDate l = l.
Proof.
  induction 1 as [| x l Hl IH Hx]; [reflexivity |].
  cbn [JS.sort fold_right]. fold (JS.sort Khatabook.byDate l). rewrite IH.
  destruct l as [| y r]; [reflexivity |]. cbn [JS.insertSorted].
  apply Forall_inv in Hx. unfold Spec.date_le in Hx. unfold Khatabook.byDate.
  destruct (Z.leb_spec (KhataTransaction.date x - KhataTransaction.date y) 0);
    [reflexivity | lia].
Qed.

Lemma filter_StronglySorted {A : Type} (R : A -> A -> Prop) (f : A -> bool) (l : list A) :
  StronglySorted R l -> StronglySorted R (List.filter f l).
Proof.
  induction 1 as [| x l Hl IH Hx]; simpl; [constructor |].
  destruct (f x); [| exact IH]. constructor; [exact IH |].
  apply List.Forall_forall. intros y Hy. apply filter_In in Hy.
  rewrite List.Forall_forall in Hx. apply Hx, Hy.
Qed.

Lemma filter_perm {A : Type} (f : A -> bool) (l l' : list A) :
  Permutation l l' -> Permutation (List.filter f l) (List.filter f l').
Proof.
  induction 1 as [| x l l' _ IH | x y l | l l' l'' _ IH1 _ IH2]; simpl.
  - constructor.
  - destruct (f x); [apply perm_skip |]; exact IH.
  - destruct (f x), (f y); try reflexivity. apply perm_swap.
  - etransitivity; eassumption.
Qed.

Lemma added_transactions (newId : string) (now : Z) (data : KhataTransaction.input)
  (app : App.State) :
  App.khataTransactions (App.handleAddKhataTransaction newId now data app)
  = JS.sort Khatabook.byDate
      (App.khataTransactions app
       ++ [KhataTransaction.mk newId now (KhataTransaction.in_partyId data)
             (KhataTransaction.in_description data) (KhataTransaction.in_type data)
             (KhataTransaction.in_amount data)]).
Proof. reflexivity. Qed.

Lemma render_form_party (parties : list Party.t) (transactions : list KhataTransaction.t)
  (st : Khatabook.State) (party : Party.t) (type : TransactionType) :
  Khatabook.render parties transactions st = Khatabook.AddTransactionForm party type ->
  In party parties /\ Khatabook.selectedPartyId st = Some (Party.id party).
Proof.
  unfold Khatabook.render.
  destruct (Khatabook.view st); try discriminate;
    destruct (Khatabook.selectedParty parties st) as [p |] eqn:E; try discriminate.
  intros [= <- _]. unfold Khatabook.selectedParty in E.
  apply find_some in E. destruct E as [Hin E]. split; [exact Hin |].
  destruct (Khatabook.selectedPartyId st) as [i |]; [| discriminate].
  apply String.eqb_eq in E. rewrite E. reflexivity.
Qed.

(** What one action can do to the application state: nothing, add a party
    through the party form, or add a transaction of the selected party
    through the transaction form. *)
Lemma khata_step_cases (app : App.State) (st : Khatabook.State) (e : Khatabook.Event) :
  (Khatabook.step (app, st) e).1 = app \/
  (exists name phone type input,
     e = Khatabook.SubmitCustomer name phone type /\
     Khatabook.AddCustomerForm_handleSubmit name phone type = Some input /\
     (Khatabook.step (app, st) e).1 = App.handleAddParty input app) \/
  (exists party type amount description newId now data,
     e = Khatabook.SubmitTransaction amount description newId now /\
     In party (App.parties app) /\
     Khatabook.AddTransactionForm_handleSubmit party type amount description = Some data /\
     (Khatabook.step (app, st) e).1 = App.handleAddKhataTransaction newId now data app).
Proof.
  unfold Khatabook.step.
  destruct (Khatabook.render (App.parties app) (App.khataTransactions app) st) eqn:R;
    destruct e; try (left; reflexivity).
  - destruct (Khatabook.AddCustomerForm_handleSubmit name phone type) as [input |] eqn:E;
      [| left; reflexivity].
    right; left. exists name, phone, type, input. repeat split. exact E.
  - destruct (Khatabook.AddTransactionForm_handleSubmit party type amount description)
      as [data |] eqn:E; [| left; reflexivity].
    right; right. exists party, type, amount, description, newId, now, data.
    apply render_form_party in R. destruct R as [Hin _]. repeat split; assumption.
Qed.

Lemma transaction_form_data (party : Party.t) (type : TransactionType)
  (amount description : string) (data : KhataTransaction.input) :
  Khatabook.AddTransactionForm_handleSubmit party type amount description = Some data ->
  0 < KhataTransaction.in_amount data /\
  KhataTransaction.in_partyId data = Party.id party /\
  KhataTransaction.in_type data = type /\
  KhataTransaction.in_description data = description /\
  JS.parseFloat amount = Some (KhataTransaction.in_amount data).
Proof.
  unfold Khatabook.AddTransactionForm_handleSubmit.
  destruct (JS.parseFloat amount) as [a |]; [| discriminate].
  destruct (JS.ltb 0 a) eqn:E; [| discriminate].
  intros [= <-]. order_hyps. repeat split. exact E.
Qed.

Lemma handleAddParty_parties_grow (input : Party.input) (app : App.State) (x : string) :
  In x (map Party.id (App.parties app)) ->
  In x (map Party.id (App.parties (App.handleAddParty input app))).
Proof.
  unfold App.handleAddParty. destruct (existsb _ _); simpl; [tauto |].
  rewrite map_app, in_app_iff. tauto.
Qed.

Lemma khata_step_invariant (app : App.State) (st : Khatabook.State) (e : Khatabook.Event) :
  Spec.khata_invariant app -> Spec.khata_invariant (Khatabook.step (app, st) e).1.
Proof.
  intros (Hid & Hnd & Hs & Ht).
  destruct (khata_step_cases app st e)
    as [-> | [(name & phone & type & input & _ & _ & ->)
             | (party & type & amount & description & newId & now & data
                & _ & Hin & Hdata & ->)]].
  - repeat split; assumption.
  - split; [apply handleAddParty_phone_is_id, Hid |].
    split; [apply handleAddParty_unique; assumption |].
    assert (E : App.khataTransactions (App.handleAddParty input app)
                = App.khataTransactions app).
    { unfold App.handleAddParty. destruct (existsb _ _); reflexivity. }
    rewrite E. split; [exact Hs |].
    revert Ht. apply List.Forall_impl. intros t [H1 H2].
    split; [exact H1 | apply handleAddParty_parties_grow, H2].
  - apply transaction_form_data in Hdata. destruct Hdata as (Ha & Hp & _).
    split; [exact Hid | split; [exact Hnd |]].
    rewrite added_transactions. split; [apply sort_byDate_sorted |].
    apply List.Forall_forall. intros t Hin'.
    apply (Permutation_in _ (sort_perm Khatabook.byDate _)) in Hin'.
    apply in_app_iff in Hin'. destruct Hin' as [Hin' | [<- | []]].
    + rewrite List.Forall_forall in Ht. apply (Ht t Hin').
    + cbn. split; [exact Ha |]. rewrite Hp. apply in_map, Hin.
Qed.

Lemma khata_reachable (events : list Khatabook.Event) :
  Spec.khata_invariant (Khatabook.run events (App.initial, Khatabook.initial)).1.
Proof.
  unfold Khatabook.run.
  assert (H : forall screen, Spec.khata_invariant screen.1 ->
            Spec.khata_invariant (fold_left Khatabook.step events screen).1).
  { induction events as [| e events IH]; intros [app st] Hs; [exact Hs |].
    simpl. apply IH, khata_step_invariant, Hs. }
  apply H. repeat split; constructor.
Qed.

(** X9. Whatever the user does on the khatabook screen, starting from the
    empty books: the identifier of every party is its phone number and no two
    parties share one, the transactions are stored in ascending order of
    time, every amount is positive and every transaction belongs to a party
    of the set. *)
Theorem X9_khata_invariant (events : list Khatabook.Event) :
  Spec.khata_invariant (Khatabook.run events (App.initial, Khatabook.initial)).1.
Proof. apply khata_reachable. Qed.

Lemma transactionsOf_sorted (party : Party.t) (transactions : list KhataTransaction.t) :
  StronglySorted Spec.date_le transactions ->
  StronglySorted Spec.date_le (Khatabook.transactionsOf party transactions).
Proof. apply filter_StronglySorted. Qed.

(** X10. On every state the khatabook screen can reach, the ledger of a
    party has nothing to reorder: its rows are the party's transactions in the
    reverse of the order in which the application stores them (newest
    first), and the final balance is the balance of the first row. *)
Theorem X10_ledger_newest_first (events : list Khatabook.Event) (party : Party.t) :
  let app := (Khatabook.run events (App.initial, Khatabook.initial)).1 in
  let own := Khatabook.transactionsOf party (App.khataTransactions app) in
  let l := Khatabook.ledger own in
  JS.sort Khatabook.byDate own = own /\
  map Khatabook.transaction (Khatabook.transactionRows l) = rev own /\
  Khatabook.finalBalance l
  = hd 0 (map Khatabook.balance (Khatabook.transactionRows l)).
Proof.
  intros app own l.
  destruct (khata_reachable events) as (_ & _ & Hs & _). fold app in Hs.
  assert (E : JS.sort Khatabook.byDate own = own)
    by (apply sort_sorted_id, transactionsOf_sorted, Hs).
  split; [exact E |].
  subst l. rewrite ledger_unfold. cbn [Khatabook.transactionRows Khatabook.finalBalance].
  rewrite E. split.
  - rewrite map_rev, annotate_transactions. reflexivity.
  - rewrite annotate_last, map_rev.
    generalize (map Khatabook.balance (Khatabook.annotate 0 own).1). intros bs.
    destruct (rev bs) as [| b r] eqn:Er.
    + apply (f_equal (@rev Q)) in Er. rewrite rev_involutive in Er. subst bs. reflexivity.
    + apply (f_equal (@rev Q)) in Er. rewrite rev_involutive in Er. subst bs.
      simpl. apply last_last.
Qed.

Lemma transactionsOf_added (party : Party.t) (newId : string) (now : Z)
  (data : KhataTransaction.input) (app : App.State) :
  Spec.netBalance
    (Khatabook.transactionsOf party
       (App.khataTransactions (App.handleAddKhataTransaction newId now data app)))
  == Spec.netBalance (Khatabook.transactionsOf party (App.khataTransactions app))
     + (if String.eqb (KhataTransaction.in_partyId data) (Party.id party)
        then match KhataTransaction.in_type data with
             | DEBIT => KhataTransaction.in_amount data
             | CREDIT => - KhataTransaction.in_amount data
             end
        else 0).
Proof.
  rewrite added_transactions. unfold Khatabook.transactionsOf.
  rewrite (netBalance_perm _ _ (filter_perm _ _ _ (sort_perm Khatabook.byDate _))).
  rewrite List.filter_app. unfold Spec.netBalance. rewrite map_app, sum_app.
  cbn [List.filter KhataTransaction.partyId].
  destruct (String.eqb (KhataTransaction.in_partyId data) (Party.id party)); simpl.
  - unfold Khatabook.debitSigned. cbn.
    destruct (KhataTransaction.in_type data); ring.
  - ring.
Qed.

(** X11. Recording a transaction moves the balance of its party by the
    amount, up for a DEBIT and down for a CREDIT, in the customer list, in the
    ledger and in the reports alike, and leaves the balance of every other
    party as it was. *)
Theorem X11_transaction_moves_one_balance (party : Party.t) (newId : string) (now : Z)
  (data : KhataTransaction.input) (app : App.State) :
  let app' := App.handleAddKhataTransaction newId now data app in
  let moved :=
    if String.eqb (KhataTransaction.in_partyId data) (Party.id party)
    then match KhataTransaction.in_type data with
         | DEBIT => KhataTransaction.in_amount data
         | CREDIT => - KhataTransaction.in_amount data
         end
    else 0 in
  Khatabook.listBalance (App.khataTransactions app') party
  == Khatabook.listBalance (App.khataTransactions app) party + moved /\
  Khatabook.finalBalance
    (Khatabook.ledger (Khatabook.transactionsOf party (App.khataTransactions app')))
  == Khatabook.finalBalance
       (Khatabook.ledger (Khatabook.transactionsOf party (App.khataTransactions app)))
     + moved /\
  Reports.balance (Reports.partyBalance (App.khataTransactions app') party)
  == Reports.balance (Reports.partyBalance (App.khataTransactions app) party) + moved.
Proof.
  intros app' moved. subst app' moved.
  rewrite !listBalance_netBalance, !finalBalance_netBalance, !reports_netBalance.
  rewrite transactionsOf_added. repeat split; reflexivity.
Qed.

Lemma render_ledger_party (parties : list Party.t) (transactions : list KhataTransaction.t)
  (st : Khatabook.State) (party : Party.t) (l : Khatabook.Ledger) :
  Khatabook.render parties transactions st = Khatabook.CustomerLedger party l ->
  In party parties /\ Khatabook.selectedPartyId st = Some (Party.id party) /\
  l = Khatabook.ledger (Khatabook.transactionsOf party transactions).
Proof.
  unfold Khatabook.render.
  destruct (Khatabook.view st); try discriminate;
    destruct (Khatabook.selectedParty parties st) as [p |] eqn:E; try discriminate.
  intros [= <- <-]. unfold Khatabook.selectedParty in E.
  apply find_some in E. destruct E as [Hin E]. split; [exact Hin |].
  split; [| reflexivity].
  destruct (Khatabook.selectedPartyId st) as [i |]; [| discriminate].
  apply String.eqb_eq in E. rewrite E. reflexivity.
Qed.

(** X12. When the khatabook shows the ledger of a party, that party is in
    the party set and is the selected one, every row is a transaction of that
    party and every transaction of that party has its row, and the final
    balance in the heading is the balance the customer list shows for the
    party. *)
Theorem X12_ledger_of_selected_party (parties : list Party.t)
  (transactions : list KhataTransaction.t) (st : Khatabook.State)
  (party : Party.t) (l : Khatabook.Ledger) :
  Khatabook.render parties transactions st = Khatabook.CustomerLedger party l ->
  In party parties /\ Khatabook.selectedPartyId st = Some (Party.id party) /\
  Forall (fun row => KhataTransaction.partyId (Khatabook.transaction row) = Party.id party)
    (Khatabook.transactionRows l) /\
  Permutation (map Khatabook.transaction (Khatabook.transactionRows l))
    (Khatabook.transactionsOf party transactions) /\
  Khatabook.finalBalance l == Khatabook.listBalance transactions party.
Proof.
  intros R. apply render_ledger_party in R. destruct R as (Hin & Hsel & ->).
  assert (Hp : Permutation
                 (map Khatabook.transaction
                    (Khatabook.transactionRows
                       (Khatabook.ledger (Khatabook.transactionsOf party transactions))))
                 (Khatabook.transactionsOf party transactions)).
  { rewrite ledger_unfold. cbn [Khatabook.transactionRows].
    rewrite map_rev, annotate_transactions, <- Permutation_rev. apply sort_perm. }
  split; [exact Hin | split; [exact Hsel | split; [| split; [exact Hp |]]]].
  - apply List.Forall_forall. intros row Hrow.
    apply (in_map Khatabook.transaction) in Hrow.
    apply (Permutation_in _ Hp) in Hrow. apply filter_In in Hrow.
    destruct Hrow as [_ Hrow]. apply String.eqb_eq, Hrow.
  - rewrite finalBalance_netBalance, listBalance_netBalance. reflexivity.
Qed.

Lemma X12_ledger_of_selected_party_witness :
  let app := Sample.khata_screen.1 in
  let st := Sample.khata_screen.2 in
  let l := Khatabook.ledger (Khatabook.transactionsOf Sample.asha (App.khataTransactions app)) in
  Khatabook.render (App.parties app) (App.khataTransactions app) st
  = Khatabook.CustomerLedger Sample.asha l /\
  List.length (Khatabook.transactionRows l) = 2%nat /\
  Khatabook.finalBalance l == Khatabook.listBalance (App.khataTransactions app) Sample.asha.
Proof.
  intros app st l.
  assert (R : Khatabook.render (App.parties app) (App.khataTransactions app) st
              = Khatabook.CustomerLedger Sample.asha l) by reflexivity.
  split; [exact R | split; [reflexivity |]].
  exact (proj2 (proj2 (proj2 (proj2
           (X12_ledger_of_selected_party _ _ _ _ _ R))))).
Defined.

(** ** What the views call a balance *)

Lemma Qeq_bool_false_pos (q : Q) : 0 < q -> Qeq_bool q 0 = false.
Proof.
  intros H. destruct (Qeq_bool q 0) eqn:E; [| reflexivity].
  apply Qeq_bool_iff in E. lra.
Qed.

Lemma Qeq_bool_false_neg (q : Q) : q < 0 -> Qeq_bool q 0 = false.
Proof.
  intros H. destruct (Qeq_bool q 0) eqn:E; [| reflexivity].
  apply Qeq_bool_iff in E. lra.
Qed.

(** X13. The views do not name a balance alike.  When the balance of a
    customer is positive, the customer list captions it "Advance" and the
    reminder calls it an "advance" balance and is sent, while the heading of
    the ledger uses the key net_balance_get and the reports list the customer
    among the dues.  When the balance of a supplier is negative, the list
    says "Due" and the reminder "due", while the heading uses net_balance_give
    and the reports list the supplier among the payables. *)
Theorem X13_names_of_a_balance (formatCurrency : Q -> string)
  (encodeURIComponent : string -> string) (parties : list Party.t)
  (transactions : list KhataTransaction.t) (party : Party.t) :
  In party parties ->
  let inList := Khatabook.listBalance transactions party in
  let final :=
    Khatabook.finalBalance (Khatabook.ledger (Khatabook.transactionsOf party transactions)) in
  let all := Reports.allPartyBalances parties transactions in
  (Party.type party = CUSTOMER -> 0 < inList ->
   Khatabook.listLabel inList = "Advance" /\
   Khatabook.balanceType final = "advance" /\
   (exists url, Khatabook.handleWhatsAppReminder formatCurrency encodeURIComponent
                  party final = Khatabook.window_open url) /\
   Khatabook.heading final = Khatabook.net_balance_get /\
   In (Reports.partyBalance transactions party) (Reports.customerDues all)) /\
  (Party.type party = SUPPLIER -> inList < 0 ->
   Khatabook.listLabel inList = "Due" /\
   Khatabook.balanceType final = "due" /\
   (exists url, Khatabook.handleWhatsAppReminder formatCurrency encodeURIComponent
                  party final = Khatabook.window_open url) /\
   Khatabook.heading final = Khatabook.net_balance_give /\
   In (Reports.partyBalance transactions party) (Reports.supplierPayables all)).
Proof.
  intros Hin inList final all.
  assert (Hf : final == inList).
  { subst final inList. rewrite finalBalance_netBalance, listBalance_netBalance.
    reflexivity. }
  assert (Hr : Reports.balance (Reports.partyBalance transactions party) == inList).
  { subst inList. rewrite reports_netBalance, listBalance_netBalance. reflexivity. }
  assert (Hall : In (Reports.partyBalance transactions party) all)
    by (apply in_map, Hin).
  split.
  - intros Hty Hpos.
    assert (Hfpos : 0 < final) by lra.
    split; [| split; [| split; [| split]]].
    + unfold Khatabook.listLabel. rewrite (Qeq_bool_false_pos _ Hpos). simpl.
      rewrite (proj2 (ltb_true 0 inList) Hpos). reflexivity.
    + unfold Khatabook.balanceType.
      assert (E : JS.ltb final 0 = false) by (apply ltb_false; lra).
      rewrite E. reflexivity.
    + unfold Khatabook.handleWhatsAppReminder. rewrite (Qeq_bool_false_pos _ Hfpos).
      eexists. reflexivity.
    + unfold Khatabook.heading.
      assert (E : JS.leb 0 final = true) by (apply leb_true; lra).
      rewrite E. reflexivity.
    + apply filter_In. split; [exact Hall |]. apply andb_true_iff. split.
      * unfold Reports.isCustomer. cbn [Reports.party Reports.partyBalance].
        rewrite Hty. reflexivity.
      * apply ltb_true. lra.
  - intros Hty Hneg.
    assert (Hfneg : final < 0) by lra.
    split; [| split; [| split; [| split]]].
    + unfold Khatabook.listLabel. rewrite (Qeq_bool_false_neg _ Hneg). simpl.
      assert (E : JS.ltb 0 inList = false) by (apply ltb_false; lra).
      rewrite E. reflexivity.
    + unfold Khatabook.balanceType. rewrite (proj2 (ltb_true final 0) Hfneg). reflexivity.
    + unfold Khatabook.handleWhatsAppReminder. rewrite (Qeq_bool_false_neg _ Hfneg).
      eexists. reflexivity.
    + unfold Khatabook.heading.
      assert (E : JS.leb 0 final = false) by (apply leb_false; lra).
      rewrite E. reflexivity.
    + apply filter_In. split; [exact Hall |]. apply andb_true_iff. split.
      * unfold Reports.isSupplier. cbn [Reports.party Reports.partyBalance].
        rewrite Hty. reflexivity.
      * apply ltb_true. lra.
Qed.

Lemma X13_names_of_a_balance_witness :
  let app := Sample.khata_screen.1 in
  In Sample.asha (App.parties app) /\
  Party.type Sample.asha = CUSTOMER /\
  0 < Khatabook.listBalance (App.khataTransactions app) Sample.asha /\
  Khatabook.listLabel (Khatabook.listBalance (App.khataTransactions app) Sample.asha)
  = "Advance" /\
  In (Reports.partyBalance (App.khataTransactions app) Sample.asha)
    (Reports.customerDues
       (Reports.allPartyBalances (App.parties app) (App.khataTransactions app))).
Proof.
  intros app.
  assert (Hin : In Sample.asha (App.parties app)) by (left; reflexivity).
  assert (Hpos : 0 < Khatabook.listBalance (App.khataTransactions app) Sample.asha)
    by (vm_compute; reflexivity).
  split; [exact Hin | split; [reflexivity | split; [exact Hpos |]]].
  destruct (proj1 (X13_names_of_a_balance Sample.toLocaleString (fun s => s)
                     (App.parties app) (App.khataTransactions app) Sample.asha Hin)
              eq_refl Hpos) as (H1 & _ & _ & _ & H5).
  split; [exact H1 | exact H5].
Defined.

(** ** The statement of a party *)

Section StatementTable.

Context (formatDate : Z -> string) (toLocaleString : Q -> string).

Lemma tableRows_balances (acc : Q) (l : list KhataTransaction.t) :
  map (fun row => nth 4 row "") (Khatabook.tableRows formatDate toLocaleString acc l)
  = map (fun r => toLocaleString (Khatabook.balance r)) (Khatabook.annotate acc l).1.
Proof.
  revert acc. induction l as [| t l IH]; intros acc; [reflexivity |].
  cbn [Khatabook.tableRows Khatabook.annotate].
  specialize (IH (acc + Khatabook.debitSigned t)).
  destruct (Khatabook.annotate (acc + Khatabook.debitSigned t) l) as [rows final].
  cbn [fst map nth] in *. rewrite IH. reflexivity.
Qed.

Lemma tableRows_shape (acc : Q) (l : list KhataTransaction.t) :
  List.length (Khatabook.tableRows formatDate toLocaleString acc l) = List.length l /\
  Forall (fun row => List.length row = 5%nat /\ (nth 2 row "" = "-" \/ nth 3 row "" = "-"))
    (Khatabook.tableRows formatDate toLocaleString acc l).
Proof.
  revert acc. induction l as [| t l IH]; intros acc; [split; [reflexivity | constructor] |].
  cbn [Khatabook.tableRows]. destruct (IH (acc + Khatabook.debitSigned t)) as [H1 H2].
  split; [simpl; rewrite H1; reflexivity |].
  constructor; [| exact H2]. split; [reflexivity |].
  cbn [nth]. destruct (KhataTransaction.type t); [left | right]; reflexivity.
Qed.

End StatementTable.

(** X14. The statement of a party has no table exactly when the party has
    no transaction.  Otherwise it has one row of five cells per transaction,
    each with a dash in the "you gave" or in the "you received" cell, and its
    balance column, from top to bottom, is the balance column of the ledger
    on screen read from bottom to top. *)
Theorem X14_statement_matches_ledger (formatDate : Z -> string) (toLocaleString : Q -> string)
  (transactions : list KhataTransaction.t) :
  (Khatabook.tableBody formatDate toLocaleString transactions = None
   <-> transactions = []) /\
  (forall body,
     Khatabook.tableBody formatDate toLocaleString transactions = Some body ->
     List.length body = List.length transactions /\
     Forall (fun row => List.length row = 5%nat /\
                        (nth 2 row "" = "-" \/ nth 3 row "" = "-")) body /\
     map (fun row => nth 4 row "") body
     = map (fun r => toLocaleString (Khatabook.balance r))
         (rev (Khatabook.transactionRows (Khatabook.ledger transactions)))).
Proof.
  split.
  - destruct transactions; simpl; split; congruence.
  - intros body Hb.
    assert (E : body = Khatabook.tableRows formatDate toLocaleString 0
                         (JS.sort Khatabook.byDate transactions)).
    { destruct transactions; [discriminate |]. injection Hb as <-. reflexivity. }
    subst body.
    destruct (tableRows_shape formatDate toLocaleString 0
                (JS.sort Khatabook.byDate transactions)) as [H1 H2].
    split; [| split; [exact H2 |]].
    + rewrite H1. apply Permutation_length, sort_perm.
    + rewrite tableRows_balances, ledger_unfold. cbn [Khatabook.transactionRows].
      rewrite rev_involutive. reflexivity.
Qed.

Lemma X14_statement_matches_ledger_witness :
  let transactions := App.khataTransactions Sample.khata_screen.1 in
  exists body,
    Khatabook.tableBody Sample.formatDate Sample.toLocaleString transactions = Some body /\
    map (fun row => nth 4 row "") body = ["100"; "60"].
Proof.
  intros transactions.
  exists (Khatabook.tableRows Sample.formatDate Sample.toLocaleString 0
            (JS.sort Khatabook.byDate transactions)).
  assert (Hb : Khatabook.tableBody Sample.formatDate Sample.toLocaleString transactions
               = Some (Khatabook.tableRows Sample.formatDate Sample.toLocaleString 0
                         (JS.sort Khatabook.byDate transactions))) by reflexivity.
  split; [exact Hb |].
  rewrite (proj2 (proj2 (proj2 (X14_statement_matches_ledger Sample.formatDate
                                  Sample.toLocaleString transactions) _ Hb))).
  reflexivity.
Defined.

(** ** The party form and the views without a party *)

Lemma render_add_customer (parties : list Party.t) (transactions : list KhataTransaction.t)
  (st : Khatabook.State) :
  Khatabook.view st = Khatabook.ADD_CUSTOMER ->
  Khatabook.render parties transactions st = Khatabook.AddCustomerForm.
Proof. unfold Khatabook.render. intros ->. reflexivity. Qed.

(** X15. In the party form: with a name that is blank once trimmed or a
    phone number of less than 10 characters once trimmed, a submit changes
    nothing.  Otherwise the screen goes back to the list in either case: a
    phone number that a party already has leaves the party set as it is, with
    one more line on the error console, and a new phone number appends the
    party as typed, with the untrimmed phone number as identifier. *)
Theorem X15_submit_customer (app : App.State) (st : Khatabook.State)
  (name phone : string) (type : PartyType) :
  Khatabook.view st = Khatabook.ADD_CUSTOMER ->
  let screen' := Khatabook.step (app, st) (Khatabook.SubmitCustomer name phone type) in
  (JS.trim name = "" \/ (String.length (JS.trim phone) < 10)%nat ->
   screen' = (app, st)) /\
  (JS.trim name <> "" -> (10 <= String.length (JS.trim phone))%nat ->
   Khatabook.view screen'.2 = Khatabook.LIST /\
   ((exists p, In p (App.parties app) /\ Party.phone p = phone) ->
    App.parties screen'.1 = App.parties app /\
    App.console screen'.1 = App.console app ++ [App.duplicate_message]) /\
   ((forall p, In p (App.parties app) -> Party.phone p <> phone) ->
    App.parties screen'.1 = App.parties app ++ [Party.mk phone name phone type] /\
    App.console screen'.1 = App.console app)).
Proof.
  intros Hv screen'. subst screen'. unfold Khatabook.step.
  rewrite (render_add_customer _ _ _ Hv). unfold Khatabook.AddCustomerForm_handleSubmit.
  split.
  - intros [Hn | Hp].
    + rewrite Hn. reflexivity.
    + apply Nat.leb_gt in Hp. rewrite Hp, andb_false_r. reflexivity.
  - intros Hn Hp.
    assert (E1 : JS.truthy (JS.trim name) = true).
    { destruct (JS.truthy (JS.trim name)) eqn:E; [reflexivity |].
      apply truthy_false in E. contradiction. }
    apply Nat.leb_le in Hp. rewrite E1, Hp. cbn [andb fst snd].
    split; [reflexivity |]. unfold App.handleAddParty. cbn [Party.in_phone].
    split.
    + intros Hex. apply existsb_phone in Hex. rewrite Hex. split; reflexivity.
    + intros Hnone.
      destruct (existsb _ _) eqn:E; [| split; reflexivity].
      apply existsb_phone in E. destruct E as (p & Hin & Hp'). exfalso.
      exact (Hnone p Hin Hp').
Qed.

Lemma X15_submit_customer_witness :
  let st := Khatabook.onAddCustomer Khatabook.initial in
  Khatabook.view st = Khatabook.ADD_CUSTOMER /\
  JS.trim "Asha Devi" <> "" /\ (10 <= String.length (JS.trim "9876543210"))%nat /\
  (exists p, In p (App.parties Sample.app) /\ Party.phone p = "9876543210") /\
  Khatabook.view
    (Khatabook.step (Sample.app, st)
       (Khatabook.SubmitCustomer "Asha Devi" "9876543210" SUPPLIER)).2 = Khatabook.LIST /\
  App.parties
    (Khatabook.step (Sample.app, st)
       (Khatabook.SubmitCustomer "Asha Devi" "9876543210" SUPPLIER)).1
  = App.parties Sample.app.
Proof.
  intros st.
  assert (Hn : JS.trim "Asha Devi" <> "") by discriminate.
  assert (Hp : (10 <= String.length (JS.trim "9876543210"))%nat) by (vm_compute; lia).
  assert (Hex : exists p, In p (App.parties Sample.app) /\ Party.phone p = "9876543210")
    by (exists Sample.asha; split; [left |]; reflexivity).
  split; [reflexivity | split; [exact Hn | split; [exact Hp | split; [exact Hex |]]]].
  destruct (proj2 (X15_submit_customer Sample.app st "Asha Devi" "9876543210" SUPPLIER
                     eq_refl) Hn Hp) as (H1 & H2 & _).
  split; [exact H1 | exact (proj1 (H2 Hex))].
Defined.

(** X16. In the ledger view and in the transaction form, when no party of
    the set carries the selected identifier, the khatabook renders nothing,
    and no action on that screen changes anything: no party and no
    transaction can be added from there. *)
Theorem X16_missing_party_screen (app : App.State) (st : Khatabook.State) :
  Khatabook.view st = Khatabook.CUSTOMER_LEDGER
  \/ Khatabook.view st = Khatabook.ADD_TRANSACTION ->
  (forall p, In p (App.parties app) ->
     Khatabook.selectedPartyId st <> Some (Party.id p)) ->
  Khatabook.render (App.parties app) (App.khataTransactions app) st = Khatabook.RenderNull /\
  forall e, Khatabook.step (app, st) e = (app, st).
Proof.
  intros Hv Hnone.
  assert (Hs : Khatabook.selectedParty (App.parties app) st = None).
  { unfold Khatabook.selectedParty.
    destruct (find _ (App.parties app)) as [p |] eqn:E; [| reflexivity].
    apply find_some in E. destruct E as [Hin E]. exfalso. apply (Hnone p Hin).
    destruct (Khatabook.selectedPartyId st) as [i |]; [| discriminate].
    apply String.eqb_eq in E. rewrite E. reflexivity. }
  assert (R : Khatabook.render (App.parties app) (App.khataTransactions app) st
              = Khatabook.RenderNull).
  { unfold Khatabook.render. rewrite Hs. destruct Hv as [-> | ->]; reflexivity. }
  split; [exact R |].
  intros e. unfold Khatabook.step. rewrite R. destruct e; reflexivity.
Qed.

Lemma X16_missing_party_screen_witness :
  let st := Khatabook.onSelectParty "9000000000" Khatabook.initial in
  (forall p, In p (App.parties Sample.app) ->
     Khatabook.selectedPartyId st <> Some (Party.id p)) /\
  Khatabook.step (Sample.app, st) Khatabook.ClickBack = (Sample.app, st).
Proof.
  intros st.
  assert (H : forall p, In p (App.parties Sample.app) ->
                Khatabook.selectedPartyId st <> Some (Party.id p))
    by (intros p [<- | []]; discriminate).
  split; [exact H |].
  exact (proj2 (X16_missing_party_screen Sample.app st (or_introl eq_refl) H)
           Khatabook.ClickBack).
Defined.

(** ** The reports *)

Lemma report_receivables (parties : list Party.t) (transactions : list KhataTransaction.t) :
  Reports.totalReceivables
    (Reports.customerDues (Reports.allPartyBalances parties transactions))
  == Spec.sum
       (map (fun p => if Reports.isCustomer p
                      then Qmax 0 (Reports.balance (Reports.partyBalance transactions p))
                      else 0) parties).
Proof.
  unfold Reports.totalReceivables. rewrite fold_left_sum.
  unfold Reports.customerDues, Reports.allPartyBalances, Spec.sum.
  induction parties as [| p parties IH]; [reflexivity |].
  cbn [map List.filter fold_right] in *.
  cbn [Reports.party Reports.partyBalance] in *.
  set (b := Reports.balance (Reports.partyBalance transactions p)) in *.
  change (JS.orZero (Reports.balances transactions !! Party.id p)) with b.
  destruct (Reports.isCustomer p); cbn [andb].
  - destruct (JS.ltb 0 b) eqn:E; order_hyps.
    + cbn [map fold_right]. rewrite Q.max_r by lra.
      cbn [Reports.balance]. fold b. lra.
    + rewrite Q.max_l by lra. lra.
  - lra.
Qed.

Lemma report_payables (parties : list Party.t) (transactions : list KhataTransaction.t) :
  Reports.totalPayables
    (Reports.supplierPayables (Reports.allPartyBalances parties transactions))
  == Spec.sum
       (map (fun p => if Reports.isSupplier p
                      then Qmax 0 (- Reports.balance (Reports.partyBalance transactions p))
                      else 0) parties).
Proof.
  unfold Reports.totalPayables. rewrite fold_left_sum.
  unfold Reports.supplierPayables, Reports.allPartyBalances, Spec.sum.
  induction parties as [| p parties IH]; [reflexivity |].
  cbn [map List.filter fold_right] in *.
  cbn [Reports.party Reports.partyBalance] in *.
  set (b := Reports.balance (Reports.partyBalance transactions p)) in *.
  change (JS.orZero (Reports.balances transactions !! Party.id p)) with b.
  destruct (Reports.isSupplier p); cbn [andb].
  - destruct (JS.ltb b 0) eqn:E; order_hyps.
    + cbn [map fold_right]. rewrite Q.max_r by lra.
      cbn [Reports.balance]. fold b. rewrite Qabs_neg by lra. lra.
    + rewrite Q.max_l by lra. lra.
  - lra.
Qed.

Lemma sum_of_nonneg {A : Type} (f : A -> Q) (l : list A) :
  (forall x, 0 <= f x) -> 0 <= Spec.sum (map f l).
Proof.
  intros H. apply sum_nonneg, List.Forall_map, List.Forall_forall. intros x _. apply H.
Qed.

Lemma no_transactions_no_entry (parties : list Party.t)
  (side : Party.t -> bool) (sign : Q -> bool) :
  (forall q, q = 0 -> sign q = false) ->
  List.filter (fun pb => side (Reports.party pb) && sign (Reports.balance pb))
    (Reports.allPartyBalances parties []) = [].
Proof.
  intros Hsign. unfold Reports.allPartyBalances.
  induction parties as [| p parties IH]; [reflexivity |].
  cbn [map List.filter]. rewrite IH.
  assert (E : Reports.balance (Reports.partyBalance [] p) = 0).
  { unfold Reports.partyBalance, Reports.balances. cbn [Reports.balance fold_left].
    rewrite lookup_empty. reflexivity. }
  rewrite (Hsign _ E), andb_false_r. reflexivity.
Qed.

(** X17. In the reports, the total of receivables is the sum, over the
    customers, of the positive part of their balance, and the total of
    payables is the sum, over the suppliers, of the positive part of the
    opposite of their balance.  Both totals are therefore never negative, a
    customer in advance and a supplier who owes the shop count for nothing,
    and with no transaction at all both lists are empty and both totals 0. *)
Theorem X17_report_totals (parties : list Party.t) (transactions : list KhataTransaction.t) :
  let all := Reports.allPartyBalances parties transactions in
  let balance := fun p => Reports.balance (Reports.partyBalance transactions p) in
  Reports.totalReceivables (Reports.customerDues all)
  == Spec.sum (map (fun p => if Reports.isCustomer p then Qmax 0 (balance p) else 0) parties) /\
  Reports.totalPayables (Reports.supplierPayables all)
  == Spec.sum (map (fun p => if Reports.isSupplier p then Qmax 0 (- balance p) else 0) parties) /\
  0 <= Reports.totalReceivables (Reports.customerDues all) /\
  0 <= Reports.totalPayables (Reports.supplierPayables all) /\
  (transactions = [] ->
   Reports.customerDues all = [] /\ Reports.supplierPayables all = [] /\
   Reports.totalReceivables (Reports.customerDues all) == 0 /\
   Reports.totalPayables (Reports.supplierPayables all) == 0).
Proof.
  intros all balance. subst all balance.
  split; [apply report_receivables | split; [apply report_payables | split; [| split]]].
  - rewrite report_receivables. apply sum_of_nonneg. intros p.
    destruct (Reports.isCustomer p); [apply Q.le_max_l | lra].
  - rewrite report_payables. apply sum_of_nonneg. intros p.
    destruct (Reports.isSupplier p); [apply Q.le_max_l | lra].
  - intros ->.
    assert (H1 : Reports.customerDues (Reports.allPartyBalances parties []) = []).
    { apply (no_transactions_no_entry parties Reports.isCustomer (fun q => JS.ltb 0 q)).
      intros q ->. reflexivity. }
    assert (H2 : Reports.supplierPayables (Reports.allPartyBalances parties []) = []).
    { apply (no_transactions_no_entry parties Reports.isSupplier (fun q => JS.ltb q 0)).
      intros q ->. reflexivity. }
    rewrite H1, H2. repeat split; reflexivity.
Qed.

Lemma X17_report_totals_witness :
  Reports.customerDues (Reports.allPartyBalances (App.parties Sample.app) []) = [] /\
  Reports.totalReceivables
    (Reports.customerDues (Reports.allPartyBalances (App.parties Sample.app) [])) == 0.
Proof.
  destruct (proj2 (proj2 (proj2 (proj2 (X17_report_totals (App.parties Sample.app) []))))
              eq_refl) as (H1 & _ & H3 & _).
  split; [exact H1 | exact H3].
Defined.

(** ** Interest over time *)

Lemma simple_interest_formula (P r k d : Q) :
  0 < k -> P * r * (d / k) / 100 == P * r / (100 * k) * d.
Proof. intros Hk. field. lra. Qed.

Lemma elapsed_days_monotone (d e1 e2 : Z) :
  (e1 <= e2)%Z ->
  0 <= Qmax 0 (inject_Z (e1 - d) / inject_Z (1000 * 3600 * 24)) /\
  Qmax 0 (inject_Z (e1 - d) / inject_Z (1000 * 3600 * 24))
  <= Qmax 0 (inject_Z (e2 - d) / inject_Z (1000 * 3600 * 24)).
Proof.
  intros H. split; [apply Q.le_max_l |].
  apply Q.max_le_compat_l. unfold Qdiv.
  apply Qmult_le_compat_r; [| discriminate].
  rewrite <- Zle_Qle. lia.
Qed.

Lemma accrual_bounds (loan : ByajLoan.t) (e1 e2 : Z) :
  0 <= ByajLoan.principalAmount loan -> 0 <= ByajLoan.interestRate loan ->
  (e1 <= e2)%Z ->
  let a1 := Byajbook.accrual e1 loan in
  let a2 := Byajbook.accrual e2 loan in
  0 <= Byajbook.interest a1 /\ Byajbook.interest a1 <= Byajbook.interest a2 /\
  ByajLoan.principalAmount loan <= Byajbook.totalPayable a1 /\
  Byajbook.totalPayable a1 <= Byajbook.totalPayable a2 /\
  (0 <= Byajbook.daysPassed a1 <= Byajbook.daysPassed a2)%Z.
Proof.
  intros HP Hr He a1 a2. subst a1 a2. unfold Byajbook.accrual.
  destruct (ByajLoan.interestType loan);
    [| cbn; repeat split; (lra || lia)].
  destruct (elapsed_days_monotone (ByajLoan.loanDate loan) e1 e2 He) as [H0 H12].
  set (d1 := Qmax 0 (inject_Z (e1 - ByajLoan.loanDate loan) / inject_Z (1000 * 3600 * 24))) in *.
  set (d2 := Qmax 0 (inject_Z (e2 - ByajLoan.loanDate loan) / inject_Z (1000 * 3600 * 24))) in *.
  cbn [Byajbook.interest Byajbook.totalPayable Byajbook.daysPassed].
  assert (Hc : 0 <= ByajLoan.principalAmount loan * ByajLoan.interestRate loan)
    by (apply Qmult_le_0_compat; assumption).
  assert (Hi : forall k, 0 < k ->
            0 <= ByajLoan.principalAmount loan * ByajLoan.interestRate loan * (d1 / k) / 100
            /\ ByajLoan.principalAmount loan * ByajLoan.interestRate loan * (d1 / k) / 100
               <= ByajLoan.principalAmount loan * ByajLoan.interestRate loan * (d2 / k) / 100).
  { intros k Hk. rewrite !(simple_interest_formula _ _ k) by exact Hk.
    assert (Hq : 0 <= ByajLoan.principalAmount loan * ByajLoan.interestRate loan / (100 * k)).
    { apply Qle_shift_div_l; lra. }
    generalize dependent (ByajLoan.principalAmount loan * ByajLoan.interestRate loan
                          / (100 * k)).
    intros q Hq. split.
    - apply Qmult_le_0_compat; assumption.
    - rewrite !(Qmult_comm q). apply Qmult_le_compat_r; assumption. }
  assert (Hd : (0 <= Qfloor d1 <= Qfloor d2)%Z).
  { split; [| apply Qfloor_resp_le, H12].
    change 0%Z with (Qfloor 0). apply Qfloor_resp_le, H0. }
  destruct (ByajLoan.interestRatePeriod loan).
  - destruct (Hi 30.4375 eq_refl) as [Ha Hb].
    repeat split; try lra; apply Hd.
  - destruct (Hi 365.25 eq_refl) as [Ha Hb].
    repeat split; try lra; apply Hd.
Qed.


(** X18. With a principal and a rate that are not negative, the interest of
    a loan is never negative and never decreases when the loan is evaluated
    later; the total payable is at least the principal and never decreases;
    the days passed are never negative and never decrease. *)
Theorem X18_accrual_monotone (loan : ByajLoan.t) (e1 e2 : Z) :
  0 <= ByajLoan.principalAmount loan -> 0 <= ByajLoan.interestRate loan ->
  (e1 <= e2)%Z ->
  let a1 := Byajbook.accrual e1 loan in
  let a2 := Byajbook.accrual e2 loan in
  0 <= Byajbook.interest a1 /\ Byajbook.interest a1 <= Byajbook.interest a2 /\
  ByajLoan.principalAmount loan <= Byajbook.totalPayable a1 /\
  Byajbook.totalPayable a1 <= Byajbook.totalPayable a2 /\
  (0 <= Byajbook.daysPassed a1 <= Byajbook.daysPassed a2)%Z.
Proof. apply accrual_bounds. Qed.

Lemma X18_accrual_monotone_witness :
  0 <= ByajLoan.principalAmount Sample.loan /\ 0 <= ByajLoan.interestRate Sample.loan /\
  (1735689600000 <= 1738319400000)%Z /\
  Byajbook.interest (Byajbook.accrual 1735689600000 Sample.loan)
  <= Byajbook.interest (Byajbook.accrual 1738319400000 Sample.loan).
Proof.
  assert (HP : 0 <= ByajLoan.principalAmount Sample.loan) by discriminate.
  assert (Hr : 0 <= ByajLoan.interestRate Sample.loan) by discriminate.
  assert (He : (1735689600000 <= 1738319400000)%Z) by lia.
  split; [exact HP | split; [exact Hr | split; [exact He |]]].
  exact (proj1 (proj2 (X18_accrual_monotone Sample.loan _ _ HP Hr He))).
Defined.

(** X19. Evaluated at or before its loan date, a loan has accrued nothing:
    the interest is 0, the total payable is the principal and no day has
    passed; a loan dated in the future does not earn negative interest. *)
Theorem X19_nothing_before_loan_date (loan : ByajLoan.t) (e : Z) :
  (e <= ByajLoan.loanDate loan)%Z ->
  let a := Byajbook.accrual e loan in
  Byajbook.interest a == 0 /\
  Byajbook.totalPayable a == ByajLoan.principalAmount loan /\
  Byajbook.daysPassed a = 0%Z.
Proof.
  intros He a. subst a. unfold Byajbook.accrual.
  destruct (ByajLoan.interestType loan); [| cbn; repeat split; ring].
  assert (Hd : Qmax 0 (inject_Z (e - ByajLoan.loanDate loan) / inject_Z (1000 * 3600 * 24))
               == 0).
  { rewrite elapsed_days, Z.max_l by lia. reflexivity. }
  cbn [Byajbook.interest Byajbook.totalPayable Byajbook.daysPassed].
  destruct (ByajLoan.interestRatePeriod loan); rewrite Hd;
    (split; [| split]); try reflexivity; try (unfold Qdiv; ring).
Qed.

Lemma X19_nothing_before_loan_date_witness :
  (1735603200000 <= ByajLoan.loanDate Sample.loan)%Z /\
  Byajbook.totalPayable (Byajbook.accrual 1735603200000 Sample.loan) == 10000.
Proof.
  assert (He : (1735603200000 <= ByajLoan.loanDate Sample.loan)%Z) by (cbn; lia).
  split; [exact He |].
  exact (proj1 (proj2 (X19_nothing_before_loan_date Sample.loan _ He))).
Defined.

(** X20. A rate of r percent a month accrues exactly what a rate of 12 r
    percent a year accrues: the mean month of 30.4375 days is one twelfth of
    the mean year of 365.25 days. *)
Theorem X20_monthly_is_twelfth_of_annual (loan : ByajLoan.t) (e : Z) :
  ByajLoan.interestRatePeriod loan = MONTHLY ->
  let yearly :=
    ByajLoan.mk (ByajLoan.id loan) (ByajLoan.borrower loan) (ByajLoan.principalAmount loan)
      (12 * ByajLoan.interestRate loan) ANNUAL (ByajLoan.interestType loan)
      (ByajLoan.loanDate loan) (ByajLoan.mortgagedItems loan) in
  Byajbook.interest (Byajbook.accrual e loan)
  == Byajbook.interest (Byajbook.accrual e yearly) /\
  Byajbook.totalPayable (Byajbook.accrual e loan)
  == Byajbook.totalPayable (Byajbook.accrual e yearly) /\
  Byajbook.daysPassed (Byajbook.accrual e loan)
  = Byajbook.daysPassed (Byajbook.accrual e yearly).
Proof.
  intros Hm yearly. subst yearly. unfold Byajbook.accrual.
  cbn [ByajLoan.interestType ByajLoan.interestRatePeriod ByajLoan.principalAmount
       ByajLoan.interestRate ByajLoan.loanDate].
  rewrite Hm. destruct (ByajLoan.interestType loan);
    cbn [Byajbook.interest Byajbook.totalPayable Byajbook.daysPassed];
    [| repeat split; reflexivity].
  generalize (Qmax 0 (inject_Z (e - ByajLoan.loanDate loan) / inject_Z (1000 * 3600 * 24))).
  intros d.
  assert (H : ByajLoan.principalAmount loan * ByajLoan.interestRate loan * (d / 30.4375) / 100
              == ByajLoan.principalAmount loan * (12 * ByajLoan.interestRate loan)
                 * (d / 365.25) / 100) by (field; split; discriminate).
  split; [exact H | split; [rewrite H |]; reflexivity].
Qed.

Lemma X20_monthly_is_twelfth_of_annual_witness :
  ByajLoan.interestRatePeriod Sample.loan = MONTHLY /\
  Byajbook.interest (Byajbook.accrual 1738319400000 Sample.loan)
  == Byajbook.interest
       (Byajbook.accrual 1738319400000
          (ByajLoan.mk "loan-1" Sample.borrower 10000 (12 * 2) ANNUAL SIMPLE
             1735689600000 [Sample.bangle])).
Proof.
  split; [reflexivity |].
  exact (proj1 (X20_monthly_is_twelfth_of_annual Sample.loan 1738319400000 eq_refl)).
Defined.

(** ** The loan form and the byajbook screen *)

Lemma truthy_true (s : string) : JS.truthy s = true <-> s <> "".
Proof. destruct s; simpl; split; congruence. Qed.

Lemma filterOtherIndex_spec {A : Type} (index : nat) (l : list A) (i : nat) :
  Byajbook.filterOtherIndex index i l
  = if (i <=? index)%nat then take (index - i) l ++ drop (S (index - i)) l else l.
Proof.
  revert i. induction l as [| x l IH]; intros i.
  - destruct (i <=? index)%nat; [rewrite take_nil, drop_nil |]; reflexivity.
  - cbn [Byajbook.filterOtherIndex]. rewrite IH.
    destruct (Nat.eqb_spec i index) as [-> | Hne].
    + rewrite Nat.leb_refl, Nat.sub_diag.
      destruct (Nat.leb_spec (S index) index); [lia | reflexivity].
    + destruct (Nat.leb_spec i index) as [Hle | Hgt].
      * destruct (Nat.leb_spec (S i) index); [| lia].
        replace (index - i)%nat with (S (index - S i)) by lia. reflexivity.
      * destruct (Nat.leb_spec (S i) index); [lia | reflexivity].
Qed.

(** X21. Removing the pledge at an index of the loan form removes that one
    pledge and keeps the others in order; an index past the end removes
    nothing; the typed fields of the form are not touched. *)
Theorem X21_remove_pledge (index : nat) (f : Byajbook.FormState) :
  let f' := Byajbook.handleRemoveItem index f in
  Byajbook.items f' = take index (Byajbook.items f) ++ drop (S index) (Byajbook.items f) /\
  ((index < List.length (Byajbook.items f))%nat ->
   S (List.length (Byajbook.items f')) = List.length (Byajbook.items f)) /\
  ((List.length (Byajbook.items f) <= index)%nat -> f' = f) /\
  Byajbook.editFields f f' = f'.
Proof.
  intros f'.
  assert (E : Byajbook.items f'
              = take index (Byajbook.items f) ++ drop (S index) (Byajbook.items f)).
  { subst f'. cbn. rewrite filterOtherIndex_spec. cbn. rewrite Nat.sub_0_r. reflexivity. }
  split; [exact E | split; [| split]].
  - intros Hlt. rewrite E, List.length_app, length_take, length_drop. lia.
  - intros Hle. subst f'. unfold Byajbook.handleRemoveItem.
    rewrite filterOtherIndex_spec. cbn [Nat.leb]. rewrite Nat.sub_0_r.
    rewrite take_ge, drop_ge, app_nil_r by lia. destruct f; reflexivity.
  - reflexivity.
Qed.

Lemma X21_remove_pledge_witness :
  let f := Byajbook.handleAddItem Sample.loan_form in
  (0 < List.length (Byajbook.items f))%nat /\
  List.length (Byajbook.items f) = 1%nat /\
  List.length (Byajbook.items (Byajbook.handleRemoveItem 0 f)) = 0%nat.
Proof.
  intros f.
  assert (H : (0 < List.length (Byajbook.items f))%nat) by (vm_compute; lia).
  split; [exact H | split; [reflexivity |]].
  pose proof (proj1 (proj2 (X21_remove_pledge 0 f)) H) as E.
  change (List.length (Byajbook.items f)) with 1%nat in E. lia.
Defined.

Lemma handleAddItem_valid (f : Byajbook.FormState) :
  Forall Spec.valid_pledge_input (Byajbook.items f) ->
  Forall Spec.valid_pledge_input (Byajbook.items (Byajbook.handleAddItem f)).
Proof.
  intros H. unfold Byajbook.handleAddItem.
  destruct (JS.parseFloat (Byajbook.itemWeight f)) as [w |]; [| exact H].
  destruct (JS.parseFloat (Byajbook.itemValue f)) as [v |]; [| exact H].
  destruct (JS.truthy (Byajbook.itemDesc f)) eqn:E1; [| exact H].
  destruct (JS.ltb 0 w) eqn:E2; [| exact H].
  destruct (JS.truthy (Byajbook.itemPurity f)) eqn:E3; [| exact H].
  destruct (JS.ltb 0 v) eqn:E4; [| exact H].
  cbn. apply Forall_app. split; [exact H |]. constructor; [| constructor].
  order_hyps. apply truthy_true in E1, E3. repeat split; assumption.
Qed.

Lemma handleRemoveItem_valid (index : nat) (f : Byajbook.FormState) :
  Forall Spec.valid_pledge_input (Byajbook.items f) ->
  Forall Spec.valid_pledge_input (Byajbook.items (Byajbook.handleRemoveItem index f)).
Proof.
  intros H. cbn. rewrite filterOtherIndex_spec. cbn. rewrite Nat.sub_0_r.
  apply Forall_app. split; [apply Forall_take | apply Forall_drop]; exact H.
Qed.

Lemma imap_pledges_valid (f : nat -> string) (l : list MortgagedItem.input) :
  Forall Spec.valid_pledge_input l ->
  Forall Spec.valid_pledge
    (imap (fun i item =>
             MortgagedItem.mk (f i) (MortgagedItem.in_description item)
               (MortgagedItem.in_weight item) (MortgagedItem.in_purity item)
               (MortgagedItem.in_estimatedValue item)
               (MortgagedItem.in_photoBase64 item)) l).
Proof.
  intros H. revert f. induction H as [| x l Hx _ IH]; intros f; [constructor |].
  cbn [imap]. constructor; [exact Hx |]. apply (IH (fun i => f (S i))).
Qed.

Section LoanForm.

Context (parseDate : string -> Z) (random : nat -> string).

(** What the form hands over when it accepts. *)
Lemma handleSubmit_saved (f : Byajbook.FormState) (loanData : ByajLoan.t) :
  Byajbook.handleSubmit parseDate random f = Byajbook.onSave loanData ->
  Forall Spec.valid_pledge_input (Byajbook.items f) ->
  Spec.valid_loan loanData /\
  JS.parseFloat (Byajbook.principal f) = Some (ByajLoan.principalAmount loanData) /\
  JS.parseFloat (Byajbook.rate f) = Some (ByajLoan.interestRate loanData) /\
  ByajLoan.interestRatePeriod loanData = Byajbook.ratePeriod f /\
  List.length (ByajLoan.mortgagedItems loanData) = List.length (Byajbook.items f).
Proof.
  unfold Byajbook.handleSubmit.
  destruct (JS.parseFloat (Byajbook.principal f)) as [P |]; [| discriminate].
  destruct (JS.parseFloat (Byajbook.rate f)) as [r |]; [| discriminate].
  destruct (JS.truthy (Byajbook.borrowerName f)) eqn:E1; [| discriminate].
  destruct (JS.truthy (Byajbook.borrowerPhone f)) eqn:E2; [| discriminate].
  destruct (JS.ltb 0 P) eqn:E3; [| discriminate].
  destruct (JS.ltb 0 r) eqn:E4; [| discriminate].
  destruct (0 <? List.length (Byajbook.items f))%nat eqn:E5; [| discriminate].
  cbn [andb]. intros [= <-] Hitems. order_hyps.
  apply truthy_true in E1, E2. apply Nat.ltb_lt in E5.
  split; [| cbn; rewrite length_imap; repeat split].
  unfold Spec.valid_loan. cbn.
  repeat split; try assumption.
  - intros Hnil. apply (f_equal (@List.length _)) in Hnil.
    rewrite length_imap in Hnil. simpl in Hnil. lia.
  - apply imap_pledges_valid, Hitems.
Qed.

End LoanForm.

Section ByajScreen.

Context (parseDate : string -> Z) (random : nat -> string) (currentDate : Z).

Lemma byaj_step_invariant (s : Byajbook.Screen) (e : Byajbook.Event) :
  Spec.byaj_invariant s ->
  Spec.byaj_invariant (Byajbook.step parseDate random currentDate s e).
Proof.
  intros [Hl Hf]. unfold Byajbook.step.
  destruct (Byajbook.render currentDate (App.byajLoans (Byajbook.app s)) (Byajbook.nav s));
    destruct e;
    try (split;
         [ exact Hl
         | first [ exact Hf
                 | apply handleAddItem_valid, Hf
                 | apply handleRemoveItem_valid, Hf
                 | constructor ] ]).
  destruct (Byajbook.handleSubmit parseDate random (Byajbook.form s)) as [loanData | msg]
    eqn:E; [| split; assumption].
  apply handleSubmit_saved in E; [| exact Hf]. destruct E as (Hv & _).
  split; [| exact Hf]. cbn. apply Forall_app. split; [exact Hl |].
  constructor; [| constructor]. exact Hv.
Qed.

Lemma byaj_reachable (events : list Byajbook.Event) :
  Spec.byaj_invariant
    (Byajbook.run parseDate random currentDate events Byajbook.initialScreen).
Proof.
  unfold Byajbook.run.
  assert (H : forall s, Spec.byaj_invariant s ->
            Spec.byaj_invariant
              (fold_left (Byajbook.step parseDate random currentDate) events s)).
  { induction events as [| e events IH]; intros s Hs; [exact Hs |].
    simpl. apply IH, byaj_step_invariant, Hs. }
  apply H. split; constructor.
Qed.

End ByajScreen.

(** X22. Whatever the user does on the byajbook screen, starting with no
    loan (open the form, type in its fields, add and remove pledges, submit,
    go back, open a loan), every loan on the books is at simple interest with
    a positive principal and a positive rate, names a borrower with a phone
    number, and has at least one pledge, each with a description, a purity, a
    positive weight and a positive value.  The branch for compound interest
    is thus never taken for a loan made on this screen: at any instant its
    interest is not negative and its total payable is at least the
    principal. *)
Theorem X22_byaj_invariant (parseDate : string -> Z) (random : nat -> string)
  (currentDate : Z) (events : list Byajbook.Event) :
  let s := Byajbook.run parseDate random currentDate events Byajbook.initialScreen in
  Forall Spec.valid_loan (App.byajLoans (Byajbook.app s)) /\
  Forall Spec.valid_pledge_input (Byajbook.items (Byajbook.form s)) /\
  forall loan e, In loan (App.byajLoans (Byajbook.app s)) ->
    0 <= Byajbook.interest (Byajbook.accrual e loan) /\
    ByajLoan.principalAmount loan <= Byajbook.totalPayable (Byajbook.accrual e loan).
Proof.
  intros s. destruct (byaj_reachable parseDate random currentDate events) as [Hl Hf].
  fold s in Hl, Hf. split; [exact Hl | split; [exact Hf |]].
  intros loan e Hin. rewrite List.Forall_forall in Hl.
  destruct (Hl loan Hin) as (_ & HP & Hr & _).
  assert (H : (e <= e)%Z) by lia.
  assert (HP' : 0 <= ByajLoan.principalAmount loan) by lra.
  assert (Hr' : 0 <= ByajLoan.interestRate loan) by lra.
  destruct (accrual_bounds loan e e HP' Hr' H) as (H1 & _ & H3 & _).
  split; assumption.
Qed.

Lemma selectedLoan_appended (loans : list ByajLoan.t) (newLoan : ByajLoan.t)
  (st : Byajbook.State) :
  (forall l, In l loans -> ByajLoan.id l <> ByajLoan.id newLoan) ->
  Byajbook.selectedLoan (loans ++ [newLoan]) (Byajbook.onSelectLoan (ByajLoan.id newLoan) st)
  = Some newLoan.
Proof.
  intros Hfresh. unfold Byajbook.selectedLoan. cbn [Byajbook.onSelectLoan Byajbook.selectedLoanId].
  induction loans as [| l loans IH]; simpl.
  - rewrite String.eqb_refl. reflexivity.
  - destruct (String.eqb_spec (ByajLoan.id l) (ByajLoan.id newLoan)) as [E | _].
    + exfalso. apply (Hfresh l); [left; reflexivity | exact E].
    + apply IH. intros l' Hin. apply Hfresh. right. exact Hin.
Qed.

Lemma handleSubmit_refused (parseDate : string -> Z) (random : nat -> string)
  (f : Byajbook.FormState) :
  Byajbook.borrowerName f = "" \/ Byajbook.borrowerPhone f = "" \/
  (forall P, JS.parseFloat (Byajbook.principal f) = Some P -> P <= 0) \/
  (forall r, JS.parseFloat (Byajbook.rate f) = Some r -> r <= 0) \/
  Byajbook.items f = [] ->
  Byajbook.handleSubmit parseDate random f = Byajbook.alert Byajbook.submitMessage.
Proof.
  unfold Byajbook.handleSubmit. intros H.
  destruct (JS.parseFloat (Byajbook.principal f)) as [P |]; [| reflexivity].
  destruct (JS.parseFloat (Byajbook.rate f)) as [r |]; [| reflexivity].
  destruct H as [H | [H | [H | [H | H]]]].
  - rewrite H. reflexivity.
  - rewrite H, andb_false_r. reflexivity.
  - specialize (H P eq_refl). apply ltb_false in H.
    rewrite H, !andb_false_r. reflexivity.
  - specialize (H r eq_refl). apply ltb_false in H.
    rewrite H, !andb_false_r. reflexivity.
  - rewrite H. cbn [List.length Nat.ltb Nat.leb]. rewrite !andb_false_r. reflexivity.
Qed.

(** X23. In the loan form: a submit without a borrower name, without a
    phone number, with a principal or a rate that is not a positive number,
    or without a pledge, alerts and changes nothing.  An accepted submit
    appends the loan under the new identifier, at simple interest, and returns
    to the list; when no older loan carries that identifier, clicking the new
    loan in the list opens the details of that very loan. *)
Theorem X23_submit_loan (parseDate : string -> Z) (random : nat -> string)
  (currentDate : Z) (s : Byajbook.Screen) (newId : string) :
  Byajbook.view (Byajbook.nav s) = Byajbook.ADD_LOAN ->
  let f := Byajbook.form s in
  let s' := Byajbook.step parseDate random currentDate s (Byajbook.SubmitLoan newId) in
  (Byajbook.borrowerName f = "" \/ Byajbook.borrowerPhone f = "" \/
   (forall P, JS.parseFloat (Byajbook.principal f) = Some P -> P <= 0) \/
   (forall r, JS.parseFloat (Byajbook.rate f) = Some r -> r <= 0) \/
   Byajbook.items f = [] ->
   Byajbook.handleSubmit parseDate random f = Byajbook.alert Byajbook.submitMessage /\
   s' = s) /\
  (forall loanData,
     Byajbook.handleSubmit parseDate random f = Byajbook.onSave loanData ->
     let newLoan :=
       ByajLoan.mk newId (ByajLoan.borrower loanData) (ByajLoan.principalAmount loanData)
         (ByajLoan.interestRate loanData) (ByajLoan.interestRatePeriod loanData) SIMPLE
         (ByajLoan.loanDate loanData) (ByajLoan.mortgagedItems loanData) in
     App.byajLoans (Byajbook.app s') = App.byajLoans (Byajbook.app s) ++ [newLoan] /\
     Byajbook.view (Byajbook.nav s') = Byajbook.LIST /\
     ((forall l, In l (App.byajLoans (Byajbook.app s)) -> ByajLoan.id l <> newId) ->
      Byajbook.render currentDate (App.byajLoans (Byajbook.app s'))
        (Byajbook.nav
           (Byajbook.step parseDate random currentDate s' (Byajbook.ClickLoan newId)))
      = Byajbook.LoanDetails newLoan (Byajbook.accrual currentDate newLoan))).
Proof.
  intros Hv f s'.
  assert (R : Byajbook.render currentDate (App.byajLoans (Byajbook.app s)) (Byajbook.nav s)
              = Byajbook.AddLoanForm) by (unfold Byajbook.render; rewrite Hv; reflexivity).
  split.
  - intros H. apply (handleSubmit_refused parseDate random) in H.
    split; [exact H |]. subst s'. unfold Byajbook.step. rewrite R. fold f. rewrite H.
    reflexivity.
  - intros loanData Hsave newLoan.
    assert (Ht : ByajLoan.interestType loanData = SIMPLE).
    { revert Hsave. unfold Byajbook.handleSubmit.
      destruct (JS.parseFloat (Byajbook.principal f)); [| discriminate].
      destruct (JS.parseFloat (Byajbook.rate f)); [| discriminate].
      destruct (_ && _); [| discriminate]. intros [= <-]. reflexivity. }
    assert (Es' : s' = Byajbook.mkScreen (App.handleAddLoan newId loanData (Byajbook.app s))
                         (Byajbook.onBack (Byajbook.nav s)) (Byajbook.form s)).
    { subst s'. unfold Byajbook.step. rewrite R. fold f. rewrite Hsave. reflexivity. }
    assert (El : App.byajLoans (Byajbook.app s')
                 = App.byajLoans (Byajbook.app s) ++ [newLoan]).
    { rewrite Es'. subst newLoan. cbn. rewrite Ht. reflexivity. }
    split; [exact El | split; [rewrite Es'; reflexivity |]].
    intros Hfresh.
    assert (Rl : Byajbook.render currentDate (App.byajLoans (Byajbook.app s'))
                   (Byajbook.nav s')
                 = Byajbook.LoanList (App.byajLoans (Byajbook.app s')))
      by (rewrite Es'; reflexivity).
    unfold Byajbook.step at 1. rewrite Rl. cbn [Byajbook.nav].
    unfold Byajbook.render. cbn [Byajbook.onSelectLoan Byajbook.view].
    rewrite El.
    change newId with (ByajLoan.id newLoan) at 1.
    rewrite selectedLoan_appended; [reflexivity | exact Hfresh].
Qed.

Lemma X23_submit_loan_witness :
  let s := Byajbook.run Sample.parseDate Sample.random 1738319400000
             [Byajbook.ClickAddLoan "2025-01-01"; Byajbook.EditFields Sample.loan_form;
              Byajbook.ClickAddItem] Byajbook.initialScreen in
  let s' := Byajbook.step Sample.parseDate Sample.random 1738319400000 s
              (Byajbook.SubmitLoan "loan-9") in
  Byajbook.view (Byajbook.nav s) = Byajbook.ADD_LOAN /\
  (exists loanData,
     Byajbook.handleSubmit Sample.parseDate Sample.random (Byajbook.form s)
     = Byajbook.onSave loanData) /\
  Byajbook.view (Byajbook.nav s') = Byajbook.LIST.
Proof.
  intros s s'.
  assert (Hv : Byajbook.view (Byajbook.nav s) = Byajbook.ADD_LOAN) by reflexivity.
  assert (Hs : exists loanData,
             Byajbook.handleSubmit Sample.parseDate Sample.random (Byajbook.form s)
             = Byajbook.onSave loanData) by (eexists; reflexivity).
  split; [exact Hv | split; [exact Hs |]].
  destruct Hs as [loanData Hs].
  exact (proj1 (proj2 (proj2 (X23_submit_loan Sample.parseDate Sample.random
                                1738319400000 s "loan-9" Hv) loanData Hs))).
Defined.

(** ** The language *)

(** X24. A key that the English table has is never left without a text, in
    either language.  In English the lookup is the English table.  In Hindi a
    text that is present and not empty is shown, and a key that is missing
    from the Hindi table, or empty there, falls back to the English text. *)
Theorem X24_translation_fallback (translations : LanguageContext.Language -> gmap string string)
  (language : LanguageContext.Language) (key : string) :
  (is_Some (translations LanguageContext.en !! key) ->
   is_Some (LanguageContext.t translations language key)) /\
  LanguageContext.t translations LanguageContext.en key
  = translations LanguageContext.en !! key /\
  (forall text, translations LanguageContext.hi !! key = Some text -> text <> "" ->
     LanguageContext.t translations LanguageContext.hi key = Some text) /\
  (translations LanguageContext.hi !! key = None
   \/ translations LanguageContext.hi !! key = Some "" ->
   LanguageContext.t translations LanguageContext.hi key
   = translations LanguageContext.en !! key).
Proof.
  unfold LanguageContext.t. split; [| split; [| split]].
  - intros Hen. destruct (translations language !! key) as [text |]; [| exact Hen].
    destruct (JS.truthy text); [eexists; reflexivity | exact Hen].
  - destruct (translations LanguageContext.en !! key) as [text |] eqn:E; [| reflexivity].
    destruct text; reflexivity.
  - intros text -> Hne. apply truthy_true in Hne. rewrite Hne. reflexivity.
  - intros [-> | ->]; reflexivity.
Qed.

Lemma X24_translation_fallback_witness :
  let translations := fun l =>
    match l with
    | LanguageContext.en => <["rate" := "Rate"]> (<["gold" := "Gold"]> ∅)
    | LanguageContext.hi => <["rate" := ""]> (∅ : gmap string string)
    end in
  translations LanguageContext.hi !! "gold" = None /\
  translations LanguageContext.hi !! "rate" = Some "" /\
  LanguageContext.t translations LanguageContext.hi "gold" = Some "Gold" /\
  LanguageContext.t translations LanguageContext.hi "rate" = Some "Rate".
Proof.
  intros translations.
  assert (H1 : translations LanguageContext.hi !! "gold" = None) by reflexivity.
  assert (H2 : translations LanguageContext.hi !! "rate" = Some "") by reflexivity.
  split; [exact H1 | split; [exact H2 | split]].
  - rewrite (proj2 (proj2 (proj2 (X24_translation_fallback translations
                                    LanguageContext.hi "gold"))) (or_introl H1)).
    reflexivity.
  - rewrite (proj2 (proj2 (proj2 (X24_translation_fallback translations
                                    LanguageContext.hi "rate"))) (or_intror H2)).
    reflexivity.
Defined.

(** X25. The chosen language survives a reload: after the language is set,
    the initial language read back from the storage is that language, and no
    other key of the storage is touched.  A storage without the key, or with
    a value that is neither "en" nor "hi", starts the application in
    English. *)
Theorem X25_language_persists (lang : LanguageContext.Language)
  (s : LanguageContext.Language * gmap string string) :
  let s' := LanguageContext.handleSetLanguage lang s in
  s'.1 = lang /\
  LanguageContext.initialLanguage s'.2 = lang /\
  (forall key, key <> "language" -> s'.2 !! key = s.2 !! key) /\
  (s.2 !! "language" = None -> LanguageContext.initialLanguage s.2 = LanguageContext.en) /\
  (forall saved, s.2 !! "language" = Some saved -> saved <> "en" -> saved <> "hi" ->
     LanguageContext.initialLanguage s.2 = LanguageContext.en).
Proof.
  intros s'. subst s'. unfold LanguageContext.handleSetLanguage, LanguageContext.initialLanguage.
  cbn [fst snd]. split; [reflexivity | split; [| split; [| split]]].
  - rewrite lookup_insert_eq. destruct lang; reflexivity.
  - intros key Hne. apply lookup_insert_ne. congruence.
  - intros ->. reflexivity.
  - intros saved -> H1 H2.
    apply String.eqb_neq in H1, H2. rewrite H1, H2. reflexivity.
Qed.

Lemma X25_language_persists_witness :
  let storage : gmap string string := <["language" := "fr"]> (<["theme" := "dark"]> ∅) in
  storage !! "language" = Some "fr" /\
  LanguageContext.initialLanguage storage = LanguageContext.en /\
  LanguageContext.initialLanguage
    (LanguageContext.handleSetLanguage LanguageContext.hi (LanguageContext.en, storage)).2
  = LanguageContext.hi.
Proof.
  intros storage.
  assert (H : storage !! "language" = Some "fr") by reflexivity.
  split; [exact H | split].
  - apply (proj2 (proj2 (proj2 (proj2
             (X25_language_persists LanguageContext.en (LanguageContext.en, storage)))))
             "fr" H); discriminate.
  - exact (proj1 (proj2 (X25_language_persists LanguageContext.hi
                           (LanguageContext.en, storage)))).
Defined.

(** ** The transaction form on screen *)

Lemma render_same_party (parties : list Party.t) (t1 t2 : list KhataTransaction.t)
  (st : Khatabook.State) (party : Party.t) (type : TransactionType) :
  Khatabook.render parties t1 st = Khatabook.AddTransactionForm party type ->
  Khatabook.render parties t2 (Khatabook.setView Khatabook.CUSTOMER_LEDGER st)
  = Khatabook.CustomerLedger party (Khatabook.ledger (Khatabook.transactionsOf party t2)).
Proof.
  unfold Khatabook.render. cbn [Khatabook.setView Khatabook.view].
  change (Khatabook.selectedParty parties
            (Khatabook.setView Khatabook.CUSTOMER_LEDGER st))
    with (Khatabook.selectedParty parties st).
  destruct (Khatabook.view st); try discriminate;
    destruct (Khatabook.selectedParty parties st); try discriminate.
  intros [= <- _]. reflexivity.
Qed.

(** X26. In the transaction form of a party: an amount that is not a
    number, zero or negative is ignored, and the form stays.  A positive
    amount stores one more transaction, returns to the ledger of the same
    party, and has moved the balance of that party by the amount, up when the
    shop gave and down when it received. *)
Theorem X26_submit_transaction (app : App.State) (st : Khatabook.State) (party : Party.t)
  (type : TransactionType) (amount description newId : string) (now : Z) :
  Khatabook.render (App.parties app) (App.khataTransactions app) st
  = Khatabook.AddTransactionForm party type ->
  let screen' :=
    Khatabook.step (app, st) (Khatabook.SubmitTransaction amount description newId now) in
  ((forall a, JS.parseFloat amount = Some a -> a <= 0) -> screen' = (app, st)) /\
  (forall a, JS.parseFloat amount = Some a -> 0 < a ->
     List.length (App.khataTransactions screen'.1)
     = S (List.length (App.khataTransactions app)) /\
     App.parties screen'.1 = App.parties app /\
     Khatabook.render (App.parties screen'.1) (App.khataTransactions screen'.1) screen'.2
     = Khatabook.CustomerLedger party
         (Khatabook.ledger
            (Khatabook.transactionsOf party (App.khataTransactions screen'.1))) /\
     Khatabook.listBalance (App.khataTransactions screen'.1) party
     == Khatabook.listBalance (App.khataTransactions app) party
        + match type with
          | DEBIT => a
          | CREDIT => - a
          end).
Proof.
  intros R screen'. subst screen'. unfold Khatabook.step. rewrite R.
  unfold Khatabook.AddTransactionForm_handleSubmit. split.
  - intros H. destruct (JS.parseFloat amount) as [a |]; [| reflexivity].
    specialize (H a eq_refl). apply ltb_false in H. rewrite H. reflexivity.
  - intros a -> Ha. rewrite (proj2 (ltb_true 0 a) Ha). cbn [fst snd].
    split; [| split; [reflexivity | split]].
    + rewrite added_transactions.
      rewrite (Permutation_length (sort_perm Khatabook.byDate _)), List.length_app.
      simpl. lia.
    + apply (render_same_party _ _ _ _ _ _ R).
    + rewrite !listBalance_netBalance, transactionsOf_added.
      cbn [KhataTransaction.in_partyId KhataTransaction.in_type KhataTransaction.in_amount].
      rewrite String.eqb_refl. reflexivity.
Qed.

Lemma X26_submit_transaction_witness :
  let app := Sample.khata_screen.1 in
  let st := Khatabook.onAddTransaction CREDIT Sample.khata_screen.2 in
  Khatabook.render (App.parties app) (App.khataTransactions app) st
  = Khatabook.AddTransactionForm Sample.asha CREDIT /\
  JS.parseFloat "25" = Some 25 /\ 0 < 25 /\
  List.length
    (App.khataTransactions
       (Khatabook.step (app, st)
          (Khatabook.SubmitTransaction "25" "cash" "tx-3" 1735862400000)).1) = 3%nat.
Proof.
  intros app st.
  assert (R : Khatabook.render (App.parties app) (App.khataTransactions app) st
              = Khatabook.AddTransactionForm Sample.asha CREDIT) by reflexivity.
  assert (Hp : JS.parseFloat "25" = Some 25) by reflexivity.
  assert (Ha : 0 < 25) by reflexivity.
  split; [exact R | split; [exact Hp | split; [exact Ha |]]].
  exact (proj1 (proj2 (X26_submit_transaction app st Sample.asha CREDIT "25" "cash" "tx-3"
                         1735862400000 R) 25 Hp Ha)).
Defined.

(** ** The theme *)

(** X27. The button "Light" always leaves the theme light and the button
    "Dark" always leaves it dark, whatever the theme was, and toggling twice
    gives the theme back.  After the effect of a theme has run, the root
    element has the class "dark" exactly when the theme is dark, its other
    classes are as before, and a reload starts with the same theme.  A
    storage without a saved theme, or with an unknown one, starts dark. *)
Theorem X27_theme (theme : Theme.Theme) (dom : gset string * gmap string string) :
  Theme.clickLight theme = Theme.light /\
  Theme.clickDark theme = Theme.dark /\
  Theme.toggleTheme (Theme.toggleTheme theme) = theme /\
  ("dark" ∈ (Theme.effect theme dom).1 <-> theme = Theme.dark) /\
  (forall c, c <> "dark" -> c ∈ (Theme.effect theme dom).1 <-> c ∈ dom.1) /\
  Theme.initialTheme (Theme.effect theme dom).2 = theme /\
  (dom.2 !! "theme" = None -> Theme.initialTheme dom.2 = Theme.dark) /\
  (forall saved, dom.2 !! "theme" = Some saved -> saved <> "light" ->
     Theme.initialTheme dom.2 = Theme.dark).
Proof.
  split; [destruct theme; reflexivity |].
  split; [destruct theme; reflexivity |].
  split; [destruct theme; reflexivity |].
  unfold Theme.effect, Theme.initialTheme. cbn [fst snd].
  split; [| split; [| split; [| split]]].
  - destruct theme.
    + rewrite elem_of_difference, elem_of_singleton. split; [tauto | discriminate].
    + rewrite elem_of_union, elem_of_singleton. tauto.
  - intros c Hc. destruct theme.
    + rewrite elem_of_difference, elem_of_singleton. tauto.
    + rewrite elem_of_union, elem_of_singleton. tauto.
  - rewrite lookup_insert_eq. destruct theme; reflexivity.
  - intros ->. reflexivity.
  - intros saved -> Hne. apply String.eqb_neq in Hne. rewrite Hne.
    destruct (String.eqb saved "dark"); reflexivity.
Qed.

Lemma X27_theme_witness :
  let storage : gmap string string := <["theme" := "blue"]> ∅ in
  storage !! "theme" = Some "blue" /\
  Theme.initialTheme storage = Theme.dark.
Proof.
  intros storage.
  assert (H : storage !! "theme" = Some "blue") by reflexivity.
  split; [exact H |].
  apply (proj2 (proj2 (proj2 (proj2 (proj2 (proj2 (proj2
           (X27_theme Theme.dark (∅, storage)))))))) "blue" H).
  discriminate.
Defined.
